(** * PLAR (Python Local App Runner): command compiler, parameter codec,
      configuration loader and process supervisor

    A shallow embedding of [msrc/runner_plar.py].  The development follows the
    layout of the source:

    - [Py]: the fragment of Python the program relies on (exceptions, [str]
      methods, dynamic values, insertion-ordered dictionaries);
    - [Shlex]: [shlex.split], as the state machine of [shlex.read_token];
    - [Fmt]: [str.format] with keyword arguments, as the scanner of CPython's formatter;
    - [Spec]: the dataclasses [InputSpec] and [ToolSpec], [parse_module_runner];
    - [Config]: [load_config];
    - [ToolForm]: the form widgets, [collect_values], [_build_command],
      [_on_run], [_params_dict], [_apply_params], [_import_params];
    - [ProcRunner], [QProcRunner]: the two process supervisors;
    - [CombinePdfs]: [parse_page_spec] of [msrc/runner_combinepdfs.py];
    - [Saving]: [save_config];
    - [MainWindow]: [_current_tool_index], [_move_tool], [_load_config_file];
    - [ToolEditor]: [_add_input_row], [result_tool], [_read_inputs_from_table],
      the runner template of [_build_snippets];
    - [Exporting]: the file name [_export_params] suggests;
    - [Building]: [set_tool] and the rows of [CheckableComboBox].

    Strings are sequences of 8-bit characters, read as the Python code points
    0..255.  Floating point numbers, the Qt date type and [int(str)] are taken
    from a [Platform] record: the program only moves such values around. *)

From Stdlib Require Import List String Ascii ZArith Bool Lia Arith.
From Stdlib Require Import Numbers.DecimalString.
From Stdlib Require Import Sorting.Sorted Sorting.Permutation.
Import ListNotations.

Set Warnings "-register-all".
Open Scope string_scope.
Open Scope list_scope.

(** String concatenation, written apart from list concatenation. *)
Infix "+++" := String.append (at level 60, right associativity).

(* ================================================================== *)
(** * Part I: definitions                                              *)
(* ================================================================== *)

Module Py.

(** ** Exceptions and results *)

(** The exception classes the modelled code can meet.  [ValueError] carries
    its message because the program builds and displays such messages;
    [KeyError] carries the missing key; [OSError] is what a system call
    raises. *)
Inductive exn : Type :=
| ValueError (msg : string)
| KeyError (key : string)
| OSError (msg : string)
| TypeError
| IndexError
| AttributeError
| OverflowError.

Inductive result (A : Type) : Type :=
| Ok (a : A)
| Raise (e : exn).
Arguments Ok {A} a.
Arguments Raise {A} e.

Definition bind {A B : Type} (r : result A) (k : A -> result B) : result B :=
  match r with
  | Ok a => k a
  | Raise e => Raise e
  end.

Notation "x <- e ;; k" := (bind e (fun x => k))
  (at level 61, e at next level, right associativity).

Definition is_ok {A : Type} (r : result A) : bool :=
  match r with Ok _ => true | Raise _ => false end.

(** ** Characters *)

Definition code (c : ascii) : nat := nat_of_ascii c.

Definition ch (n : nat) : ascii := ascii_of_nat n.

Definition between (lo hi : nat) (c : ascii) : bool :=
  (lo <=? code c)%nat && (code c <=? hi)%nat.

(** [str.isspace] on one character: the characters [str.strip] removes. *)
Definition is_space (c : ascii) : bool :=
  between 9 13 c || between 28 32 c || (code c =? 133)%nat || (code c =? 160)%nat.

(** The line boundaries of [str.splitlines] below code point 256
    (a carriage return followed by a line feed counts once). *)
Definition is_linebreak (c : ascii) : bool :=
  between 10 13 c || between 28 30 c || (code c =? 133)%nat.

Definition is_digit (c : ascii) : bool := between 48 57 c.

(** [str.lower] on one character. *)
Definition lower_char (c : ascii) : ascii :=
  if between 65 90 c || between 192 214 c || between 216 222 c
  then ch (code c + 32) else c.

(** [str.isprintable] on one character at or above 128. *)
Definition is_printable_high (c : ascii) : bool :=
  between 161 172 c || between 174 255 c.

(** ** String methods *)

Fixpoint smap (f : ascii -> ascii) (s : string) : string :=
  match s with
  | EmptyString => EmptyString
  | String c s' => String (f c) (smap f s')
  end.

Fixpoint sforall (p : ascii -> bool) (s : string) : bool :=
  match s with
  | EmptyString => true
  | String c s' => p c && sforall p s'
  end.

Fixpoint sexists (p : ascii -> bool) (s : string) : bool :=
  match s with
  | EmptyString => false
  | String c s' => p c || sexists p s'
  end.

(** [c in s] for a one-character [c]. *)
Definition contains (c : ascii) (s : string) : bool :=
  sexists (Ascii.eqb c) s.

Definition lower (s : string) : string := smap lower_char s.

Fixpoint lstrip (s : string) : string :=
  match s with
  | EmptyString => EmptyString
  | String c s' => if is_space c then lstrip s' else s
  end.

Fixpoint rstrip (s : string) : string :=
  match s with
  | EmptyString => EmptyString
  | String c s' =>
      match rstrip s' with
      | EmptyString => if is_space c then EmptyString else String c EmptyString
      | r => String c r
      end
  end.

(** [s.strip()] *)
Definition strip (s : string) : string := rstrip (lstrip s).

(** [s.rstrip("\n")] *)
Fixpoint rstrip_nl (s : string) : string :=
  match s with
  | EmptyString => EmptyString
  | String c s' =>
      match rstrip_nl s' with
      | EmptyString => if Ascii.eqb c (ch 10) then EmptyString else String c EmptyString
      | r => String c r
      end
  end.

(** [s.split(sep)] for a one-character separator: never the empty list. *)
Fixpoint split (sep : ascii) (s : string) : list string :=
  match s with
  | EmptyString => [EmptyString]
  | String c s' =>
      if Ascii.eqb c sep then EmptyString :: split sep s'
      else match split sep s' with
           | p :: ps => String c p :: ps
           | [] => [String c EmptyString]
           end
  end.

(** [s.split(sep, 1)]: at most one cut, at the first separator. *)
Fixpoint split1 (sep : ascii) (s : string) : list string :=
  match s with
  | EmptyString => [EmptyString]
  | String c s' =>
      if Ascii.eqb c sep then [EmptyString; s']
      else match split1 sep s' with
           | p :: ps => String c p :: ps
           | [] => [String c EmptyString]
           end
  end.

(** [s.splitlines()] *)
Fixpoint splitlines (s : string) : list string :=
  match s with
  | EmptyString => []
  | String c s' =>
      if is_linebreak c then
        match s' with
        | String d s'' =>
            if Ascii.eqb c (ch 13) && Ascii.eqb d (ch 10)
            then EmptyString :: splitlines s''
            else EmptyString :: splitlines s'
        | EmptyString => [EmptyString]
        end
      else match splitlines s' with
           | l :: ls => String c l :: ls
           | [] => [String c EmptyString]
           end
  end.

(** [s + c] for one character [c]. *)
Definition push_char (s : string) (c : ascii) : string := s +++ String c "".

(** [sep.join(l)] *)
Definition join (sep : string) (l : list string) : string := String.concat sep l.

(** [s.startswith(p)] *)
Definition startswith (p s : string) : bool := String.prefix p s.

(** [s.replace(a, b)] for one-character [a] and [b]. *)
Definition replace_char (a b : ascii) (s : string) : string :=
  smap (fun c => if Ascii.eqb c a then b else c) s.

(** The comprehension [[x.strip() for x in s.split(",") if x.strip()]]. *)
Definition csv_items (s : string) : list string :=
  filter (fun x => negb (x =? "")) (map strip (split "," s)).

(** ** Decimal and hexadecimal text *)

(** [str(n)] for an integer (CPython's optional guard against integers of
    several thousand digits is not modelled). *)
Definition str_of_Z (z : Z) : string := NilEmpty.string_of_int (Z.to_int z).

Definition hex_digit (n : nat) : ascii :=
  if (n <? 10)%nat then ch (48 + n) else ch (87 + n).

(** ** [repr] of a string *)

Definition dquote : ascii := ch 34.

Definition repr_char (quote c : ascii) : string :=
  if Ascii.eqb c quote || Ascii.eqb c "\"%char then String "\"%char (String c "")
  else if Ascii.eqb c (ch 9) then "\t"
  else if Ascii.eqb c (ch 10) then "\n"
  else if Ascii.eqb c (ch 13) then "\r"
  else if (code c <? 32)%nat || (code c =? 127)%nat
          || ((127 <? code c)%nat && negb (is_printable_high c))
       then String "\"%char (String "x"%char
              (String (hex_digit (code c / 16)) (String (hex_digit (code c mod 16)) "")))
  else String c "".

Fixpoint sconcat_map (f : ascii -> string) (s : string) : string :=
  match s with
  | EmptyString => EmptyString
  | String c s' => f c +++ sconcat_map f s'
  end.

(** [repr(s)]: single quotes unless the text has a single quote and no
    double quote. *)
Definition repr_str (s : string) : string :=
  let quote := if contains "'"%char s && negb (contains dquote s)
               then dquote else "'"%char in
  String quote (sconcat_map (repr_char quote) s +++ String quote "").

(** ** Platform: floats, [int(str)] and Qt dates *)

(** What the program takes from the Python runtime and from Qt without
    looking inside: binary floating point, the parsers of [int] and [float],
    the bounded [QSpinBox], the 6-decimal [QDoubleSpinBox], and [QDate] with
    its [yyyy-MM-dd] text. *)
Class Platform : Type := {
  float : Type;
  float_str : float -> string;            (* str(x), repr(x) *)
  float_truthy : float -> bool;           (* bool(x) *)
  float_of_int : Z -> result float;       (* float(n) *)
  float_of_str : string -> result float;  (* float(s) *)
  int_of_float : float -> result Z;       (* int(x) *)
  int_of_str : string -> result Z;        (* int(s) *)
  spin_store : Z -> result Z;             (* value held after QSpinBox.setValue(n), range
                                             -10**9..10**9; the call raises when n does
                                             not fit the C type of the argument *)
  dspin_store : float -> float;           (* value held after QDoubleSpinBox.setValue(x) *)
  QDate : Type;
  date_toString : QDate -> string;          (* d.toString("yyyy-MM-dd") *)
  date_fromString : string -> option QDate; (* QDate.fromString(s, "yyyy-MM-dd"), None when invalid *)
  dateedit_store : QDate -> QDate;          (* date held after QDateEdit.setDate(d), d valid *)
}.

(** ** Dynamic values *)

Section Values.
Context {P : Platform}.

(** The values the program handles: what [json.load] returns and what the
    widgets yield. *)
Inductive pyval : Type :=
| VNone
| VBool (b : bool)
| VInt (z : Z)
| VFloat (x : float)
| VStr (s : string)
| VList (l : list pyval)
| VDict (d : list (string * pyval)).

(** [bool(v)] *)
Definition truthy (v : pyval) : bool :=
  match v with
  | VNone => false
  | VBool b => b
  | VInt z => negb (z =? 0)%Z
  | VFloat x => float_truthy x
  | VStr s => negb (s =? "")
  | VList l => match l with [] => false | _ => true end
  | VDict d => match d with [] => false | _ => true end
  end.

(** [repr(v)] *)
Fixpoint repr (v : pyval) : string :=
  match v with
  | VNone => "None"
  | VBool b => if b then "True" else "False"
  | VInt z => str_of_Z z
  | VFloat x => float_str x
  | VStr s => repr_str s
  | VList l => "[" +++ join ", " (map repr l) +++ "]"
  | VDict d =>
      "{" +++ join ", " (map (fun kv => repr_str (fst kv) +++ ": " +++ repr (snd kv)) d) +++ "}"
  end.

(** [str(v)] *)
Definition str (v : pyval) : string :=
  match v with
  | VStr s => s
  | _ => repr v
  end.

(** [a or b] *)
Definition por (a b : pyval) : pyval := if truthy a then a else b.

(** [int(v)] *)
Definition int (v : pyval) : result Z :=
  match v with
  | VBool b => Ok (if b then 1 else 0)%Z
  | VInt z => Ok z
  | VFloat x => int_of_float x
  | VStr s => int_of_str s
  | VNone | VList _ | VDict _ => Raise TypeError
  end.

(** [float(v)] *)
Definition to_float (v : pyval) : result float :=
  match v with
  | VBool b => float_of_int (if b then 1 else 0)%Z
  | VInt z => float_of_int z
  | VFloat x => Ok x
  | VStr s => float_of_str s
  | VNone | VList _ | VDict _ => Raise TypeError
  end.

End Values.

(** ** Dictionaries *)

(** A [dict] with string keys, in insertion order.  Python keeps keys
    distinct; [set] preserves that and the position of a key it overwrites. *)
Definition dict (V : Type) : Type := list (string * V).

Section Dict.
Context {V : Type}.

Fixpoint get (k : string) (d : dict V) : option V :=
  match d with
  | [] => None
  | (k', v) :: d' => if k' =? k then Some v else get k d'
  end.

Definition mem (k : string) (d : dict V) : bool :=
  match get k d with Some _ => true | None => false end.

(** [d[k] = v] *)
Fixpoint set (k : string) (v : V) (d : dict V) : dict V :=
  match d with
  | [] => [(k, v)]
  | (k', v') :: d' => if k' =? k then (k', v) :: d' else (k', v') :: set k v d'
  end.

(** [d.pop(k, None)] for its effect on [d]. *)
Definition remove (k : string) (d : dict V) : dict V :=
  filter (fun kv => negb (fst kv =? k)) d.

(** [{**d, **e}]: the entries of [e] written into [d] in order. *)
Definition update (d e : dict V) : dict V :=
  fold_left (fun acc kv => set (fst kv) (snd kv) acc) e d.

(** [dict(l)]: a dictionary from a sequence of pairs. *)
Definition of_list (l : list (string * V)) : dict V := update [] l.

Definition keys (d : dict V) : list string := map fst d.

End Dict.

End Py.

(** ** [shlex.split] *)

(** [shlex.split(s)] builds [shlex(s, posix=True)] with [whitespace_split]
    on and no comment characters, and collects [read_token] until it returns
    [None].  [read_token] reads one character per turn of its loop and keeps
    its place in [self.state] between calls, so the whole run is one pass
    over the text; the locals [quoted] and [escapedstate] start afresh each
    time a token is handed out. *)
Module Shlex.
Import Py.

(** [self.state]: [' '], ['a'], an opening quote, or the escape character. *)
Inductive lstate : Type :=
| St_white
| St_word
| St_quote (q : ascii)
| St_escape.

Record lexer : Type := {
  state : lstate;
  escapedstate : lstate;
  token : string;
  quoted : bool;
  out : list string;          (* tokens returned so far *)
}.

Definition init : lexer :=
  {| state := St_white; escapedstate := St_white; token := ""; quoted := false; out := [] |}.

(** [self.whitespace] *)
Definition is_ws (c : ascii) : bool :=
  Ascii.eqb c " " || Ascii.eqb c (ch 9) || Ascii.eqb c (ch 13) || Ascii.eqb c (ch 10).

(** [self.quotes] *)
Definition is_quote (c : ascii) : bool := Ascii.eqb c "'" || Ascii.eqb c dquote.

(** [self.escape] *)
Definition is_escape (c : ascii) : bool := Ascii.eqb c "\".

(** [break] out of the loop of [read_token] with a token to return. *)
Definition emit (st : lstate) (l : lexer) : lexer :=
  {| state := st; escapedstate := St_white; token := ""; quoted := false;
     out := out l ++ [token l] |}.

(** [if self.token or (self.posix and quoted): break  else: continue] *)
Definition emit_or_continue (st : lstate) (l : lexer) : lexer :=
  if negb (token l =? "") || quoted l then emit st l
  else {| state := st; escapedstate := escapedstate l; token := token l;
          quoted := quoted l; out := out l |}.

(** One turn of the loop of [read_token] on the character [c]. *)
Definition step (l : lexer) (c : ascii) : lexer :=
  match state l with
  | St_white =>
      if is_ws c then emit_or_continue St_white l
      else if is_escape c then
        {| state := St_escape; escapedstate := St_word; token := token l;
           quoted := quoted l; out := out l |}
      else if is_quote c then
        {| state := St_quote c; escapedstate := escapedstate l; token := token l;
           quoted := quoted l; out := out l |}
      else
        {| state := St_word; escapedstate := escapedstate l; token := String c "";
           quoted := quoted l; out := out l |}
  | St_quote q =>
      if Ascii.eqb c q then
        {| state := St_word; escapedstate := escapedstate l; token := token l;
           quoted := true; out := out l |}
      else if is_escape c && Ascii.eqb q dquote then
        {| state := St_escape; escapedstate := St_quote q; token := token l;
           quoted := true; out := out l |}
      else
        {| state := St_quote q; escapedstate := escapedstate l; token := push_char (token l) c;
           quoted := true; out := out l |}
  | St_escape =>
      let tok :=
        match escapedstate l with
        | St_quote q =>
            if negb (is_escape c) && negb (Ascii.eqb c q)
            then push_char (token l) "\" else token l
        | _ => token l
        end in
      {| state := escapedstate l; escapedstate := escapedstate l; token := push_char tok c;
         quoted := quoted l; out := out l |}
  | St_word =>
      if is_ws c then emit_or_continue St_white l
      else if is_quote c then
        {| state := St_quote c; escapedstate := escapedstate l; token := token l;
           quoted := quoted l; out := out l |}
      else if is_escape c then
        {| state := St_escape; escapedstate := St_word; token := token l;
           quoted := quoted l; out := out l |}
      else
        {| state := St_word; escapedstate := escapedstate l; token := push_char (token l) c;
           quoted := quoted l; out := out l |}
  end.

Fixpoint run (l : lexer) (s : string) : lexer :=
  match s with
  | EmptyString => l
  | String c s' => run (step l c) s'
  end.

(** The end of the text: the last token if there is one, or the error of an
    open quotation or a dangling escape. *)
Definition finish (l : lexer) : result (list string) :=
  match state l with
  | St_white | St_word =>
      if negb (token l =? "") || quoted l then Ok (out l ++ [token l]) else Ok (out l)
  | St_quote _ => Raise (ValueError "No closing quotation")
  | St_escape => Raise (ValueError "No escaped character")
  end.

Definition split (s : string) : result (list string) := finish (run init s).

End Shlex.

(** ** [str.format] with keyword arguments only *)

(** [template.format] on a dictionary of keyword arguments, as CPython scans it: literal text with doubled
    braces, then for each replacement field its name, an optional conversion
    after [!] and an optional format specification after [:].  A field is
    looked up as soon as its closing brace is read, so the first error from
    the left is the one raised.

    Fields that go on with an attribute or an index, that ask for a
    conversion, or that carry a non-empty format specification are outside
    this model: for them the result is [None]. *)
Module Fmt.
Import Py.

Inductive fstate : Type :=
| FLit                                   (* literal text *)
| FOpen                                  (* an opening brace was just read *)
| FClose                                 (* a closing brace was just read *)
| FName (name : string)                  (* in a field name *)
| FBracket (name : string)               (* in the brackets of a field name *)
| FConv (name : string)                  (* after the exclamation mark *)
| FConvEnd (name : string) (conv : ascii)
| FSpec (name : string) (conv : option ascii) (spec : string) (depth : nat).

(** The part of a field name before the first [.] or [[]. *)
Fixpoint first_part (s : string) : string :=
  match s with
  | EmptyString => EmptyString
  | String c s' =>
      if Ascii.eqb c "." || Ascii.eqb c "[" then EmptyString else String c (first_part s')
  end.

Fixpoint rest_part (s : string) : string :=
  match s with
  | EmptyString => EmptyString
  | String c s' =>
      if Ascii.eqb c "." || Ascii.eqb c "[" then s else rest_part s'
  end.

(** [PY_SSIZE_T_MAX] on a 64-bit build. *)
Definition ssize_max : Z := (2 ^ 63 - 1)%Z.

(** [get_integer]: [Ok None] stands for -1 (not a number); digits are read
    until one is not decimal, and an overflow is an error on the spot. *)
Fixpoint get_integer_from (acc : Z) (s : string) : result (option Z) :=
  match s with
  | EmptyString => Ok (Some acc)
  | String c s' =>
      if is_digit c then
        let d := Z.of_nat (code c - 48) in
        if (acc >? (ssize_max - d) / 10)%Z
        then Raise (ValueError "Too many decimal digits in format string")
        else get_integer_from (acc * 10 + d)%Z s'
      else Ok None
  end.

Definition get_integer (s : string) : result (option Z) :=
  match s with
  | EmptyString => Ok None
  | _ => get_integer_from 0%Z s
  end.

Section Format.
Context {P : Platform}.

(** [get_field_object] up to the object named by the first part: positional
    and automatic fields index the empty tuple of positional arguments. *)
Definition lookup (kw : dict pyval) (name : string) : result pyval :=
  let first := first_part name in
  idx <- get_integer first ;;
  match first, idx with
  | EmptyString, _ => Raise IndexError
  | _, Some _ => Raise IndexError
  | _, None =>
      match get first kw with
      | Some v => Ok v
      | None => Raise (KeyError first)
      end
  end.

(** A complete field: the object is fetched, then converted and formatted. *)
Definition field_end (kw : dict pyval) (name : string) (conv : option ascii)
    (spec : string) (acc : string) : option (result (fstate * string)) :=
  match lookup kw name with
  | Raise e => Some (Raise e)
  | Ok v =>
      match rest_part name, conv, spec with
      | EmptyString, None, EmptyString => Some (Ok (FLit, acc +++ str v))
      | _, _, _ => None
      end
  end.

Definition name_step (kw : dict pyval) (name : string) (acc : string) (c : ascii)
    : option (result (fstate * string)) :=
  if Ascii.eqb c "{" then Some (Raise (ValueError "unexpected '{' in field name"))
  else if Ascii.eqb c "[" then Some (Ok (FBracket (push_char name c), acc))
  else if Ascii.eqb c "}" then field_end kw name None "" acc
  else if Ascii.eqb c ":" then Some (Ok (FSpec name None "" 1, acc))
  else if Ascii.eqb c "!" then Some (Ok (FConv name, acc))
  else Some (Ok (FName (push_char name c), acc)).

Definition step (kw : dict pyval) (st : fstate) (acc : string) (c : ascii)
    : option (result (fstate * string)) :=
  match st with
  | FLit =>
      if Ascii.eqb c "{" then Some (Ok (FOpen, acc))
      else if Ascii.eqb c "}" then Some (Ok (FClose, acc))
      else Some (Ok (FLit, push_char acc c))
  | FOpen =>
      if Ascii.eqb c "{" then Some (Ok (FLit, push_char acc c))
      else name_step kw "" acc c
  | FClose =>
      if Ascii.eqb c "}" then Some (Ok (FLit, push_char acc c))
      else Some (Raise (ValueError "Single '}' encountered in format string"))
  | FName name => name_step kw name acc c
  | FBracket name =>
      if Ascii.eqb c "]" then Some (Ok (FName (push_char name c), acc))
      else Some (Ok (FBracket (push_char name c), acc))
  | FConv name => Some (Ok (FConvEnd name c, acc))
  | FConvEnd name conv =>
      if Ascii.eqb c "}" then field_end kw name (Some conv) "" acc
      else if Ascii.eqb c ":" then Some (Ok (FSpec name (Some conv) "" 1, acc))
      else Some (Raise (ValueError "expected ':' after conversion specifier"))
  | FSpec name conv spec depth =>
      if Ascii.eqb c "{" then Some (Ok (FSpec name conv (push_char spec c) (S depth), acc))
      else if Ascii.eqb c "}" then
        match depth with
        | 1 => field_end kw name conv spec acc
        | _ => Some (Ok (FSpec name conv (push_char spec c) (pred depth), acc))
        end
      else Some (Ok (FSpec name conv (push_char spec c) depth, acc))
  end.

Definition at_end (st : fstate) (acc : string) : result string :=
  match st with
  | FLit => Ok acc
  | FOpen => Raise (ValueError "Single '{' encountered in format string")
  | FClose => Raise (ValueError "Single '}' encountered in format string")
  | FName _ | FBracket _ => Raise (ValueError "expected '}' before end of string")
  | FConv _ =>
      Raise (ValueError "end of string while looking for conversion specifier")
  | FConvEnd _ _ | FSpec _ _ _ _ => Raise (ValueError "unmatched '{' in format spec")
  end.

Fixpoint scan (kw : dict pyval) (st : fstate) (acc : string) (s : string)
    : option (result string) :=
  match s with
  | EmptyString => Some (at_end st acc)
  | String c s' =>
      match step kw st acc c with
      | None => None
      | Some (Raise e) => Some (Raise e)
      | Some (Ok (st', acc')) => scan kw st' acc' s'
      end
  end.

(** [template.format] with the entries of [kw] as keyword arguments. *)
Definition format (template : string) (kw : dict pyval) : option (result string) :=
  scan kw FLit "" template.

End Format.
End Fmt.

(** ** Data models *)

(** [@dataclass class InputSpec] as its annotations declare it. *)
Module InputSpec.
Import Py.
Section Def.
Context {P : Platform}.

Record t : Type := {
  name : string;
  type : string;
  label : option string;
  default : pyval;                 (* [VNone] when absent *)
  choices : option (list string);
  required : bool;
  readonly : bool;
}.

End Def.
End InputSpec.

(** [@dataclass class ToolSpec] *)
Module ToolSpec.
Import Py.
Section Def.
Context {P : Platform}.

Record t : Type := {
  name : string;
  runner_mode : string;
  runner : string;
  script : option string;
  output_dir_optional : bool;
  inputs : list InputSpec.t;
  notes : option string;
}.

End Def.
End ToolSpec.

(** [parse_module_runner(s)] *)
Definition parse_module_runner (s : string) : Py.result (string * string) :=
  if negb (Py.contains ":" s)
  then Py.Raise (Py.ValueError "Runner must be 'pkg.module:function'")
  else match Py.split1 ":" s with
       | [mod_; func] => Py.Ok (Py.strip mod_, Py.strip func)
       | _ => Py.Raise (Py.ValueError "not enough values to unpack (expected 2, got 1)")
       end.

(** What the program reads from its host: [sys.executable],
    [os.path.isfile] and [os.name]. *)
Record Host : Type := {
  sys_executable : string;
  isfile : string -> bool;
  os_name : string;
}.

(** ** The command compiler: [ToolForm._build_command] *)

Module Compiler.
Import Py.
Section Def.
Context {P : Platform}.

(** The value bag: [Dict[str, Any]], in the order [collect_values] filled it. *)
Definition ValueBag : Type := dict pyval.

(** [vals.get(k)] *)
Definition vget (k : string) (vals : ValueBag) : pyval :=
  match get k vals with Some v => v | None => VNone end.

(** [py = sys.executable.replace(chr(92), chr(47))] *)
Definition python_path (h : Host) : string :=
  replace_char (ch 92) (ch 47) (sys_executable h).

(** [{i.name for i in tool.inputs if i.type == "toggle"}] *)
Definition toggle_names (tool : ToolSpec.t) : list string :=
  nodup string_dec
    (map InputSpec.name
         (filter (fun i => InputSpec.type i =? "toggle") (ToolSpec.inputs tool))).

(** [tool.script or ""] *)
Definition script_or_empty (tool : ToolSpec.t) : string :=
  match ToolSpec.script tool with Some s => s | None => "" end.

(** The three placeholders written for the toggle [k]. *)
Definition add_toggle (vals : ValueBag) (ph : dict pyval) (k : string) : dict pyval :=
  let on := truthy (vget k vals) in
  let ph1 := set (k +++ "_flag") (VStr (if on then "--" +++ k else "--no-" +++ k)) ph in
  let ph2 := set (k +++ "_yn") (VStr (if on then "yes" else "no")) ph1 in
  set (k +++ "_01") (VStr (if on then "1" else "0")) ph2.

(** The dictionary [placeholders] once the toggle loop has run. *)
Definition placeholders (h : Host) (tool : ToolSpec.t) (vals : ValueBag) : dict pyval :=
  let py := python_path h in
  let base :=
    update vals
      [("python", VStr py);
       ("python_u", VStr (py +++ " -u"));
       ("script", VStr (script_or_empty tool));
       ("output_dir", por (vget "_output_dir" vals) (VStr ""))] in
  fold_left (add_toggle vals) (toggle_names tool) base.

(** The loop [for k, v in vals.items()] of module mode. *)
Fixpoint module_args (vals : ValueBag) : list pyval :=
  match vals with
  | [] => []
  | (k, v) :: rest =>
      if k =? "_output_dir" then module_args rest
      else VStr ("--" +++ k) :: VStr (str v) :: module_args rest
  end.

(** [if vals.get("_output_dir"): cmd += ["--output_dir", vals["_output_dir"]]] *)
Definition output_dir_args (vals : ValueBag) : list pyval :=
  if truthy (vget "_output_dir" vals)
  then [VStr "--output_dir"; vget "_output_dir" vals]
  else [].

(** [_build_command(tool, vals)].  The argument vector is a Python list:
    its items are the strings the compiler makes, and the value stored
    under ["_output_dir"] as it is.  [None]: the template needs a part of
    [str.format] outside the model. *)
Definition _build_command (h : Host) (tool : ToolSpec.t) (vals : ValueBag)
    : option (result (list pyval)) :=
  let py := python_path h in
  if negb (isfile h py) then
    Some (Raise (ValueError ("Python service not found: " +++ py)))
  else
    let ph := placeholders h tool vals in
    if ToolSpec.runner_mode tool =? "module" then
      Some (mf <- parse_module_runner (ToolSpec.runner tool) ;;
            Ok (map VStr [py; "-u"; "-m"; fst mf; "--func"; snd mf]
                  ++ module_args vals ++ output_dir_args vals))
    else if ToolSpec.runner_mode tool =? "command" then
      if ToolSpec.runner tool =? "" then
        Some (Raise (ValueError "Command template is empty."))
      else
        match Fmt.format (ToolSpec.runner tool) ph with
        | None => None
        | Some (Raise (KeyError k)) =>
            Some (Raise (ValueError ("Missing placeholder in template: " +++ repr_str k)))
        | Some (Raise e) => Some (Raise e)
        | Some (Ok templ) => Some (toks <- Shlex.split templ ;; Ok (map VStr toks))
        end
    else
      Some (Raise (ValueError ("Unknown runner_mode: " +++ ToolSpec.runner_mode tool))).

End Def.
End Compiler.

(** ** The form: [class ToolForm] *)

Module ToolForm.
Import Py.
Export Compiler.
Section Def.
Context {P : Platform}.

(** The widgets [set_tool] places in [self.fields], with the part of their
    state the program reads or writes.  [FilePicker] is the container with a
    [_file_line]; [CheckableComboBox] is the subclass of [QComboBox] defined
    in the source, each of its rows a text and a check mark. *)
Inductive widget : Type :=
| QLineEdit (text : string)
| FilePicker (text : string)
| QSpinBox (value : Z)
| QDoubleSpinBox (value : float)
| QDateEdit (date : QDate)
| QCheckBox (checked : bool)
| QComboBox (items : list string) (current : option nat)
| CheckableComboBox (rows : list (string * bool)) (current : option nat)
| QPlainTextEdit (text : string).

(** A line of the log view: output of the child, or the line
    [[apply] name: e] that [_apply_params] writes for the exception [e]. *)
Inductive logline : Type :=
| Output (text : string)
| ApplyFailed (name : string) (e : exn).

Inductive status_text : Type :=
| Ready
| Running
| Stopping
| FinishedWith (code : Z)
| Imported (file : string)
| Exported (file : string).

Record form : Type := {
  tool : option ToolSpec.t;
  fields : dict widget;
  output_dir : string;            (* text of the output-directory line edit *)
  log : list logline;
  status : status_text;
  _pending_cmd : option (list pyval);
}.

(** What a handler shows or schedules besides changing the form. *)
Inductive effect : Type :=
| Warning (title text : string)          (* QMessageBox.warning *)
| Critical (title : string) (e : exn)    (* QMessageBox.critical(..., str(e)) *)
| Information (title text : string)      (* QMessageBox.information *)
| Question (title text : string)         (* QMessageBox.question *)
| Schedule_start_run                     (* QTimer.singleShot(0, self._start_run) *)
| Schedule_fit_inputs_height.            (* QTimer.singleShot(0, self._fit_inputs_height) *)

(** *** Widget methods *)

(** [QComboBox.currentText()] *)
Definition currentText (items : list string) (current : option nat) : string :=
  match current with
  | Some i => nth i items ""
  | None => ""
  end.

(** [QComboBox.findText(s)]: the first row whose text is [s]. *)
Fixpoint findText (s : string) (items : list string) : option nat :=
  match items with
  | [] => None
  | x :: rest =>
      if x =? s then Some 0
      else match findText s rest with Some i => Some (S i) | None => None end
  end.

(** [CheckableComboBox.checkedItems()] *)
Definition checkedItems (rows : list (string * bool)) : list string :=
  map fst (filter snd rows).

(** [CheckableComboBox.setCheckedItems(items)], [want] being
    [set(map(str, items or []))]. *)
Definition setCheckedItems (want : list string) (rows : list (string * bool))
    : list (string * bool) :=
  map (fun r => (fst r, existsb (String.eqb (fst r)) want)) rows.

(** *** [collect_values] *)

(** The non-empty trimmed lines of a text, joined by commas. *)
Definition list_value (text : string) : string :=
  join "," (filter (fun ln => negb (ln =? "")) (map strip (splitlines text))).

(** The value [collect_values] stores for a parameter of type [ty] shown by
    the widget [w].  [None]: [w] is not of the class [set_tool] builds for
    [ty], so the method the source calls belongs to another class; forms
    built by [set_tool] from distinct names never get there. *)
Definition read_widget (ty : string) (w : widget) : option pyval :=
  if (ty =? "string") || (ty =? "file") || (ty =? "folder") || (ty =? "password") then
    match w with
    | FilePicker s => Some (VStr (strip s))
    | QLineEdit s => Some (VStr (strip s))
    | _ => None
    end
  else if ty =? "int" then
    match w with QSpinBox v => Some (VInt v) | _ => None end
  else if ty =? "float" then
    match w with QDoubleSpinBox x => Some (VFloat x) | _ => None end
  else if ty =? "enum" then
    match w with QComboBox items cur => Some (VStr (currentText items cur)) | _ => None end
  else if ty =? "multienum" then
    match w with
    | CheckableComboBox rows _ => Some (VStr (join "," (checkedItems rows)))
    | _ => None
    end
  else if ty =? "date" then
    match w with QDateEdit d => Some (VStr (date_toString d)) | _ => None end
  else if ty =? "toggle" then
    match w with QCheckBox b => Some (VBool b) | _ => None end
  else if ty =? "list" then
    match w with QPlainTextEdit s => Some (VStr (list_value s)) | _ => None end
  else
    match w with QLineEdit s => Some (VStr (strip s)) | _ => None end.

(** The loop of [collect_values] over [self.tool.inputs]. *)
Fixpoint collect_fields (fs : dict widget) (specs : list InputSpec.t) (vals : ValueBag)
    : option ValueBag :=
  match specs with
  | [] => Some vals
  | spec :: rest =>
      match get (InputSpec.name spec) fs with
      | None => collect_fields fs rest vals
      | Some w =>
          match read_widget (InputSpec.type spec) w with
          | None => None
          | Some v => collect_fields fs rest (set (InputSpec.name spec) v vals)
          end
      end
  end.

(** [self.output_dir.text().strip() or None] *)
Definition output_dir_value (f : form) : pyval :=
  match strip (output_dir f) with
  | EmptyString => VNone
  | s => VStr s
  end.

Definition collect_values (f : form) : option ValueBag :=
  match tool f with
  | None => Some []
  | Some t =>
      match collect_fields (fields f) (ToolSpec.inputs t) [] with
      | None => None
      | Some vals => Some (set "_output_dir" (output_dir_value f) vals)
      end
  end.

(** *** [_on_run] and [_start_run] *)

(** [v in (None, "", [])] *)
Definition is_blank (v : pyval) : bool :=
  match v with
  | VNone => true
  | VStr EmptyString => true
  | VList [] => true
  | _ => false
  end.

(** [spec.label or spec.name] *)
Definition label_or_name (spec : InputSpec.t) : string :=
  match InputSpec.label spec with
  | Some EmptyString | None => InputSpec.name spec
  | Some l => l
  end.

(** The first required parameter whose value is blank, as the loop of
    [_on_run] finds it. *)
Fixpoint first_missing (specs : list InputSpec.t) (vals : ValueBag) : option InputSpec.t :=
  match specs with
  | [] => None
  | spec :: rest =>
      if InputSpec.required spec
         && is_blank (match get (InputSpec.name spec) vals with Some v => v | None => VStr "" end)
      then Some spec
      else first_missing rest vals
  end.

Definition set_status (s : status_text) (f : form) : form :=
  {| tool := tool f; fields := fields f; output_dir := output_dir f; log := log f;
     status := s; _pending_cmd := _pending_cmd f |}.

Definition set_pending (cmd : list pyval) (f : form) : form :=
  {| tool := tool f; fields := fields f; output_dir := output_dir f; log := log f;
     status := status f; _pending_cmd := Some cmd |}.

(** [_on_run]: the form afterwards and what was shown or scheduled. *)
Definition _on_run (h : Host) (f : form) : option (form * list effect) :=
  match tool f with
  | None => Some (f, [])
  | Some t =>
      match collect_values f with
      | None => None
      | Some vals =>
          match first_missing (ToolSpec.inputs t) vals with
          | Some spec =>
              Some (f, [Warning "Missing Input" ("'" +++ label_or_name spec +++ "' is required.")])
          | None =>
              match _build_command h t vals with
              | None => None
              | Some (Raise e) => Some (f, [Critical "Build Error" e])
              | Some (Ok cmd) =>
                  Some (set_pending cmd (set_status Running f), [Schedule_start_run])
              end
          end
      end
  end.

(** The call [self.runner.start(cmd, cwd=None, env=env)] that [_start_run]
    makes, the only place where the form launches a process: [None] when
    [_pending_cmd] is missing or empty. *)
Definition _start_run (f : form) : option (list pyval * list (string * string)) :=
  match _pending_cmd f with
  | None | Some [] => None
  | Some cmd => Some (cmd, [("PYTHONUNBUFFERED", "1"); ("PYTHONIOENCODING", "utf-8")])
  end.

(** The processes launched by running the slots an event handler scheduled. *)
Definition spawned (f : form) (effs : list effect) : list (list pyval) :=
  flat_map (fun e =>
              match e with
              | Schedule_start_run =>
                  match _start_run f with Some (cmd, _) => [cmd] | None => [] end
              | _ => []
              end) effs.

(** *** The parameter codec: [_params_dict], [_apply_params], [_import_params] *)

(** The payload [{"meta": meta, "values": vals}]. *)
Record ParameterRecord : Type := {
  meta : dict pyval;
  values : dict pyval;
}.

Definition opt_str (o : option string) : pyval :=
  match o with Some s => VStr s | None => VNone end.

(** [{k: v for k, v in vals.items() if not k.startswith("_")}] *)
Definition strip_internal (vals : ValueBag) : dict pyval :=
  filter (fun kv => negb (startswith "_" (fst kv))) vals.

(** [_params_dict()], [now] being [time.strftime("%Y-%m-%d %H:%M:%S")]. *)
Definition _params_dict (now : string) (f : form) : option ParameterRecord :=
  match collect_values f with
  | None => None
  | Some vals =>
      let on_tool (g : ToolSpec.t -> pyval) : pyval :=
        match tool f with Some t => g t | None => VNone end in
      Some {| meta :=
                [("tool", on_tool (fun t => VStr (ToolSpec.name t)));
                 ("runner_mode", on_tool (fun t => VStr (ToolSpec.runner_mode t)));
                 ("runner", on_tool (fun t => VStr (ToolSpec.runner t)));
                 ("script", on_tool (fun t => opt_str (ToolSpec.script t)));
                 ("timestamp", VStr now);
                 ("app", VStr "PLAR");
                 ("version", VInt 1)];
              values := strip_internal vals |}
  end.

(** [str(v or "")] *)
Definition text_of (v : pyval) : string := str (por v (VStr "")).

(** The [items] of the multi-choice and list branches: a comma-separated
    text, a list, or nothing. *)
Definition items_of (v : pyval) : list pyval :=
  match v with
  | VStr s => map VStr (csv_items s)
  | VList l => l
  | _ => []
  end.

(** ["\n".join(items)] *)
Fixpoint join_lines (items : list pyval) : result string :=
  match items with
  | [] => Ok ""
  | VStr s :: rest =>
      match rest with
      | [] => Ok s
      | _ => r <- join_lines rest ;; Ok (s +++ String (ch 10) r)
      end
  | _ :: _ => Raise TypeError
  end.

(** The value of [on] in the toggle branch. *)
Definition toggle_on (v : pyval) : bool :=
  match v with
  | VBool true => true
  | _ =>
      let sv := lower (strip (str v)) in
      (sv =? "1") || (sv =? "true") || (sv =? "yes") || (sv =? "on")
  end.

Definition is_text_type (t : string) : bool :=
  (t =? "string") || (t =? "file") || (t =? "folder") || (t =? "password").

(** The last branch: [if isinstance(w, QLineEdit): w.setText(str(v or ""))] *)
Definition apply_fallback (v : pyval) (w : widget) : result widget :=
  match w with
  | QLineEdit _ => Ok (QLineEdit (text_of v))
  | _ => Ok w
  end.

(** The branches of the [try] in [_apply_params], each guarded by the type
    of the parameter and the class of the widget: [None] when the guard
    fails and the next [elif] is tried. *)
Definition int_branch (t : string) (v : pyval) (w : widget) : option (result widget) :=
  if t =? "int" then
    match w with
    | QSpinBox _ => Some (n <- int v ;; m <- spin_store n ;; Ok (QSpinBox m))
    | _ => None
    end
  else None.

Definition float_branch (t : string) (v : pyval) (w : widget) : option (result widget) :=
  if t =? "float" then
    match w with
    | QDoubleSpinBox _ => Some (x <- to_float v ;; Ok (QDoubleSpinBox (dspin_store x)))
    | _ => None
    end
  else None.

Definition enum_branch (t : string) (v : pyval) (w : widget) : option (result widget) :=
  if t =? "enum" then
    match w with
    | QComboBox items cur =>
        Some (Ok (match findText (str v) items with
                  | Some i => QComboBox items (Some i)
                  | None => w
                  end))
    | CheckableComboBox rows cur =>
        Some (Ok (match findText (str v) (map fst rows) with
                  | Some i => CheckableComboBox rows (Some i)
                  | None => w
                  end))
    | _ => None
    end
  else None.

Definition multienum_branch (t : string) (v : pyval) (w : widget) : option (result widget) :=
  if t =? "multienum" then
    match w with
    | CheckableComboBox rows cur =>
        Some (Ok (CheckableComboBox (setCheckedItems (map str (items_of v)) rows) cur))
    | _ => None
    end
  else None.

Definition date_branch (t : string) (v : pyval) (w : widget) : option (result widget) :=
  if t =? "date" then
    match w with
    | QDateEdit _ =>
        Some (Ok (match date_fromString (str v) with
                  | Some qd => QDateEdit (dateedit_store qd)
                  | None => w
                  end))
    | _ => None
    end
  else None.

Definition toggle_branch (t : string) (v : pyval) (w : widget) : option (result widget) :=
  if t =? "toggle" then
    match w with
    | QCheckBox _ => Some (Ok (QCheckBox (toggle_on v)))
    | _ => None
    end
  else None.

Definition list_branch (t : string) (v : pyval) (w : widget) : option (result widget) :=
  if t =? "list" then
    match w with
    | QPlainTextEdit _ => Some (s <- join_lines (items_of v) ;; Ok (QPlainTextEdit s))
    | _ => None
    end
  else None.

Definition orelse {A : Type} (o : option A) (next : A) : A :=
  match o with Some a => a | None => next end.

(** The body of the [try] in [_apply_params] for one parameter of type [t]:
    the widget afterwards, or the exception raised. *)
Definition apply_one (t : string) (v : pyval) (w : widget) : result widget :=
  if is_text_type t then
    match w with
    | FilePicker _ => Ok (FilePicker (text_of v))
    | QLineEdit _ => Ok (QLineEdit (text_of v))
    | _ => Ok w
    end
  else
    orelse (int_branch t v w)
   (orelse (float_branch t v w)
   (orelse (enum_branch t v w)
   (orelse (multienum_branch t v w)
   (orelse (date_branch t v w)
   (orelse (toggle_branch t v w)
   (orelse (list_branch t v w)
           (apply_fallback v w))))))).

(** [t or "string"] *)
Definition or_string (t : string) : string :=
  match t with
  | EmptyString => "string"
  | _ => t
  end.

(** [spec.type or "string"] *)
Definition type_or_string (spec : InputSpec.t) : string := or_string (InputSpec.type spec).

Definition set_fields (fs : dict widget) (f : form) : form :=
  {| tool := tool f; fields := fs; output_dir := output_dir f; log := log f;
     status := status f; _pending_cmd := _pending_cmd f |}.

Definition append_log (l : logline) (f : form) : form :=
  {| tool := tool f; fields := fields f; output_dir := output_dir f; log := log f ++ [l];
     status := status f; _pending_cmd := _pending_cmd f |}.

(** One turn of the loop of [_apply_params]. *)
Definition apply_spec (vals : dict pyval)
    (f : form) (spec : InputSpec.t) : form :=
  let name := InputSpec.name spec in
  match get name vals with
  | None => f
  | Some v =>
      match get name (fields f) with
      | None => f
      | Some w =>
          match apply_one (type_or_string spec) v w with
          | Ok w' => set_fields (set name w' (fields f)) f
          | Raise e => append_log (ApplyFailed name e) f
          end
      end
  end.

(** [_apply_params(values)] for a dictionary [values]. *)
Definition _apply_params (vals : dict pyval) (f : form)
    : form * list effect :=
  match tool f with
  | None => (f, [])
  | Some t =>
      (fold_left (apply_spec vals) (ToolSpec.inputs t) f,
       [Schedule_fit_inputs_height])
  end.

(** [name in values] for a [values] that is any JSON value. *)
Definition name_in (name : string) (v : pyval) : result bool :=
  match v with
  | VDict d => Ok (mem name d)
  | VList l =>
      Ok (existsb (fun x => match x with VStr s => s =? name | _ => false end) l)
  | VStr s => Ok (match String.index 0 name s with Some _ => true | None => false end)
  | _ => Raise TypeError
  end.

(** [_apply_params(values)] as [_import_params] calls it, on whatever the
    file held: subscripting anything but a dictionary by a name raises
    before any widget is touched. *)
Definition apply_any (v : pyval) (f : form)
    : result (form * list effect) :=
  match v with
  | VDict d => Ok (_apply_params d f)
  | _ =>
      match tool f with
      | None => Ok (f, [])
      | Some t =>
          (fix loop (specs : list InputSpec.t) : result (form * list effect) :=
             match specs with
             | [] => Ok (f, [Schedule_fit_inputs_height])
             | spec :: rest =>
                 b <- name_in (InputSpec.name spec) v ;;
                 if b then Raise TypeError else loop rest
             end) (ToolSpec.inputs t)
      end
  end.

(** [(x or "").strip()] where [x] is any JSON value. *)
Definition strip_or_empty (x : pyval) : result string :=
  match por x (VStr "") with
  | VStr s => Ok (strip s)
  | _ => Raise AttributeError
  end.

(** [d.get(k, dflt)] on a JSON value that is expected to be a dictionary. *)
Definition get_attr_get (d : pyval) (k : string) (dflt : pyval) : result pyval :=
  match d with
  | VDict o => Ok (match get k o with Some v => v | None => dflt end)
  | _ => Raise AttributeError
  end.

Definition nl : string := String (ch 10) "".

(** The text of the question asked on a tool mismatch. *)
Definition mismatch_text (meta_tool cur_tool : string) : string :=
  "Settings were saved for tool:" +++ nl +++ "  '" +++ meta_tool +++ "'" +++ nl +++ nl
  +++ "Current tool is:" +++ nl +++ "  '" +++ cur_tool +++ "'" +++ nl +++ nl
  +++ "Apply anyway?".

(** [values = data.get("values", data if isinstance(data, dict) else {})] *)
Definition values_of (data : pyval) : result pyval := get_attr_get data "values" data.

(** [meta = data.get("meta", {}) if isinstance(data, dict) else {}] followed
    by [meta_tool = (meta.get("tool") or "").strip()]. *)
Definition meta_tool_of (data : pyval) : result string :=
  let meta_ := match data with
               | VDict o => match get "meta" o with Some m => m | None => VDict [] end
               | _ => VDict []
               end in
  x <- get_attr_get meta_ "tool" VNone ;; strip_or_empty x.

(** The body of the [try] of [_import_params]: [loaded] is the outcome of
    opening the file and [json.load], [yes] whether the user answers Yes if
    asked.  The effects shown before an exception are kept with it. *)
Definition import_body (loaded : result pyval) (yes : bool)
    (file : string) (t : ToolSpec.t) (f : form) : list effect * result (form * list effect) :=
  match loaded with
  | Raise e => ([], Raise e)
  | Ok data =>
      match values_of data with
      | Raise e => ([], Raise e)
      | Ok vals =>
          match meta_tool_of data with
          | Raise e => ([], Raise e)
          | Ok meta_tool =>
              let cur_tool := strip (ToolSpec.name t) in
              let ask := negb (meta_tool =? "") && negb (meta_tool =? cur_tool) in
              let asked := if ask then [Question "Apply anyway?" (mismatch_text meta_tool cur_tool)]
                           else [] in
              if ask && negb yes then (asked, Ok (f, []))
              else
                match apply_any vals f with
                | Raise e => (asked, Raise e)
                | Ok (f', effs) => (asked, Ok (set_status (Imported file) f', effs))
                end
          end
      end
  end.

(** [_import_params()]: [file] is the name chosen in the dialog, empty when
    the dialog was cancelled. *)
Definition _import_params (file : string)
    (loaded : result pyval) (yes : bool) (f : form) : form * list effect :=
  match tool f with
  | None => (f, [Information "Import" "No tool selected."])
  | Some t =>
      if file =? "" then (f, [])
      else
        match import_body loaded yes file t f with
        | (shown, Ok (f', effs)) => (f', shown ++ effs)
        | (shown, Raise e) => (f, shown ++ [Critical "Import Failed" e])
        end
  end.

End Def.
End ToolForm.

(** ** The thread-based supervisor: [class ProcRunner] *)

Module ProcRunner.
Import Py.

(** The signals of the class. *)
Inductive signal : Type :=
| started
| lineReady (line : string)
| error (e : exn)               (* error.emit(str(e)) *)
| finished (code : Z).

(** What the loop [for line in self.proc.stdout] meets: a line, with the
    value of [self._stop] tested after the line was emitted, or an exception
    raised by the read. *)
Inductive read : Type :=
| Line (text : string) (stop_seen : bool)
| ReadError (e : exn).

(** What [subprocess.Popen] does: it raises, or the child starts, its merged
    output is read and [self.proc.wait()] returns [rc]. *)
Inductive child : Type :=
| SpawnError (e : exn)
| Spawned (reads : list read) (rc : Z).

(** The loop over the output followed by [wait] and [finished.emit(rc)],
    inside the [try]. *)
Fixpoint pump (reads : list read) (rc : Z) : list signal :=
  match reads with
  | [] => [finished rc]
  | Line text stop_seen :: rest =>
      lineReady (rstrip_nl text) :: (if stop_seen then [finished rc] else pump rest rc)
  | ReadError e :: _ => [error e; finished (-1)]
  end.

(** [run()]: the signals emitted, in order. *)
Definition run (c : child) : list signal :=
  started ::
  match c with
  | SpawnError e => [error e; finished (-1)]
  | Spawned reads rc => pump reads rc
  end.

(** The calls [stop()] makes on the child and on the clock. *)
Inductive call : Type :=
| send_signal_CTRL_BREAK_EVENT
| terminate
| sleep (milliseconds : nat)
| poll
| kill.

(** The child as [stop()] finds it: whether [self.proc] is set, the
    exception each call raises if any, and whether [poll()] returns [None]
    (still running) after the grace period. *)
Record situation : Type := {
  has_proc : bool;
  raises : call -> option exn;
  running_at_poll : bool;
}.

(** The calls made, the last one being the one that raised if one did. *)
Fixpoint attempt (raises : call -> option exn) (cs : list call) : list call * result unit :=
  match cs with
  | [] => ([], Ok tt)
  | c :: rest =>
      match raises c with
      | Some e => ([c], Raise e)
      | None => let (made, r) := attempt raises rest in (c :: made, r)
      end
  end.

(** The body of the [try] in [stop()]. *)
Definition stop_body (h : Host) (s : situation) : list call * result unit :=
  if negb (has_proc s) then ([], Ok tt)
  else if os_name h =? "nt" then
    attempt (raises s) [send_signal_CTRL_BREAK_EVENT; sleep 400; kill]
  else
    match attempt (raises s) [terminate; sleep 500; poll] with
    | (made, Ok _) =>
        if running_at_poll s
        then let (made', r) := attempt (raises s) [kill] in (made ++ made', r)
        else (made, Ok tt)
    | (made, Raise e) => (made, Raise e)
    end.

(** [stop()]: the new value of [self._stop], the calls made, and how the
    method returns ([except Exception: pass]). *)
Definition stop (h : Host) (s : situation) : bool * list call * result unit :=
  match stop_body h s with
  | (made, Ok _) => (true, made, Ok tt)
  | (made, Raise _) => (true, made, Ok tt)
  end.

End ProcRunner.

(** ** The Qt-based supervisor: [class QProcRunner] *)

Module QProcRunner.
Import Py.

Inductive signal : Type :=
| lineReady (line : string)
| finished (code : Z).

(** [QProcess.state()] *)
Inductive ProcessState : Type := NotRunning | Starting | Running.

(** [QProcess.ProcessError] *)
Inductive ProcessError : Type :=
| FailedToStart | Crashed | Timedout | WriteError | ReadError | UnknownError.

(** The signals of the wrapped [QProcess].  The constructor connects
    [readyReadStandardOutput] and [finished], and nothing to
    [errorOccurred]. *)
Inductive qsignal : Type :=
| readyReadStandardOutput (text : string)   (* the decoded bytes then available *)
| qfinished (code : Z) (crashed : bool)
| errorOccurred (err : ProcessError).

(** [start(cmd_list, cwd, env)]: the call [self.p.start(program, args)]. *)
Definition start {A : Type} (cmd_list : list A) : result (A * list A) :=
  match cmd_list with
  | program :: args => Ok (program, args)
  | [] => Raise IndexError
  end.

(** [kill()]: the calls made on the process. *)
Inductive qcall : Type := p_kill.

Definition kill (st : ProcessState) : list qcall :=
  match st with
  | NotRunning => []
  | _ => [p_kill]
  end.

(** [_on_ready] *)
Definition _on_ready (text : string) : list signal := map lineReady (splitlines text).

(** [_on_finished] *)
Definition _on_finished (code : Z) (crashed : bool) : list signal := [finished code].

(** The slot run for a signal of the process. *)
Definition dispatch (q : qsignal) : list signal :=
  match q with
  | readyReadStandardOutput text => _on_ready text
  | qfinished code crashed => _on_finished code crashed
  | errorOccurred _ => []
  end.

(** What the runner emits over the life of one process. *)
Definition emitted (qs : list qsignal) : list signal := flat_map dispatch qs.

End QProcRunner.

(** ** The configuration loader: [load_config] *)

(** The records are built at the types their annotations declare.  The
    dataclasses do not check them: a file that stores a value of another
    JSON type in a field, or something other than an object in ["inputs"],
    is outside this model (result [None]). *)
Module Config.
Import Py.
Section Def.
Context {P : Platform}.

Definition getd (k : string) (dflt : pyval) (d : dict pyval) : pyval :=
  match get k d with Some v => v | None => dflt end.

Definition as_str (v : pyval) : option string :=
  match v with VStr s => Some s | _ => None end.

Definition as_bool (v : pyval) : option bool :=
  match v with VBool b => Some b | _ => None end.

Definition as_opt_str (v : pyval) : option (option string) :=
  match v with VNone => Some None | VStr s => Some (Some s) | _ => None end.

Fixpoint as_str_list (l : list pyval) : option (list string) :=
  match l with
  | [] => Some []
  | VStr s :: rest => option_map (cons s) (as_str_list rest)
  | _ :: _ => None
  end.

Definition as_choices (v : pyval) : option (option (list string)) :=
  match v with
  | VNone => Some None
  | VList l => option_map Some (as_str_list l)
  | _ => None
  end.

(** The keys of a tool record that [load_config] reads. *)
Definition tool_keys : list string :=
  ["name"; "runner_mode"; "runner"; "script"; "output_dir_optional"; "inputs"; "notes"].

(** The fields of [InputSpec], the only keywords its constructor takes. *)
Definition InputSpec_fields : list string :=
  ["name"; "type"; "label"; "default"; "choices"; "required"; "readonly"].

Definition is_field (k : string) : bool := existsb (String.eqb k) InputSpec_fields.

(** [InputSpec] called with the entries of [i] as keywords: a keyword that
    is not a field, or no ["name"], is a [TypeError]. *)
Definition make_InputSpec (i : dict pyval) : option (result InputSpec.t) :=
  if negb (forallb is_field (keys i)) then Some (Raise TypeError)
  else
    match get "name" i with
    | None => Some (Raise TypeError)
    | Some n =>
        match as_str n, as_str (getd "type" (VStr "string") i),
              as_opt_str (getd "label" VNone i), as_choices (getd "choices" VNone i),
              as_bool (getd "required" (VBool false) i),
              as_bool (getd "readonly" (VBool false) i) with
        | Some name, Some ty, Some lab, Some chs, Some req, Some ro =>
            Some (Ok {| InputSpec.name := name; InputSpec.type := ty;
                        InputSpec.label := lab; InputSpec.default := getd "default" VNone i;
                        InputSpec.choices := chs; InputSpec.required := req;
                        InputSpec.readonly := ro |})
        | _, _, _, _, _, _ => None
        end
    end.

(** The body of the loop over [t.get("inputs", [])]:
    [i = dict(i)], [i.pop("placeholder", None)], then the constructor. *)
Definition load_input (i : pyval) : option (result InputSpec.t) :=
  match i with
  | VDict d => make_InputSpec (remove "placeholder" d)
  | _ => None
  end.

Fixpoint load_inputs (l : list pyval) : option (result (list InputSpec.t)) :=
  match l with
  | [] => Some (Ok [])
  | i :: rest =>
      match load_input i with
      | None => None
      | Some (Raise e) => Some (Raise e)
      | Some (Ok x) =>
          match load_inputs rest with
          | None => None
          | Some (Raise e) => Some (Raise e)
          | Some (Ok xs) => Some (Ok (x :: xs))
          end
      end
  end.

(** The body of the loop over the tools of the file. *)
Definition load_tool (t : dict pyval) : option (result ToolSpec.t) :=
  match getd "inputs" (VList []) t with
  | VList l =>
      match load_inputs l with
      | None => None
      | Some (Raise e) => Some (Raise e)
      | Some (Ok inputs) =>
          match as_str (getd "name" (VStr "Untitled") t),
                as_str (getd "runner_mode" (VStr "module") t),
                as_str (getd "runner" (VStr "") t),
                as_opt_str (getd "script" VNone t),
                as_bool (getd "output_dir_optional" (VBool false) t),
                as_opt_str (getd "notes" VNone t) with
          | Some name, Some mode, Some runner, Some script, Some odo, Some notes =>
              Some (Ok {| ToolSpec.name := name; ToolSpec.runner_mode := mode;
                          ToolSpec.runner := runner; ToolSpec.script := script;
                          ToolSpec.output_dir_optional := odo; ToolSpec.inputs := inputs;
                          ToolSpec.notes := notes |})
          | _, _, _, _, _, _ => None
          end
      end
  | _ => None
  end.

Fixpoint load_tools (raw : list (dict pyval)) : option (result (list ToolSpec.t)) :=
  match raw with
  | [] => Some (Ok [])
  | t :: rest =>
      match load_tool t with
      | None => None
      | Some (Raise e) => Some (Raise e)
      | Some (Ok x) =>
          match load_tools rest with
          | None => None
          | Some (Raise e) => Some (Raise e)
          | Some (Ok xs) => Some (Ok (x :: xs))
          end
      end
  end.

(** The starter configuration written when the file is missing. *)
Definition default_config : list (dict pyval) :=
  [[("name", VStr "Sample Tool (Demo)");
    ("runner_mode", VStr "command");
    ("runner", VStr ("{python} -c " +++ String dquote "print('Hello from sample tool!')"
                     +++ String dquote ""));
    ("script", VNone);
    ("output_dir_optional", VBool false);
    ("inputs", VList []);
    ("notes", VStr "This is a placeholder tool automatically created because config file was missing.")]].

(** [load_config(path)]: [file] is the array of objects [json.load] reads at
    [path], or [None] when no file is there. *)
Definition load_config (file : option (list (dict pyval))) : option (result (list ToolSpec.t)) :=
  match file with
  | None => load_tools default_config
  | Some raw => load_tools raw
  end.

End Def.
End Config.

(** ** A sample platform *)

(** A small instance of [Platform], used to run the model on examples:
    fixed-point numbers with six decimals for floats, plain decimal numerals
    for [int(str)], and dates as year, month and day. *)
Module Sample.
Import Py.

Fixpoint digits_value (acc : nat) (s : string) : option nat :=
  match s with
  | EmptyString => Some acc
  | String c s' =>
      if is_digit c then digits_value (acc * 10 + (code c - 48)) s' else None
  end.

Definition parse_nat (s : string) : option nat :=
  match s with
  | EmptyString => None
  | _ => digits_value 0 s
  end.

Definition parse_Z (s : string) : option Z :=
  match s with
  | String "-" s' => option_map (fun n => (- Z.of_nat n)%Z) (parse_nat s')
  | _ => option_map Z.of_nat (parse_nat s)
  end.

Fixpoint zeros (n : nat) : string :=
  match n with O => "" | S n' => String "0" (zeros n') end.

Definition pad (width n : nat) : string :=
  let s := str_of_Z (Z.of_nat n) in
  zeros (width - String.length s) +++ s.

Definition million : Z := 1000000%Z.

Definition fixed_str (x : Z) : string :=
  (if (x <? 0)%Z then "-" else "")
  +++ str_of_Z (Z.abs x / million) +++ "." +++ pad 6 (Z.to_nat (Z.abs x mod million)).

Definition clamp (lo hi x : Z) : Z := Z.max lo (Z.min hi x).

Definition date_text (d : nat * nat * nat) : string :=
  let '(y, m, dd) := d in pad 4 y +++ "-" +++ pad 2 m +++ "-" +++ pad 2 dd.

Definition parse_date (s : string) : option (nat * nat * nat) :=
  match String.length s, parse_nat (substring 0 4 s), parse_nat (substring 5 2 s),
        parse_nat (substring 8 2 s) with
  | 10, Some y, Some m, Some d =>
      if Ascii.eqb (match String.get 4 s with Some c => c | None => " "%char end) "-"
         && Ascii.eqb (match String.get 7 s with Some c => c | None => " "%char end) "-"
         && (1 <=? m)%nat && (m <=? 12)%nat && (1 <=? d)%nat && (d <=? 28)%nat
      then Some (y, m, d) else None
  | _, _, _, _ => None
  end.

#[export] Instance platform : Platform := {|
  float := Z;
  float_str := fixed_str;
  float_truthy := fun x => negb (x =? 0)%Z;
  float_of_int := fun n => Ok (n * million)%Z;
  float_of_str := fun s =>
    match parse_Z s with
    | Some n => Ok (n * million)%Z
    | None => Raise (ValueError ("could not convert string to float: " +++ repr_str s))
    end;
  int_of_float := fun x => Ok (Z.quot x million);
  int_of_str := fun s =>
    match parse_Z (strip s) with
    | Some n => Ok n
    | None => Raise (ValueError ("invalid literal for int() with base 10: " +++ repr_str s))
    end;
  spin_store := fun n =>
    if ((- 2 ^ 31 <=? n) && (n <? 2 ^ 31))%Z
    then Ok (clamp (- 10 ^ 9) (10 ^ 9) n) else Raise OverflowError;
  dspin_store := clamp (- 10 ^ 18) (10 ^ 18);
  QDate := nat * nat * nat;
  date_toString := date_text;
  date_fromString := parse_date;
  dateedit_store := fun d => d;
|}.

End Sample.

(* ================================================================== *)
(** * Notions used to state the properties                             *)
(* ================================================================== *)

(** ** Text *)

Module TextNotions.
Import Py.

(** The character [c] does not occur in [s]. *)
Definition no_char (c : ascii) (s : string) : bool :=
  sforall (fun d => negb (Ascii.eqb d c)) s.

(** No line boundary of [str.splitlines] occurs in [s]. *)
Definition no_break (s : string) : bool := sforall (fun c => negb (is_linebreak c)) s.

Definition newline : ascii := ch 10.

(** A comma-separated item as [csv_items] yields it: trimmed, not empty,
    without a comma. *)
Definition clean (x : string) : Prop := strip x = x /\ x <> "" /\ no_char "," x = true.

(** A character [repr] shows as it is between single quotes. *)
Definition verbatim_char (c : ascii) : bool :=
  between 32 126 c && negb (Ascii.eqb c "'") && negb (Ascii.eqb c "\").

End TextNotions.

(** ** Command templates *)

Module Template.
Import Py.
Section Def.
Context {P : Platform}.

(** A template written as literal text and plain placeholders. *)
Inductive piece : Type :=
| Lit (text : string)
| Ph (name : string).

Definition is_brace (c : ascii) : bool := Ascii.eqb c "{" || Ascii.eqb c "}".

(** Literal text without braces. *)
Definition plain_text (s : string) : bool := sforall (fun c => negb (is_brace c)) s.

(** A character that neither ends a field name nor starts an attribute, an
    index, a conversion or a format specification. *)
Definition name_char (c : ascii) : bool :=
  negb (is_brace c || Ascii.eqb c "[" || Ascii.eqb c "." || Ascii.eqb c "!" || Ascii.eqb c ":").

(** A placeholder name: not empty, not starting with a digit. *)
Definition plain_name (n : string) : bool :=
  match n with
  | EmptyString => false
  | String c _ => negb (is_digit c) && sforall name_char n
  end.

Definition piece_ok (p : piece) : bool :=
  match p with Lit s => plain_text s | Ph n => plain_name n end.

Definition render_piece (p : piece) : string :=
  match p with Lit s => s | Ph n => "{" +++ n +++ "}" end.

(** The template text. *)
Fixpoint render (ps : list piece) : string :=
  match ps with
  | [] => ""
  | p :: rest => render_piece p +++ render rest
  end.

Definition declared (kw : dict pyval) (p : piece) : bool :=
  match p with Lit _ => true | Ph n => mem n kw end.

(** The text with every placeholder replaced by [str] of its value, nothing
    added around it. *)
Fixpoint substitute (kw : dict pyval) (ps : list piece) : string :=
  match ps with
  | [] => ""
  | Lit s :: rest => s +++ substitute kw rest
  | Ph n :: rest =>
      match get n kw with
      | Some v => str v +++ substitute kw rest
      | None => substitute kw rest
      end
  end.

End Def.
End Template.

(** ** Shell words *)

(** The spec's words for tokenization: whitespace separates tokens, a
    double- or single-quoted run is one token with the quotes stripped,
    escaping is honoured.  A command line is written here as its words, each
    made of plain, escaped and quoted parts; [render_line] is its text and
    [word_value] the token a word stands for. *)
Module ShellWords.
Import Py Shlex.

(** Inside double quotes: a character, or a backslash and a character. *)
Inductive dq_item : Type :=
| DChar (c : ascii)
| DEsc (c : ascii).

(** The parts of a shell word. *)
Inductive segment : Type :=
| Plain (text : string)            (* unquoted characters *)
| Escaped (c : ascii)              (* a backslash and a character, unquoted *)
| SQuoted (text : string)          (* a run between single quotes *)
| DQuoted (items : list dq_item).  (* a run between double quotes *)

Definition word : Type := list segment.

Definition backslash : ascii := "\"%char.
Definition squote : ascii := "'"%char.

(** Neither whitespace, nor a quote, nor the escape character. *)
Definition ordinary (c : ascii) : bool := negb (is_ws c || is_quote c || is_escape c).

Definition dq_item_ok (i : dq_item) : bool :=
  match i with
  | DChar c => negb (Ascii.eqb c dquote || is_escape c)
  | DEsc _ => true
  end.

Definition segment_ok (s : segment) : bool :=
  match s with
  | Plain t => negb (t =? "") && sforall ordinary t
  | Escaped _ => true
  | SQuoted t => sforall (fun c => negb (Ascii.eqb c squote)) t
  | DQuoted items => forallb dq_item_ok items
  end.

Definition word_ok (w : word) : bool :=
  match w with [] => false | _ => forallb segment_ok w end.

Definition render_dq_item (i : dq_item) : string :=
  match i with
  | DChar c => String c ""
  | DEsc c => String backslash (String c "")
  end.

(** Between double quotes a backslash only escapes a double quote or a
    backslash; before anything else it stays. *)
Definition dq_item_value (i : dq_item) : string :=
  match i with
  | DChar c => String c ""
  | DEsc c =>
      if is_escape c || Ascii.eqb c dquote then String c ""
      else String backslash (String c "")
  end.

Fixpoint sconcat (l : list string) : string :=
  match l with
  | [] => ""
  | s :: rest => s +++ sconcat rest
  end.

Definition render_segment (s : segment) : string :=
  match s with
  | Plain t => t
  | Escaped c => String backslash (String c "")
  | SQuoted t => String squote (t +++ String squote "")
  | DQuoted items => String dquote (sconcat (map render_dq_item items) +++ String dquote "")
  end.

(** The text a segment stands for: quotes and escapes stripped. *)
Definition segment_value (s : segment) : string :=
  match s with
  | Plain t => t
  | Escaped c => String c ""
  | SQuoted t => t
  | DQuoted items => sconcat (map dq_item_value items)
  end.

Definition seg_quoted (s : segment) : bool :=
  match s with Plain _ | Escaped _ => false | SQuoted _ | DQuoted _ => true end.

Definition render_word (w : word) : string := sconcat (map render_segment w).

Definition word_value (w : word) : string := sconcat (map segment_value w).

(** A command line: words, each after a run of whitespace (empty only
    before the first word), and whitespace at the end. *)
Record line : Type := {
  entries : list (string * word);
  trailing : string;
}.

Definition whitespace (s : string) : bool := sforall is_ws s.

Fixpoint entries_ok (first : bool) (es : list (string * word)) : bool :=
  match es with
  | [] => true
  | (sep, w) :: rest =>
      whitespace sep && (first || negb (sep =? "")) && word_ok w && entries_ok false rest
  end.

Definition line_ok (l : line) : bool := entries_ok true (entries l) && whitespace (trailing l).

Definition render_entries (es : list (string * word)) : string :=
  sconcat (map (fun e => fst e +++ render_word (snd e)) es).

Definition render_line (l : line) : string := render_entries (entries l) +++ trailing l.

Definition words (l : line) : list word := map snd (entries l).

(** *** States of the lexer *)

Definition mk (st es : lstate) (tok : string) (q : bool) (o : list string) : lexer :=
  {| state := st; escapedstate := es; token := tok; quoted := q; out := o |}.

(** A lexer between tokens, with nothing pending. *)
Definition gap (l : lexer) : Prop :=
  state l = St_white /\ token l = "" /\ quoted l = false.

(** A lexer at a place where a part of a word may begin. *)
Definition boundary (l : lexer) : Prop := gap l \/ state l = St_word.

(** A lexer holding a complete word. *)
Definition done (l : lexer) : Prop :=
  state l = St_word /\ (token l <> "" \/ quoted l = true).

Definition settled (l : lexer) : Prop := gap l \/ done l.

(** The tokens [finish] returns from a lexer outside quotations and
    escapes. *)
Definition tokens (l : lexer) : list string :=
  if negb (token l =? "") || quoted l then out l ++ [token l] else out l.

End ShellWords.

(** ** Traces of the supervisors *)

Module Traces.
Import Py ProcRunner.

(** The exception that ends the reading loop of [ProcRunner.run], if one
    does before the loop runs out of lines or sees the stop flag. *)
Fixpoint read_failure (reads : list read) : option exn :=
  match reads with
  | [] => None
  | Line _ stop_seen :: rest => if stop_seen then None else read_failure rest
  | ReadError e :: _ => Some e
  end.

Definition is_finished (s : signal) : bool :=
  match s with finished _ => true | _ => false end.

Definition is_error (s : signal) : bool :=
  match s with error _ => true | _ => false end.

Definition count_finished (tr : list signal) : nat := List.length (filter is_finished tr).

Definition q_is_finished (s : QProcRunner.signal) : bool :=
  match s with QProcRunner.finished _ => true | _ => false end.

(** The exit codes the Qt process reported through its [finished] signal. *)
Definition exit_codes (qs : list QProcRunner.qsignal) : list Z :=
  flat_map (fun q => match q with QProcRunner.qfinished code _ => [code] | _ => [] end) qs.

End Traces.

(** ** Forms and what the codec does to them *)

Module FormNotions.
Import Py ToolForm TextNotions.
Section Def.
Context {P : Platform}.

(** The widget classes of [set_tool]. *)
Inductive wclass : Type :=
| CLineEdit | CFilePicker | CSpinBox | CDoubleSpinBox | CDateEdit | CCheckBox
| CComboBox | CCheckableComboBox | CPlainTextEdit.

(** The class of the widget [set_tool] creates for a parameter type, test
    by test in the order of its [if]/[elif] chain. *)
Definition widget_class (ty : string) : wclass :=
  if ty =? "string" then CLineEdit
  else if ty =? "int" then CSpinBox
  else if ty =? "float" then CDoubleSpinBox
  else if ty =? "date" then CDateEdit
  else if ty =? "toggle" then CCheckBox
  else if ty =? "file" then CFilePicker
  else if ty =? "folder" then CFilePicker
  else if ty =? "enum" then CComboBox
  else if ty =? "multienum" then CCheckableComboBox
  else if ty =? "password" then CLineEdit
  else if ty =? "list" then CPlainTextEdit
  else CLineEdit.

(** [spec.choices or []] *)
Definition choices_or_nil (spec : InputSpec.t) : list string :=
  match InputSpec.choices spec with Some l => l | None => [] end.

(** A widget as [set_tool] builds it for a parameter of type [ty] with the
    choices [chs], in any state the user or the program can bring it to:
    spin boxes hold values they accept unchanged, the date is one that its
    text gives back, a combo box with rows has a current row. *)
Definition built_for (ty : string) (chs : list string) (w : widget) : Prop :=
  match widget_class ty, w with
  | CLineEdit, QLineEdit _ => True
  | CFilePicker, FilePicker _ => True
  | CSpinBox, QSpinBox v => spin_store v = Ok v
  | CDoubleSpinBox, QDoubleSpinBox x => dspin_store x = x
  | CDateEdit, QDateEdit d =>
      date_fromString (date_toString d) = Some d /\ dateedit_store d = d
  | CCheckBox, QCheckBox _ => True
  | CComboBox, QComboBox items cur =>
      items = chs /\
      match cur with Some i => i < List.length items | None => items = [] end
  | CCheckableComboBox, CheckableComboBox rows _ => map fst rows = chs
  | CPlainTextEdit, QPlainTextEdit _ => True
  | _, _ => False
  end.

(** A form showing the tool [t]. *)
Definition form_for (t : ToolSpec.t) (f : form) : Prop :=
  tool f = Some t /\
  forall spec, In spec (ToolSpec.inputs t) ->
    exists w, get (InputSpec.name spec) (fields f) = Some w /\
              built_for (InputSpec.type spec) (choices_or_nil spec) w.

(** The parameters the record carries back: the name is not internal, and
    the choices of a multi-choice parameter are distinct and clean. *)
Definition round_trips (spec : InputSpec.t) : Prop :=
  startswith "_" (InputSpec.name spec) = false /\
  (InputSpec.type spec = "multienum" ->
   NoDup (choices_or_nil spec) /\ Forall clean (choices_or_nil spec)).

(** Equality of two collected values by kind: a list is its items, any
    other value is itself (a boolean a boolean, a number a number). *)
Definition same_value (ty : string) (a b : pyval) : Prop :=
  if ty =? "list" then
    match a, b with
    | VStr s1, VStr s2 => csv_items s1 = csv_items s2
    | _, _ => False
    end
  else a = b.

Definition names (specs : list InputSpec.t) : list string := map InputSpec.name specs.

(** What [collect_values] reads for [spec] from the widgets [fs]. *)
Definition reading (fs : dict widget) (spec : InputSpec.t) : option pyval :=
  match get (InputSpec.name spec) fs with
  | Some w => read_widget (InputSpec.type spec) w
  | None => None
  end.

(** What the loop of [_apply_params] does for [spec], going by the form as
    it was before the call: nothing, a new widget state, or an exception. *)
Definition outcome (vals : dict pyval) (fs : dict widget) (spec : InputSpec.t)
    : option (result widget) :=
  match get (InputSpec.name spec) vals, get (InputSpec.name spec) fs with
  | Some v, Some w => Some (apply_one (type_or_string spec) v w)
  | _, _ => None
  end.

(** The log line written for [spec], if its value could not be applied. *)
Definition failure (vals : dict pyval) (fs : dict widget) (spec : InputSpec.t) : list logline :=
  match outcome vals fs spec with
  | Some (Raise e) => [ApplyFailed (InputSpec.name spec) e]
  | _ => []
  end.

(** What [_import_params] does once it goes ahead with [vals]. *)
Definition applied (vals : pyval) (file : string) (f : form) : form * list effect :=
  match apply_any vals f with
  | Ok (f', effs) => (set_status (Imported file) f', effs)
  | Raise e => (f, [Critical "Import Failed" e])
  end.

End Def.
End FormNotions.

(** ** Sample hosts, tools, forms and records *)

Module Demo.
Import Py Sample ToolForm Template ShellWords FormNotions.

Definition posix : Host :=
  {| sys_executable := "/usr/bin/python3"; isfile := fun _ => true; os_name := "posix" |}.

Definition windows : Host :=
  {| sys_executable := "C:\Python\python.exe"; isfile := fun _ => true; os_name := "nt" |}.

Definition input (name ty : string) (choices : option (list string)) : InputSpec.t :=
  {| InputSpec.name := name; InputSpec.type := ty; InputSpec.label := None;
     InputSpec.default := VNone; InputSpec.choices := choices;
     InputSpec.required := false; InputSpec.readonly := false |}.

Definition tool_of (mode runner : string) (inputs : list InputSpec.t) : ToolSpec.t :=
  {| ToolSpec.name := "Demo"; ToolSpec.runner_mode := mode; ToolSpec.runner := runner;
     ToolSpec.script := Some "/x/run.py"; ToolSpec.output_dir_optional := false;
     ToolSpec.inputs := inputs; ToolSpec.notes := None |}.

Definition form_of (t : ToolSpec.t) (fs : dict widget) (dir : string) : form :=
  {| tool := Some t; fields := fs; output_dir := dir; log := []; status := Ready;
     _pending_cmd := None |}.

(** A module-mode tool and a value bag for it. *)
Definition convert_inputs : list InputSpec.t :=
  [input "size" "int" None; input "fast" "toggle" None; input "title" "string" None].

Definition convert : ToolSpec.t := tool_of "module" "pkg.convert : main" convert_inputs.

Definition convert_values : ValueBag :=
  [("size", VInt 5); ("fast", VBool true); ("title", VStr "a b"); ("_output_dir", VStr "/out")].

Definition convert_form : form :=
  form_of convert
    [("size", QSpinBox 7); ("fast", QCheckBox false); ("title", QLineEdit "old")] "".

(** Module-mode tools whose target has an empty part. *)
Definition module_tool (target : string) : ToolSpec.t := tool_of "module" target [].

(** A command template with a quoted and an unquoted placeholder. *)
Definition dq : string := String dquote "".

Definition greet_pieces : list piece :=
  [Ph "python_u"; Lit (" " +++ dq); Ph "script"; Lit (dq +++ " --name " +++ dq); Ph "name";
   Lit (dq +++ " --in "); Ph "path"; Lit " "; Ph "verbose_flag"].

Definition greet_inputs : list InputSpec.t :=
  [input "name" "string" None; input "path" "file" None; input "verbose" "toggle" None].

Definition greet : ToolSpec.t := tool_of "command" (render greet_pieces) greet_inputs.

Definition greet_values : ValueBag :=
  [("name", VStr "a b"); ("path", VStr "/tmp/a b"); ("verbose", VBool true);
   ("_output_dir", VNone)].

Fixpoint dchars (s : string) : list dq_item :=
  match s with
  | EmptyString => []
  | String c s' => DChar c :: dchars s'
  end.

Definition greet_line : line :=
  {| entries :=
       [("", [Plain "/usr/bin/python3"]); (" ", [Plain "-u"]);
        (" ", [DQuoted (dchars "/x/run.py")]); (" ", [Plain "--name"]);
        (" ", [DQuoted (dchars "a b")]); (" ", [Plain "--in"]);
        (" ", [Plain "/tmp/a"]); (" ", [Plain "b"]); (" ", [Plain "--verbose"])];
     trailing := "" |}.

Definition greet_tokens : list string :=
  ["/usr/bin/python3"; "-u"; "/x/run.py"; "--name"; "a b"; "--in"; "/tmp/a"; "b"; "--verbose"].

(** A template that names a placeholder nobody declared. *)
Definition typo : ToolSpec.t :=
  tool_of "command" (render [Lit "--name "; Ph "nmae"]) greet_inputs.

(** A template whose only placeholder is declared, and a value with an
    apostrophe. *)
Definition titled_pieces : list piece := [Lit "--title "; Ph "title"].

Definition titled : ToolSpec.t :=
  tool_of "command" (render titled_pieces) [input "title" "string" None].

Definition titled_values : ValueBag := [("title", VStr "it's"); ("_output_dir", VNone)].

Definition titled_form : form := form_of titled [("title", QLineEdit "it's")] "".

(** A tool with a parameter of every kind, and two forms showing it. *)
Definition survey_inputs : list InputSpec.t :=
  [input "title" "string" None; input "size" "int" None; input "ratio" "float" None;
   input "day" "date" None; input "fast" "toggle" None; input "src" "file" None;
   input "mode" "enum" (Some ["a"; "b"]);
   input "tags" "multienum" (Some ["x"; "y"; "z"]);
   input "items" "list" None; input "note" "memo" None].

Definition survey : ToolSpec.t := tool_of "module" "pkg.survey:run" survey_inputs.

Definition survey_filled : form :=
  form_of survey
    [("title", QLineEdit " hello "); ("size", QSpinBox 7); ("ratio", QDoubleSpinBox 1500000%Z);
     ("day", QDateEdit (2024, 3, 9)); ("fast", QCheckBox true);
     ("src", FilePicker "/tmp/in.txt"); ("mode", QComboBox ["a"; "b"] (Some 1));
     ("tags", CheckableComboBox [("x", true); ("y", false); ("z", true)] None);
     ("items", QPlainTextEdit ("a , b" +++ nl +++ " c")); ("note", QLineEdit "n")]
    "/out".

Definition survey_blank : form :=
  form_of survey
    [("title", QLineEdit ""); ("size", QSpinBox 0); ("ratio", QDoubleSpinBox 0%Z);
     ("day", QDateEdit (2000, 1, 1)); ("fast", QCheckBox false);
     ("src", FilePicker ""); ("mode", QComboBox ["a"; "b"] (Some 0));
     ("tags", CheckableComboBox [("x", false); ("y", true); ("z", false)] None);
     ("items", QPlainTextEdit ""); ("note", QLineEdit "")]
    "".

(** A multi-choice parameter with a comma in a choice. *)
Definition tagged : ToolSpec.t :=
  tool_of "module" "pkg.tag:run" [input "tags" "multienum" (Some ["a,b"; "c"])].

Definition tagged_form (dir : string) : form :=
  form_of tagged [("tags", CheckableComboBox [("a,b", true); ("c", false)] None)] dir.

(** A parameter file saved for the tool called [saved_for]. *)
Definition saved (saved_for : string) : pyval :=
  VDict [("meta", VDict [("tool", VStr saved_for); ("app", VStr "PLAR")]);
         ("values", VDict [("title", VStr "new")])].

(** Values of which one cannot be applied. *)
Definition mixed_values : dict pyval := [("size", VStr "abc"); ("title", VStr "new")].

(** A tool file with one parameter record, carrying [extra] fields. *)
Definition tools_file (extra : dict pyval) : list (dict pyval) :=
  [[("name", VStr "Demo"); ("runner", VStr "pkg.mod:main");
    ("inputs", VList [VDict ([("name", VStr "x"); ("type", VStr "int")] ++ extra)])]].

(** A child that answers every call of [stop]. *)
Definition nobody_raises : ProcRunner.call -> option exn := fun _ => None.

(** A child without a console: the break signal cannot be delivered. *)
Definition no_console : ProcRunner.call -> option exn :=
  fun c =>
    match c with
    | ProcRunner.send_signal_CTRL_BREAK_EVENT =>
        Some (OSError "[WinError 6] The handle is invalid")
    | _ => None
    end.

End Demo.

(* ================================================================== *)
(** * Part I, continued: the rest of the program                       *)
(* ================================================================== *)

(** ** The page selector of the sample runner: [msrc/runner_combinepdfs.py] *)

Module CombinePdfs.
Import Py.
Section Def.
Context {P : Platform}.

(** [range(a, b)] *)
Definition range (a b : Z) : list Z :=
  map (fun k => (a + Z.of_nat k)%Z) (seq 0 (Z.to_nat (b - a))).

(** The set [out], kept as the ascending list of its members, which is what
    [sorted(out)] returns.  [out.add(x)]: *)
Fixpoint set_add (x : Z) (out : list Z) : list Z :=
  match out with
  | [] => [x]
  | y :: rest =>
      if (x <? y)%Z then x :: out
      else if (x =? y)%Z then out
      else y :: set_add x rest
  end.

(** [out.update(xs)] *)
Definition set_update (out xs : list Z) : list Z :=
  fold_left (fun o x => set_add x o) xs out.

(** [s in ("all", "1-end", "end")] *)
Definition is_keyword (s : string) : bool :=
  (s =? "all") || (s =? "1-end") || (s =? "end").

(** The test [not spec or spec.strip().lower() in ("all", "1-end", "end")]. *)
Definition selects_all (spec : string) : bool :=
  (spec =? "") || is_keyword (lower (strip spec)).

(** The body of the loop over [spec.split(",")]: the set afterwards, or the
    exception raised. *)
Definition page_part (num_pages : Z) (out : list Z) (part : string) : result (list Z) :=
  let part := strip part in
  if part =? "" then Ok out
  else if contains "-" part then
    match map strip (split1 "-" part) with
    | [a; b] =>
        a <- int_of_str a ;;
        b <- int_of_str b ;;
        let lo := if (a >? b)%Z then b else a in
        let hi := if (a >? b)%Z then a else b in
        Ok (set_update out (range (Z.max 1 lo - 1) (Z.min num_pages hi)))
    | _ => Raise (ValueError "not enough values to unpack (expected 2, got 1)")
    end
  else
    i <- int_of_str part ;;
    if ((1 <=? i) && (i <=? num_pages))%Z then Ok (set_add (i - 1) out)
    else Raise (ValueError ("Page " +++ str_of_Z i +++ " out of range 1.."
                            +++ str_of_Z num_pages)).

Fixpoint page_parts (num_pages : Z) (out : list Z) (parts : list string) : result (list Z) :=
  match parts with
  | [] => Ok out
  | part :: rest => o <- page_part num_pages out part ;; page_parts num_pages o rest
  end.

(** [parse_page_spec(spec, num_pages)]: the 0-based page indices. *)
Definition parse_page_spec (spec : string) (num_pages : Z) : result (list Z) :=
  if selects_all spec then Ok (range 0 num_pages)
  else page_parts num_pages [] (split "," spec).

End Def.
End CombinePdfs.

(** ** Writing the configuration: [save_config] *)

(** [json.dump] followed by [json.load] gives back the value written: the
    file is modelled by the value it holds. *)
Module Saving.
Import Py.
Section Def.
Context {P : Platform}.

Definition json_opt (o : option string) : pyval :=
  match o with Some s => VStr s | None => VNone end.

Definition json_choices (o : option (list string)) : pyval :=
  match o with Some l => VList (map VStr l) | None => VNone end.

(** The dictionary written for a parameter. *)
Definition save_input (i : InputSpec.t) : dict pyval :=
  [("name", VStr (InputSpec.name i));
   ("type", VStr (InputSpec.type i));
   ("label", json_opt (InputSpec.label i));
   ("default", InputSpec.default i);
   ("choices", json_choices (InputSpec.choices i));
   ("required", VBool (InputSpec.required i));
   ("readonly", VBool (InputSpec.readonly i))].

(** The dictionary written for a tool. *)
Definition save_tool (t : ToolSpec.t) : dict pyval :=
  [("name", VStr (ToolSpec.name t));
   ("runner_mode", VStr (ToolSpec.runner_mode t));
   ("runner", VStr (ToolSpec.runner t));
   ("script", json_opt (ToolSpec.script t));
   ("output_dir_optional", VBool false);
   ("inputs", VList (map (fun i => VDict (save_input i)) (ToolSpec.inputs t)));
   ("notes", json_opt (ToolSpec.notes t))].

(** [save_config(path, tools)]: the array written at [path]. *)
Definition save_config (tools : list ToolSpec.t) : list (dict pyval) :=
  map save_tool tools.

End Def.
End Saving.

(** ** The main window: [class MainWindow] *)

Module MainWindow.
Import Py.
Section Def.
Context {P : Platform}.

(** The part of the window the handlers below read and write: the tools,
    the current row of the list widget ([-1] when there is none), and the
    value the active configuration file holds.  The rows of the list widget
    are rebuilt from the tools by [_reload_list], one row per tool. *)
Record window : Type := {
  tools : list ToolSpec.t;
  currentRow : Z;
  config_file : pyval;
}.

Inductive shown : Type :=
| ConfigLoaded (fn : string)   (* information "Config Loaded" *)
| LoadFailed (e : exn).        (* critical "Load Failed", with str(e) *)

(** [len(self.tools)] *)
Definition count (w : window) : Z := Z.of_nat (List.length (tools w)).

(** [_current_tool_index()] *)
Definition _current_tool_index (w : window) : Z :=
  let idx := currentRow w in
  if ((0 <=? idx) && (idx <? count w))%Z then idx else (-1)%Z.

(** [l[i] = x] for an index within the list. *)
Fixpoint assign {A : Type} (i : nat) (x : A) (l : list A) : list A :=
  match l, i with
  | [], _ => []
  | _ :: rest, O => x :: rest
  | y :: rest, S i' => y :: assign i' x rest
  end.

(** [l[i], l[j] = l[j], l[i]]: both values are read, then [l[i]] and
    [l[j]] are written in turn. *)
Definition exchange {A : Type} (i j : nat) (l : list A) : list A :=
  match nth_error l j, nth_error l i with
  | Some xj, Some xi => assign j xi (assign i xj l)
  | _, _ => l
  end.

(** [_save(silent=True)]: [save_config(CONFIG_FILE, self.tools)]. *)
Definition written (ts : list ToolSpec.t) : pyval :=
  VList (map VDict (Saving.save_config ts)).

(** [_move_tool(delta)] *)
Definition _move_tool (delta : Z) (w : window) : window :=
  let idx := _current_tool_index w in
  if (idx <? 0)%Z then w
  else
    let new_idx := (idx + delta)%Z in
    if negb ((0 <=? new_idx) && (new_idx <? count w))%Z then w
    else
      let ts := exchange (Z.to_nat idx) (Z.to_nat new_idx) (tools w) in
      {| tools := ts; currentRow := new_idx; config_file := written ts |}.

(** [load_config] on a file that holds the array [l]: an element that is
    not an object has no [get]. *)
Fixpoint load_array (l : list pyval) : option (result (list ToolSpec.t)) :=
  match l with
  | [] => Some (Ok [])
  | VDict t :: rest =>
      match Config.load_tool t with
      | None => None
      | Some (Raise e) => Some (Raise e)
      | Some (Ok x) =>
          match load_array rest with
          | None => None
          | Some (Raise e) => Some (Raise e)
          | Some (Ok xs) => Some (Ok (x :: xs))
          end
      end
  | _ :: _ => Some (Raise AttributeError)
  end.

(** [_load_config_file()]: [fn] is the name chosen in the dialog, empty when
    the dialog was cancelled, and [picked] the outcome of opening that file
    and [json.load].  The active configuration file is taken to be
    writable. *)
Definition _load_config_file (fn : string) (picked : result pyval) (w : window)
    : option (window * list shown) :=
  if fn =? "" then Some (w, [])
  else
    match picked with
    | Raise e => Some (w, [LoadFailed e])
    | Ok (VList l) =>
        match load_array l with
        | None => None
        | Some (Raise e) =>
            Some ({| tools := tools w; currentRow := currentRow w; config_file := VList l |},
                  [LoadFailed e])
        | Some (Ok ts) =>
            Some ({| tools := ts;
                     currentRow := match ts with [] => (-1)%Z | _ => 0%Z end;
                     config_file := VList l |},
                  [ConfigLoaded fn])
        end
    | Ok _ => Some (w, [LoadFailed (ValueError "Config must be a JSON array of tools.")])
    end.

End Def.
End MainWindow.

(** ** The tool editor: [class ToolEditor] *)

Module ToolEditor.
Import Py.
Section Def.
Context {P : Platform}.

(** The float [0.0]. *)
Variable zero : float.

(** A row of the inputs table, as [_add_input_row] fills it: the texts of
    its four line edits, the current text of its type box, and the two
    check boxes. *)
Record row : Type := {
  name_cell : string;
  type_cell : string;
  label_cell : string;
  default_cell : string;
  choices_cell : string;
  required_cell : bool;
  readonly_cell : bool;
}.

(** The dialog: the fields above the table, and the table. *)
Record dialog : Type := {
  name_edit : string;
  mode_cb : string;         (* currentText() *)
  runner_edit : string;
  script_edit : string;
  notes_edit : string;      (* toPlainText() *)
  inputs_table : list row;
}.

(** [s.strip() or None] *)
Definition strip_or_none (s : string) : option string :=
  match strip s with
  | EmptyString => None
  | t => Some t
  end.

(** The default of a parameter, from the text of its cell. *)
Definition read_default (itype default_txt : string) : pyval :=
  if default_txt =? "" then VNone
  else if itype =? "int" then
    match int_of_str default_txt with Ok n => VInt n | Raise _ => VInt 0 end
  else if itype =? "float" then
    match float_of_str default_txt with Ok x => VFloat x | Raise _ => VFloat zero end
  else VStr default_txt.

(** The choices of a parameter, from the text of its cell. *)
Definition read_choices (itype choices_cell_text : string) : option (list string) :=
  let choices_txt := strip choices_cell_text in
  if negb (choices_txt =? "") && ((itype =? "enum") || (itype =? "multienum"))
  then Some (map strip (split "," choices_txt))
  else None.

(** One turn of the loop of [result_tool]. *)
Definition result_input (r : row) : list InputSpec.t :=
  let name := strip (name_cell r) in
  if name =? "" then []
  else
    let itype := type_cell r in
    [{| InputSpec.name := name;
        InputSpec.type := itype;
        InputSpec.label := strip_or_none (label_cell r);
        InputSpec.default := read_default itype (default_cell r);
        InputSpec.choices := read_choices itype (choices_cell r);
        InputSpec.required := required_cell r;
        InputSpec.readonly := readonly_cell r |}].

(** [result_tool()] *)
Definition result_tool (d : dialog) : ToolSpec.t :=
  {| ToolSpec.name := match strip (name_edit d) with EmptyString => "Untitled" | n => n end;
     ToolSpec.runner_mode := mode_cb d;
     ToolSpec.runner := strip (runner_edit d);
     ToolSpec.script := strip_or_none (script_edit d);
     ToolSpec.output_dir_optional := false;
     ToolSpec.inputs := flat_map result_input (inputs_table d);
     ToolSpec.notes := strip_or_none (notes_edit d) |}.

(** One turn of the loop of [_read_inputs_from_table]. *)
Definition table_input (r : row) : list InputSpec.t :=
  let name := strip (name_cell r) in
  if name =? "" then []
  else
    let itype := type_cell r in
    let label := strip_or_none (label_cell r) in
    let default_txt := default_cell r in
    let default :=
      if default_txt =? "" then VNone
      else if itype =? "int" then
        match int_of_str default_txt with Ok n => VInt n | Raise _ => VInt 0 end
      else if itype =? "float" then
        match float_of_str default_txt with Ok x => VFloat x | Raise _ => VFloat zero end
      else VStr default_txt in
    [{| InputSpec.name := name; InputSpec.type := itype; InputSpec.label := label;
        InputSpec.default := default; InputSpec.choices := None;
        InputSpec.required := required_cell r; InputSpec.readonly := readonly_cell r |}].

(** [_read_inputs_from_table()] *)
Definition _read_inputs_from_table (d : dialog) : list InputSpec.t :=
  flat_map table_input (inputs_table d).

(** *** The runner template of [_build_snippets] *)

Definition quote : string := String dquote "".

(** [needs_quotes(s)] *)
Definition needs_quotes (s : string) : bool :=
  existsb (String.eqb s) ["string"; "file"; "folder"; "date"; "enum"; "multienum"; "password"].

(** What the loop appends to [parts] for one parameter. *)
Definition runner_part (s : InputSpec.t) : string :=
  let name := InputSpec.name s in
  if InputSpec.type s =? "toggle" then "{" +++ name +++ "_flag}"
  else if needs_quotes (InputSpec.type s)
  then "--" +++ name +++ " " +++ quote +++ "{" +++ name +++ "}" +++ quote
  else "--" +++ name +++ " {" +++ name +++ "}".

(** The entry ["Runner template"] of the dictionary [_build_snippets]
    returns. *)
Definition runner_template (specs : list InputSpec.t) : string :=
  strip (join " " (("{python_u} " +++ quote +++ "{script}" +++ quote) :: map runner_part specs)).

End Def.

(** *** Opening the dialog on a tool: [__init__] and [_add_input_row] *)

Section Opening.
Context {P : Platform}.

(** What [toPlainText()] gives for a [QPlainTextEdit] built on a text (Qt
    rewrites some characters, the no-break space among them). *)
Variable toPlainText : string -> string.

(** The items of the type box of a row. *)
Definition type_items : list string :=
  ["string"; "int"; "float"; "file"; "folder"; "enum"; "multienum"; "toggle"; "date";
   "list"; "password"].

(** The current text of a combo box that is not editable and shows its
    first item, after [setCurrentText(text)]: the item with that text if
    there is one, the item it showed otherwise. *)
Definition setCurrentText (items : list string) (text : string) : string :=
  if existsb (String.eqb text) items then text else nth 0 items "".

(** The text of the default cell: empty for [None], [str(default)] otherwise. *)
Definition shown_default (default : pyval) : string :=
  match default with
  | VNone => ""
  | d => str d
  end.

(** [_add_input_row(spec)] for a given [spec]: the row it adds.  A line
    edit holds the text it is built on. *)
Definition _add_input_row (spec : InputSpec.t) : row :=
  {| name_cell := InputSpec.name spec;
     type_cell := setCurrentText type_items (InputSpec.type spec);
     label_cell := match InputSpec.label spec with Some l => l | None => "" end;
     default_cell := shown_default (InputSpec.default spec);
     choices_cell := match InputSpec.choices spec with
                     | Some ((_ :: _) as l) => join "," l
                     | _ => ""
                     end;
     required_cell := InputSpec.required spec;
     readonly_cell := InputSpec.readonly spec |}.

(** [x or ""] for an optional text. *)
Definition or_empty (o : option string) : string :=
  match o with
  | Some s => s
  | None => ""
  end.

(** The dialog as [__init__] fills it for the tool [t]. *)
Definition open_dialog (t : ToolSpec.t) : dialog :=
  {| name_edit := ToolSpec.name t;
     mode_cb := setCurrentText ["module"; "command"] (ToolSpec.runner_mode t);
     runner_edit := ToolSpec.runner t;
     script_edit := or_empty (ToolSpec.script t);
     notes_edit := toPlainText (or_empty (ToolSpec.notes t));
     inputs_table := map _add_input_row (ToolSpec.inputs t) |}.

End Opening.
End ToolEditor.

(** ** The name suggested by [_export_params] *)

Module Exporting.
Import Py.






End Exporting.

(** ** Building the form: [ToolForm.set_tool] *)

(** The widgets are modelled as in [ToolForm]: by the state the program
    reads back.  Read-only and disabled flags, the title and the layout are
    left out, except for the labels of the rows.  The call is taken outside
    a running [set_tool] ([_busy] is off). *)
Module Building.
Import Py ToolForm.
Section Def.
Context {P : Platform}.

(** The float [0.0], the value of a fresh [QDoubleSpinBox]. *)
Variable zero : float.

(** [QDate.currentDate()] *)
Variable today : QDate.

(** The text of a line edit after [if spec.default is not None:
    w.setText(str(spec.default))]. *)
Definition default_text (d : pyval) : string :=
  match d with
  | VNone => ""
  | _ => str d
  end.

(** [isinstance(d, int)] holds of integers and booleans. *)
Definition as_int (d : pyval) : option Z :=
  match d with
  | VInt n => Some n
  | VBool b => Some (if b then 1 else 0)%Z
  | _ => None
  end.

(** [isinstance(d, (int, float))] *)
Definition is_number (d : pyval) : bool :=
  match d with
  | VInt _ | VBool _ | VFloat _ => true
  | _ => false
  end.

(** The list [defaults] of the multi-choice branch. *)
Definition checked_defaults (d : pyval) : list pyval :=
  if truthy d then
    match d with
    | VStr s => map VStr (csv_items s)
    | VList l => l
    | _ => []
    end
  else [].

(** The text of a fresh [QPlainTextEdit] after the list branch. *)
Definition list_text (d : pyval) : string :=
  if truthy d then
    match d with
    | VStr s => s
    | VList l => join (String (ch 10) "") (map str l)
    | _ => ""
    end
  else "".

(** The state of the check box of a toggle. *)
Definition toggle_default (d : pyval) : bool :=
  let s := match d with VNone => "" | _ => lower (strip (str d)) end in
  (s =? "yes") || (s =? "true") || (s =? "on") || (s =? "1").

(** [spec.choices or []] *)
Definition choices_of (spec : InputSpec.t) : list string :=
  match InputSpec.choices spec with Some l => l | None => [] end.

(** The current row of a combo box once its items are in: the first one,
    if there is one. *)
Definition first_row {A : Type} (items : list A) : option nat :=
  match items with [] => None | _ :: _ => Some 0 end.

(** [CheckableComboBox.setChoices(choices)]: one unchecked row per choice. *)
Definition setChoices (choices : list string) : list (string * bool) :=
  map (fun text => (text, false)) choices.

(** [CheckableComboBox._toggle_item(idx)] for the index of a row. *)
Fixpoint _toggle_item (idx : nat) (rows : list (string * bool)) : list (string * bool) :=
  match rows, idx with
  | [], _ => []
  | (text, checked) :: rest, O => (text, negb checked) :: rest
  | r :: rest, S i => r :: _toggle_item i rest
  end.

(** The widget [set_tool] builds for one parameter, test by test in the
    order of its [if]/[elif] chain, with the [setText] that follows the
    chain; or the exception a setter raises. *)
Definition build_widget (spec : InputSpec.t) : result widget :=
  let ty := InputSpec.type spec in
  let d := InputSpec.default spec in
  if ty =? "string" then Ok (QLineEdit (default_text d))
  else if ty =? "int" then
    match as_int d with
    | Some n => m <- spin_store n ;; Ok (QSpinBox m)
    | None => Ok (QSpinBox 0)
    end
  else if ty =? "float" then
    if is_number d then x <- to_float d ;; Ok (QDoubleSpinBox (dspin_store x))
    else Ok (QDoubleSpinBox zero)
  else if ty =? "date" then
    Ok (QDateEdit
          (dateedit_store
             (if truthy d
              then match date_fromString (str d) with Some qd => qd | None => today end
              else today)))
  else if ty =? "toggle" then Ok (QCheckBox (toggle_default d))
  else if ty =? "file" then Ok (FilePicker (if truthy d then str d else ""))
  else if ty =? "folder" then Ok (FilePicker (if truthy d then str d else ""))
  else if ty =? "enum" then
    let items := choices_of spec in
    Ok (QComboBox items
          (match d with
           | VNone => first_row items
           | _ => match findText (str d) items with
                  | Some i => Some i
                  | None => first_row items
                  end
           end))
  else if ty =? "multienum" then
    let rows := setChoices (choices_of spec) in
    Ok (CheckableComboBox (setCheckedItems (map str (checked_defaults d)) rows)
                          (first_row rows))
  else if ty =? "password" then Ok (QLineEdit (default_text d))
  else if ty =? "list" then Ok (QPlainTextEdit (list_text d))
  else Ok (QLineEdit (default_text d)).

(** How [set_tool] ends: normally, or in its [except] with the box
    [Form Build Error]. *)
Inductive outcome : Type :=
| Built
| BuildError (e : exn).

(** The label of the row added for the [n]-th parameter. *)
Definition row_label (n : nat) (spec : InputSpec.t) : string :=
  str_of_Z (Z.of_nat n) +++ " : " +++ label_or_name spec
  +++ (if InputSpec.required spec then " *" else "").

(** The loop over [tool.inputs], [n] rows having been added: the fields and
    the row labels when it ends. *)
Fixpoint build_fields (specs : list InputSpec.t) (n : nat)
    (fs : dict widget) (rows : list string) : dict widget * list string * outcome :=
  match specs with
  | [] => (fs, rows, Built)
  | spec :: rest =>
      match build_widget spec with
      | Raise e => (fs, rows, BuildError e)
      | Ok w =>
          build_fields rest (S n) (set (InputSpec.name spec) w fs)
                       (rows ++ [row_label (S n) spec])
      end
  end.

(** [set_tool(tool)]: the form afterwards, the labels of its rows, how the
    call ended, and what it scheduled. *)
Definition set_tool (t : ToolSpec.t) (f : form)
    : form * list string * outcome * list effect :=
  match build_fields (ToolSpec.inputs t) 0 [] [] with
  | (fs, rows, Built) =>
      ({| tool := Some t; fields := fs; output_dir := ""; log := []; status := Ready;
          _pending_cmd := _pending_cmd f |},
       rows, Built, [Schedule_fit_inputs_height])
  | (fs, rows, BuildError e) =>
      ({| tool := Some t; fields := fs; output_dir := output_dir f; log := log f;
          status := status f; _pending_cmd := _pending_cmd f |},
       rows, BuildError e, [Schedule_fit_inputs_height])
  end.

End Def.
End Building.

(** ** Further notions *)

Module MoreNotions.
Import Py ToolForm Template.
Section Def.
Context {P : Platform}.

(** [s.endswith(suf)] *)
Fixpoint endswith (suf s : string) : bool :=
  (s =? suf) ||
  match s with
  | EmptyString => false
  | String _ s' => endswith suf s'
  end.

Fixpoint last_char (s : string) : option ascii :=
  match s with
  | EmptyString => None
  | String c EmptyString => Some c
  | String _ s' => last_char s'
  end.

(** The names [_build_command] writes into the placeholders itself. *)
Definition builtin (k : string) : bool :=
  (k =? "python") || (k =? "python_u") || (k =? "script") || (k =? "output_dir").

(** A key written for some toggle. *)
Definition toggle_key (k : string) : bool :=
  endswith "_flag" k || endswith "_yn" k || endswith "_01" k.

(** The runner template of the editor, as a template of pieces. *)
Definition part_pieces (s : InputSpec.t) : list piece :=
  let name := InputSpec.name s in
  if InputSpec.type s =? "toggle" then [Lit " "; Ph (name +++ "_flag")]
  else if ToolEditor.needs_quotes (InputSpec.type s)
  then [Lit (" --" +++ name +++ " " +++ ToolEditor.quote); Ph name; Lit ToolEditor.quote]
  else [Lit (" --" +++ name +++ " "); Ph name].

Definition template_pieces (specs : list InputSpec.t) : list piece :=
  [Ph "python_u"; Lit (" " +++ ToolEditor.quote); Ph "script"; Lit ToolEditor.quote]
  ++ flat_map part_pieces specs.

(** Where the item at [k] comes from when the items at [i] and [j] change
    places. *)
Definition source (i j k : nat) : nat :=
  if Nat.eqb k j then i else if Nat.eqb k i then j else k.

(** A widget whose value the widget stores unchanged when it is set
    again, and whose date its text gives back: the state Qt keeps spin
    boxes and date edits in. *)
Definition settled_value (w : widget) : Prop :=
  match w with
  | QSpinBox v => spin_store v = Ok v
  | QDoubleSpinBox x => dspin_store x = x
  | QDateEdit d => date_fromString (date_toString d) = Some d /\ dateedit_store d = d
  | _ => True
  end.

(** The tool of the starter configuration, as [load_config] builds it. *)
Definition starter : ToolSpec.t :=
  {| ToolSpec.name := "Sample Tool (Demo)";
     ToolSpec.runner_mode := "command";
     ToolSpec.runner := "{python} -c " +++ String dquote "print('Hello from sample tool!')"
                        +++ String dquote "";
     ToolSpec.script := None;
     ToolSpec.output_dir_optional := false;
     ToolSpec.inputs := [];
     ToolSpec.notes :=
       Some "This is a placeholder tool automatically created because config file was missing." |}.

(** The characters of a text, as the items of a double-quoted run. *)
Fixpoint dchars (s : string) : list ShellWords.dq_item :=
  match s with
  | EmptyString => []
  | String c s' => ShellWords.DChar c :: dchars s'
  end.

(** A text that ends with a character [strip] keeps. *)
Definition ends_well (s : string) : Prop :=
  exists a c, s = a +++ String c "" /\ is_space c = false.

(** A string without leading or trailing whitespace. *)
Definition trimmed (s : string) : Prop := strip s = s.


(** A tool with the output-directory flag cleared. *)
Definition cleared (t : ToolSpec.t) : ToolSpec.t :=
  {| ToolSpec.name := ToolSpec.name t; ToolSpec.runner_mode := ToolSpec.runner_mode t;
     ToolSpec.runner := ToolSpec.runner t; ToolSpec.script := ToolSpec.script t;
     ToolSpec.output_dir_optional := false; ToolSpec.inputs := ToolSpec.inputs t;
     ToolSpec.notes := ToolSpec.notes t |}.

(** A default the editor gives back: nothing, or a number of the type of
    the parameter whose text is not empty and reads back as the number, or
    a non-empty text for a parameter that is not a number. *)
Definition default_survives (ty : string) (v : pyval) : Prop :=
  match v with
  | VNone => True
  | VInt n => ty = "int" /\ str_of_Z n <> "" /\ int_of_str (str_of_Z n) = Ok n
  | VFloat x => ty = "float" /\ float_str x <> "" /\ float_of_str (float_str x) = Ok x
  | VStr s => s <> "" /\ ty <> "int" /\ ty <> "float"
  | _ => False
  end.

(** A parameter the editor gives back as it was: a trimmed name, a type
    of the type box, a trimmed label if any, a default as above, and
    choices only for the two types that have them, none of them empty,
    untrimmed or with a comma. *)
Definition input_survives (i : InputSpec.t) : Prop :=
  InputSpec.name i <> "" /\ trimmed (InputSpec.name i) /\
  In (InputSpec.type i) ToolEditor.type_items /\
  (forall l, InputSpec.label i = Some l -> l <> "" /\ trimmed l) /\
  default_survives (InputSpec.type i) (InputSpec.default i) /\
  (forall c, InputSpec.choices i = Some c ->
     (InputSpec.type i = "enum" \/ InputSpec.type i = "multienum") /\
     c <> [] /\ Forall TextNotions.clean c).

(** A tool the editor gives back as it was, its flag apart. *)
Definition tool_survives (toPlainText : string -> string) (t : ToolSpec.t) : Prop :=
  ToolSpec.name t <> "" /\ trimmed (ToolSpec.name t) /\
  (ToolSpec.runner_mode t = "module" \/ ToolSpec.runner_mode t = "command") /\
  trimmed (ToolSpec.runner t) /\
  (forall s, ToolSpec.script t = Some s -> s <> "" /\ trimmed s) /\
  (forall s, ToolSpec.notes t = Some s -> s <> "" /\ trimmed s) /\
  toPlainText (ToolEditor.or_empty (ToolSpec.notes t)) = ToolEditor.or_empty (ToolSpec.notes t) /\
  Forall input_survives (ToolSpec.inputs t).

(** A parameter without its choices. *)
Definition without_choices (i : InputSpec.t) : InputSpec.t :=
  {| InputSpec.name := InputSpec.name i; InputSpec.type := InputSpec.type i;
     InputSpec.label := InputSpec.label i; InputSpec.default := InputSpec.default i;
     InputSpec.choices := None; InputSpec.required := InputSpec.required i;
     InputSpec.readonly := InputSpec.readonly i |}.

End Def.
End MoreNotions.

(** ** More sample data *)

Module MoreSamples.
Import Py Sample ToolForm Template ShellWords FormNotions MoreNotions Demo.

(** A window with three tools, the first one selected. *)
Definition three_tools : MainWindow.window :=
  {| MainWindow.tools := [convert; greet; titled];
     MainWindow.currentRow := 0%Z;
     MainWindow.config_file := VList [] |}.

(** An array whose parameter record has a field the program does not
    know. *)
Definition unloadable : list pyval := map VDict (tools_file [("tooltip", VStr "x")]).

Definition required_input (name ty : string) (label : option string) : InputSpec.t :=
  {| InputSpec.name := name; InputSpec.type := ty; InputSpec.label := label;
     InputSpec.default := VNone; InputSpec.choices := None;
     InputSpec.required := true; InputSpec.readonly := false |}.






(** A command tool whose template is two spaces. *)
Definition blank : ToolSpec.t := tool_of "command" "  " [].

Definition blank_form : form := form_of blank [] " /out ".

(** The parameters of a tool, and the tool that runs the template the
    editor generates for them. *)
Definition sheet : list InputSpec.t :=
  [input "name" "string" None; input "count" "int" None; input "verbose" "toggle" None].

Definition generated : ToolSpec.t :=
  tool_of "command" (ToolEditor.runner_template sheet) sheet.

Definition generated_values : ValueBag :=
  [("name", VStr "a b"); ("count", VInt 3); ("verbose", VBool false); ("_output_dir", VNone)].

(** What the form of [convert] holds, and the command compiled from it. *)
Definition convert_collected : ValueBag :=
  [("size", VInt 7); ("fast", VBool false); ("title", VStr "old"); ("_output_dir", VNone)].

Definition convert_command : list pyval :=
  map VStr ["/usr/bin/python3"; "-u"; "-m"; "pkg.convert"; "--func"; "main";
            "--size"; "7"; "--fast"; "False"; "--title"; "old"].

Definition with_default (name ty : string) (default : pyval)
    (choices : option (list string)) : InputSpec.t :=
  {| InputSpec.name := name; InputSpec.type := ty; InputSpec.label := None;
     InputSpec.default := default; InputSpec.choices := choices;
     InputSpec.required := false; InputSpec.readonly := false |}.

(** A tool whose parameters have defaults. *)
Definition preset : ToolSpec.t :=
  tool_of "module" "pkg.preset:run"
    [with_default "title" "string" (VStr "draft") None;
     with_default "size" "int" (VInt 5) None;
     with_default "ratio" "float" (VInt 2) None;
     with_default "day" "date" (VStr "2024-03-09") None;
     with_default "fast" "toggle" (VStr " Yes ") None;
     with_default "src" "file" VNone None;
     with_default "mode" "enum" (VStr "b") (Some ["a"; "b"]);
     with_default "tags" "multienum" (VStr "z, x") (Some ["x"; "y"; "z"]);
     required_input "items" "list" (Some "Items")].

(** A tool as the editor writes tools. *)
Definition edited : ToolSpec.t :=
  tool_of "module" "pkg.preset:run"
    [with_default "title" "string" (VStr "draft") None;
     with_default "size" "int" (VInt 5) None;
     with_default "src" "file" VNone None;
     with_default "mode" "enum" (VStr "b") (Some ["a"; "b"]);
     required_input "items" "list" (Some "Items")].

Definition new_year : QDate := (2026, 1, 1).

(** The form [set_tool] builds for [preset]. *)
Definition preset_form : form :=
  form_of preset
    [("title", QLineEdit "draft"); ("size", QSpinBox 5); ("ratio", QDoubleSpinBox 2000000%Z);
     ("day", QDateEdit (2024, 3, 9)); ("fast", QCheckBox true); ("src", FilePicker "");
     ("mode", QComboBox ["a"; "b"] (Some 1));
     ("tags", CheckableComboBox [("x", true); ("y", false); ("z", true)] (Some 0));
     ("items", QPlainTextEdit "")]
    "".

Definition preset_rows : list string :=
  ["1 : title"; "2 : size"; "3 : ratio"; "4 : day"; "5 : fast"; "6 : src"; "7 : mode";
   "8 : tags"; "9 : Items *"].

End MoreSamples.

(* ================================================================== *)
(** * Part II: properties                                              *)
(* ================================================================== *)

Import Py ToolForm TextNotions FormNotions.

(** ** Strings, lists and dictionaries *)

Section StringLemmas.

Lemma append_nil_r (s : string) : s +++ "" = s.
Proof. induction s; simpl; congruence. Qed.

Lemma append_assoc (a b c : string) : (a +++ b) +++ c = a +++ (b +++ c).
Proof. induction a; simpl; congruence. Qed.

Lemma push_char_append (a : string) (c : ascii) (b : string) :
  push_char a c +++ b = a +++ String c b.
Proof. unfold push_char. rewrite append_assoc. reflexivity. Qed.

Lemma sforall_append (p : ascii -> bool) (a b : string) :
  sforall p (a +++ b) = sforall p a && sforall p b.
Proof. induction a; simpl; [reflexivity|]. rewrite IHa. apply andb_assoc. Qed.

End StringLemmas.

Section StripLemmas.

Lemma rstrip_cons_nonspace (c : ascii) (s : string) :
  is_space c = false -> rstrip (String c s) = String c (rstrip s).
Proof. intros H. cbn [rstrip]. rewrite H. destruct (rstrip s); reflexivity. Qed.

Lemma rstrip_idem (s : string) : rstrip (rstrip s) = rstrip s.
Proof.
  induction s as [|c s IH]; [reflexivity|].
  cbn [rstrip]. destruct (rstrip s) as [|d r] eqn:E.
  - destruct (is_space c) eqn:Hc; [reflexivity|].
    cbn [rstrip]. rewrite Hc. reflexivity.
  - cbn [rstrip]. cbn [rstrip] in IH. rewrite IH. reflexivity.
Qed.

Lemma lstrip_head (s : string) :
  lstrip s = "" \/ exists c r, lstrip s = String c r /\ is_space c = false.
Proof.
  induction s as [|c s IH]; [left; reflexivity|].
  cbn [lstrip]. destruct (is_space c) eqn:Hc; [exact IH|].
  right. exists c, s. split; [reflexivity|exact Hc].
Qed.

Lemma strip_idem (s : string) : strip (strip s) = strip s.
Proof.
  unfold strip. destruct (lstrip_head s) as [->|(c & r & -> & Hc)]; [reflexivity|].
  rewrite (rstrip_cons_nonspace _ _ Hc). cbn [lstrip]. rewrite Hc.
  rewrite (rstrip_cons_nonspace _ _ Hc), rstrip_idem. reflexivity.
Qed.

Lemma lstrip_sforall (p : ascii -> bool) (s : string) :
  sforall p s = true -> sforall p (lstrip s) = true.
Proof.
  induction s as [|c s IH]; [reflexivity|]. cbn [lstrip sforall]. intros H.
  destruct (is_space c); [|exact H].
  apply andb_true_iff in H. apply IH, H.
Qed.

Lemma rstrip_sforall (p : ascii -> bool) (s : string) :
  sforall p s = true -> sforall p (rstrip s) = true.
Proof.
  induction s as [|c s IH]; [reflexivity|]. cbn [rstrip sforall]. intros H.
  apply andb_true_iff in H. destruct H as [Hc Hs]. specialize (IH Hs).
  destruct (rstrip s) as [|d r].
  - destruct (is_space c); [reflexivity|]. cbn [sforall]. rewrite Hc. reflexivity.
  - cbn [sforall] in *. rewrite Hc. exact IH.
Qed.

Lemma strip_sforall (p : ascii -> bool) (s : string) :
  sforall p s = true -> sforall p (strip s) = true.
Proof. intros H. unfold strip. apply rstrip_sforall, lstrip_sforall, H. Qed.

End StripLemmas.

Section SplitLemmas.


Lemma split_pieces (c : ascii) (s : string) : Forall (fun p => no_char c p = true) (split c s).
Proof.
  induction s as [|d s IH]; cbn [split].
  - repeat constructor.
  - destruct (Ascii.eqb d c) eqn:E.
    + constructor; [reflexivity|exact IH].
    + destruct (split c s) as [|p ps]; [repeat constructor; cbn; rewrite E; reflexivity|].
      inversion IH; subst. constructor; [|assumption].
      unfold no_char in *. cbn [sforall]. rewrite E. assumption.
Qed.

Lemma split_sforall (p : ascii -> bool) (c : ascii) (s : string) :
  sforall p s = true -> Forall (fun x => sforall p x = true) (split c s).
Proof.
  induction s as [|d s IH]; cbn [split sforall]; intros H.
  - repeat constructor.
  - apply andb_true_iff in H. destruct H as [Hd Hs]. specialize (IH Hs).
    destruct (Ascii.eqb d c).
    + constructor; [reflexivity|exact IH].
    + destruct (split c s) as [|x xs]; [repeat constructor; cbn; rewrite Hd; reflexivity|].
      inversion IH; subst. constructor; [|assumption].
      cbn [sforall]. rewrite Hd. assumption.
Qed.

Lemma split_no_sep (c : ascii) (s : string) : no_char c s = true -> split c s = [s].
Proof.
  induction s as [|d s IH]; [reflexivity|]. unfold no_char. cbn [sforall split]. intros H.
  apply andb_true_iff in H. destruct H as [Hd Hs]. apply negb_true_iff in Hd.
  rewrite Hd, (IH Hs). reflexivity.
Qed.

Lemma split_app_sep (c : ascii) (x rest : string) :
  no_char c x = true -> split c (x +++ String c rest) = x :: split c rest.
Proof.
  induction x as [|d x IH]; unfold no_char; cbn [sforall append split]; intros H.
  - rewrite Ascii.eqb_refl. reflexivity.
  - apply andb_true_iff in H. destruct H as [Hd Hx]. apply negb_true_iff in Hd.
    rewrite Hd, (IH Hx). reflexivity.
Qed.

Lemma join_cons2 (sep x y : string) (l : list string) :
  join sep (x :: y :: l) = x +++ sep +++ join sep (y :: l).
Proof. reflexivity. Qed.

Lemma split_join (c : ascii) (l : list string) :
  l <> [] -> Forall (fun x => no_char c x = true) l ->
  split c (join (String c "") l) = l.
Proof.
  induction l as [|x l IH]; [congruence|]. intros _ H. inversion H as [|? ? Hx Hl]; subst.
  destruct l as [|y l].
  - cbn. apply split_no_sep. exact Hx.
  - rewrite join_cons2. cbn [append]. rewrite (split_app_sep _ _ _ Hx), IH; [reflexivity|discriminate|exact Hl].
Qed.

Lemma csv_items_clean (s : string) : Forall clean (csv_items s).
Proof.
  unfold csv_items. apply Forall_forall. intros x Hx.
  apply filter_In in Hx. destruct Hx as [Hin Hne].
  apply in_map_iff in Hin. destruct Hin as (p & <- & Hp).
  pose proof (split_pieces "," s) as Hall. rewrite Forall_forall in Hall.
  repeat split.
  - apply strip_idem.
  - apply negb_true_iff, String.eqb_neq in Hne. exact Hne.
  - apply strip_sforall, Hall, Hp.
Qed.

Lemma map_id_on {A : Type} (f : A -> A) (l : list A) :
  Forall (fun x => f x = x) l -> map f l = l.
Proof. induction 1; cbn; congruence. Qed.

Lemma filter_all {A : Type} (p : A -> bool) (l : list A) :
  Forall (fun x => p x = true) l -> filter p l = l.
Proof. induction 1 as [|x l Hx Hl IH]; cbn; [reflexivity|]. rewrite Hx, IH. reflexivity. Qed.

Lemma csv_items_join (l : list string) : Forall clean l -> csv_items (join "," l) = l.
Proof.
  intros H. unfold csv_items. destruct l as [|x l]; [reflexivity|].
  rewrite split_join; [|discriminate|].
  - rewrite map_id_on, filter_all; [reflexivity| |].
    + eapply Forall_impl; [|exact H]. intros a (_ & Ha & _).
      apply negb_true_iff, String.eqb_neq. exact Ha.
    + eapply Forall_impl; [|exact H]. intros a (Ha & _). exact Ha.
  - eapply Forall_impl; [|exact H]. intros a (_ & _ & Ha). exact Ha.
Qed.

End SplitLemmas.

Section LineLemmas.

Lemma splitlines_no_break (s : string) : Forall (fun l => no_break l = true) (splitlines s).
Proof.
  assert (H : forall n s, String.length s <= n -> Forall (fun l => no_break l = true) (splitlines s)).
  { induction n as [|n IH]; intros t Hlen.
    - destruct t; [constructor|cbn in Hlen; lia].
    - destruct t as [|c t]; [constructor|]. cbn in Hlen.
      cbn [splitlines]. destruct (is_linebreak c) eqn:Ec.
      + destruct t as [|d t]; [repeat constructor|].
        destruct (Ascii.eqb c (ch 13) && Ascii.eqb d (ch 10)).
        * constructor; [reflexivity|]. apply IH. cbn in Hlen. lia.
        * constructor; [reflexivity|]. apply IH. lia.
      + assert (IHt : Forall (fun l => no_break l = true) (splitlines t)) by (apply IH; lia).
        destruct (splitlines t) as [|l ls].
        * repeat constructor. unfold no_break. cbn. rewrite Ec. reflexivity.
        * inversion IHt; subst. constructor; [|assumption].
          unfold no_break in *. cbn [sforall]. rewrite Ec. assumption. }
  apply (H (String.length s)). lia.
Qed.

Lemma splitlines_one (x : string) :
  x <> "" -> no_break x = true -> splitlines x = [x].
Proof.
  induction x as [|c x IH]; [congruence|]. intros _ H.
  unfold no_break in H. cbn [sforall] in H. apply andb_true_iff in H.
  destruct H as [Hc Hx]. apply negb_true_iff in Hc.
  cbn [splitlines]. rewrite Hc. destruct x as [|d x]; [reflexivity|].
  rewrite IH; [reflexivity|discriminate|exact Hx].
Qed.

Lemma splitlines_app_newline (x rest : string) :
  no_break x = true ->
  splitlines (x +++ String newline rest) = x :: splitlines rest.
Proof.
  induction x as [|c x IH]; intros H.
  - cbn [append splitlines].
    change (is_linebreak newline) with true. cbn iota.
    destruct rest as [|d rest]; [reflexivity|].
    change (Ascii.eqb newline (ch 13)) with false. reflexivity.
  - unfold no_break in H. cbn [sforall] in H. apply andb_true_iff in H.
    destruct H as [Hc Hx]. apply negb_true_iff in Hc.
    cbn [append splitlines]. rewrite Hc, (IH Hx). reflexivity.
Qed.

Lemma splitlines_join (l : list string) :
  Forall (fun x => x <> "" /\ no_break x = true) l ->
  splitlines (join (String newline "") l) = l.
Proof.
  induction l as [|x l IH]; [reflexivity|]. intros H. inversion H as [|? ? [Hne Hx] Hl]; subst.
  destruct l as [|y l].
  - cbn. apply splitlines_one; assumption.
  - rewrite join_cons2. cbn [append].
    rewrite (splitlines_app_newline _ _ Hx), (IH Hl). reflexivity.
Qed.

Lemma join_sforall (p : ascii -> bool) (sep : string) (l : list string) :
  sforall p sep = true -> Forall (fun x => sforall p x = true) l ->
  sforall p (join sep l) = true.
Proof.
  intros Hsep. induction 1 as [|x l Hx Hl IH]; [reflexivity|].
  destruct l as [|y l]; [exact Hx|].
  rewrite join_cons2.
  assert (Happ : forall a b, sforall p a = true -> sforall p b = true -> sforall p (a +++ b) = true).
  { induction a; cbn; intros b Ha Hb; [exact Hb|].
    apply andb_true_iff in Ha. destruct Ha as [-> Ha]. cbn. auto. }
  apply Happ; [exact Hx|]. apply Happ; [exact Hsep|exact IH].
Qed.

End LineLemmas.
Section DictLemmas.
Context {V : Type}.

Lemma get_app_skip (k k' : string) (v : V) (d1 d2 : dict V) :
  k' <> k -> get k ((d1 ++ (k', v) :: d2)) = get k (d1 ++ d2).
Proof.
  intros Hne. induction d1 as [|[a b] d1 IH]; simpl.
  - destruct (k' =? k) eqn:E; [apply String.eqb_eq in E; contradiction|reflexivity].
  - destruct (a =? k); [reflexivity|exact IH].
Qed.

Lemma remove_app (k : string) (d1 d2 : dict V) :
  remove k (d1 ++ d2) = remove k d1 ++ remove k d2.
Proof. unfold remove. apply filter_app. Qed.

Lemma get_set_same (k : string) (v : V) (d : dict V) : get k (set k v d) = Some v.
Proof.
  induction d as [|[a b] d IH]; simpl.
  - rewrite String.eqb_refl. reflexivity.
  - destruct (a =? k) eqn:E; simpl; rewrite E; [reflexivity|exact IH].
Qed.

Lemma get_set_other (k k' : string) (v : V) (d : dict V) :
  k <> k' -> get k (set k' v d) = get k d.
Proof.
  intros Hne. induction d as [|[a b] d IH]; simpl.
  - destruct (k' =? k) eqn:E; [apply String.eqb_eq in E; congruence|reflexivity].
  - destruct (a =? k') eqn:E; simpl.
    + apply String.eqb_eq in E. subst a.
      destruct (k' =? k) eqn:E'; [apply String.eqb_eq in E'; congruence|reflexivity].
    + destruct (a =? k); [reflexivity|exact IH].
Qed.

End DictLemmas.

Lemma flat_map_agree {A B : Type} (f g : A -> list B) (l : list A) :
  (forall a, In a l -> f a = g a) -> flat_map f l = flat_map g l.
Proof.
  induction l as [|a l IH]; intros H; simpl; [reflexivity|].
  rewrite (H a (or_introl eq_refl)), IH; [reflexivity|].
  intros b Hb. apply H. right. exact Hb.
Qed.

Lemma flat_map_const_nil {A B : Type} (f : A -> list B) (l : list A) :
  (forall a, In a l -> f a = []) -> flat_map f l = [].
Proof.
  induction l as [|a l IH]; intros H; cbn; [reflexivity|].
  rewrite (H a (or_introl eq_refl)), IH; [reflexivity|]. intros b Hb. apply H. right. exact Hb.
Qed.

(** ** The command compiler in module mode *)

Section ModuleMode.
Context {P : Platform}.

Lemma module_args_flat_map (vals : ValueBag) :
  module_args vals =
  flat_map (fun kv => [VStr ("--" +++ fst kv); VStr (str (snd kv))])
           (filter (fun kv => negb (fst kv =? "_output_dir")) vals).
Proof.
  induction vals as [|[k v] rest IH]; simpl; [reflexivity|].
  destruct (k =? "_output_dir"); simpl; rewrite IH; reflexivity.
Qed.

Lemma contains_split1 (c : ascii) (s : string) :
  contains c s = true -> exists a b, split1 c s = [a; b].
Proof.
  unfold contains. induction s as [|d s IH]; simpl; [discriminate|].
  rewrite (Ascii.eqb_sym c d).
  destruct (Ascii.eqb d c) eqn:E; simpl.
  - intros _. eauto.
  - intros H. destruct (IH H) as (a & b & ->). eauto.
Qed.

(** C1.  In module mode every successful compilation yields exactly: the
    interpreter path, [-u], [-m] and the module path, [--func] and the entry
    name, then for each entry of the value bag other than the reserved
    ["_output_dir"], in the order of the bag, the two tokens [--name] and
    [str(value)], and last, when the reserved value is present and not
    empty, [--output_dir] and that value. *)
Theorem module_mode_argv_shape
    (h : Host) (tool : ToolSpec.t) (vals : ValueBag) (cmd : list pyval) :
  ToolSpec.runner_mode tool = "module" ->
  _build_command h tool vals = Some (Ok cmd) ->
  exists mod_ func,
    parse_module_runner (ToolSpec.runner tool) = Ok (mod_, func) /\
    cmd = [VStr (python_path h); VStr "-u"; VStr "-m"; VStr mod_; VStr "--func"; VStr func]
          ++ flat_map (fun kv => [VStr ("--" +++ fst kv); VStr (str (snd kv))])
               (filter (fun kv => negb (fst kv =? "_output_dir")) vals)
          ++ (if truthy (vget "_output_dir" vals)
              then [VStr "--output_dir"; vget "_output_dir" vals] else []).
Proof.
  intros Hmode Hb. unfold _build_command in Hb.
  destruct (negb (isfile h (python_path h))); [discriminate|].
  rewrite Hmode in Hb. simpl in Hb.
  destruct (parse_module_runner (ToolSpec.runner tool)) as [[m f]|e] eqn:Hp; simpl in Hb;
    [|discriminate].
  exists m, f. split; [reflexivity|].
  injection Hb as <-. rewrite module_args_flat_map. reflexivity.
Qed.

Lemma parse_module_runner_accepts (s : string) :
  contains ":" s = true -> exists m f, parse_module_runner s = Ok (m, f).
Proof.
  intros H. unfold parse_module_runner. rewrite H. simpl.
  destruct (contains_split1 _ _ H) as (a & b & ->). eauto.
Qed.

(** C6 (amended).  In module mode, with the interpreter in place, the
    compilation fails with the validation error exactly when the target has
    no colon.  A target with a colon is accepted, also when the module part
    or the entry name is empty after trimming: the two trimmed parts become
    the tokens after [-m] and [--func]. *)
Theorem module_target_rejected_iff_no_colon
    (h : Host) (tool : ToolSpec.t) (vals : ValueBag) :
  ToolSpec.runner_mode tool = "module" ->
  isfile h (python_path h) = true ->
  (contains ":" (ToolSpec.runner tool) = false ->
   _build_command h tool vals
   = Some (Raise (ValueError "Runner must be 'pkg.module:function'")))
  /\
  (contains ":" (ToolSpec.runner tool) = true ->
   exists m f cmd,
     parse_module_runner (ToolSpec.runner tool) = Ok (m, f) /\
     _build_command h tool vals = Some (Ok cmd) /\
     nth_error cmd 3 = Some (VStr m) /\ nth_error cmd 5 = Some (VStr f)).
Proof.
  intros Hmode Hfile. unfold _build_command. rewrite Hfile, Hmode. simpl. split.
  - intros Hc. unfold parse_module_runner. rewrite Hc. reflexivity.
  - intros Hc. destruct (parse_module_runner_accepts _ Hc) as (m & f & Hp).
    exists m, f. rewrite Hp. simpl. eexists. repeat split.
Qed.

End ModuleMode.

(** ** [str.format] on plain templates *)

Section FormatProofs.
Context {P : Platform}.
Import Fmt Template.

Lemma scan_lit (kw : dict pyval) (s rest acc : string) :
  plain_text s = true ->
  scan kw FLit acc (s +++ rest) = scan kw FLit (acc +++ s) rest.
Proof.
  revert acc. induction s as [|c s IH]; intros acc H; simpl.
  - rewrite append_nil_r. reflexivity.
  - simpl in H. apply andb_true_iff in H. destruct H as [Hc Hs].
    unfold is_brace in Hc. apply negb_true_iff, orb_false_iff in Hc. destruct Hc as [H1 H2].
    rewrite H1, H2. rewrite (IH _ Hs), push_char_append. reflexivity.
Qed.

Lemma name_step_char (kw : dict pyval) (name acc : string) (c : ascii) :
  name_char c = true ->
  name_step kw name acc c = Some (Ok (FName (push_char name c), acc)).
Proof.
  unfold name_char, is_brace, name_step. intros H.
  apply negb_true_iff in H.
  repeat (apply orb_false_iff in H; destruct H as [H ?]).
  rewrite H, H3, H4, H0, H1. reflexivity.
Qed.

Lemma scan_name (kw : dict pyval) (n m rest acc : string) :
  sforall name_char n = true ->
  scan kw (FName m) acc (n +++ rest) = scan kw (FName (m +++ n)) acc rest.
Proof.
  revert m. induction n as [|c n IH]; intros m H; simpl.
  - rewrite append_nil_r. reflexivity.
  - simpl in H. apply andb_true_iff in H. destruct H as [Hc Hn].
    rewrite (name_step_char _ _ _ _ Hc), (IH _ Hn), push_char_append. reflexivity.
Qed.

Lemma first_part_plain (n : string) : sforall name_char n = true -> first_part n = n.
Proof.
  induction n as [|c n IH]; simpl; [reflexivity|]. intros H.
  apply andb_true_iff in H. destruct H as [Hc Hn].
  unfold name_char in Hc. apply negb_true_iff in Hc.
  repeat (apply orb_false_iff in Hc; destruct Hc as [Hc ?]).
  rewrite H1, H2. simpl. rewrite (IH Hn). reflexivity.
Qed.

Lemma rest_part_plain (n : string) : sforall name_char n = true -> rest_part n = "".
Proof.
  induction n as [|c n IH]; simpl; [reflexivity|]. intros H.
  apply andb_true_iff in H. destruct H as [Hc Hn].
  unfold name_char in Hc. apply negb_true_iff in Hc.
  repeat (apply orb_false_iff in Hc; destruct Hc as [Hc ?]).
  rewrite H1, H2. simpl. exact (IH Hn).
Qed.

Lemma lookup_plain (kw : dict pyval) (n : string) :
  plain_name n = true ->
  lookup kw n = match get n kw with Some v => Ok v | None => Raise (KeyError n) end.
Proof.
  intros H. unfold lookup. destruct n as [|c n]; [discriminate|].
  simpl in H. apply andb_true_iff in H. destruct H as [Hd Hn].
  rewrite (first_part_plain (String c n) Hn).
  apply negb_true_iff in Hd.
  unfold get_integer. cbn [get_integer_from]. rewrite Hd. reflexivity.
Qed.

Lemma field_end_plain (kw : dict pyval) (n acc : string) :
  plain_name n = true ->
  field_end kw n None "" acc =
  match get n kw with
  | Some v => Some (Ok (FLit, acc +++ str v))
  | None => Some (Raise (KeyError n))
  end.
Proof.
  intros H. unfold field_end. rewrite (lookup_plain _ _ H).
  assert (Hn : sforall name_char n = true).
  { destruct n; [discriminate|]. simpl in H. apply andb_true_iff in H. apply H. }
  rewrite (rest_part_plain _ Hn). destruct (get n kw); reflexivity.
Qed.

Lemma field_text (n x : string) :
  ("{" +++ n +++ "}") +++ x = String "{" (n +++ String "}" x).
Proof. cbn [append]. rewrite append_assoc. reflexivity. Qed.

Lemma scan_field (kw : dict pyval) (n rest acc : string) :
  plain_name n = true ->
  scan kw FLit acc (String "{" (n +++ String "}" rest)) =
  match get n kw with
  | Some v => scan kw FLit (acc +++ str v) rest
  | None => Some (Raise (KeyError n))
  end.
Proof.
  intros H. pose proof (field_end_plain kw n acc H) as Hfe.
  destruct n as [|c n]; [discriminate|].
  cbn [plain_name] in H. apply andb_true_iff in H. destruct H as [Hd Hn].
  cbn [sforall] in Hn. apply andb_true_iff in Hn. destruct Hn as [Hc Hn].
  assert (Hb : Ascii.eqb c "{" = false).
  { unfold name_char, is_brace in Hc. apply negb_true_iff in Hc.
    repeat (apply orb_false_iff in Hc; destruct Hc as [Hc ?]). exact Hc. }
  cbn [scan append step]. cbn [Ascii.eqb Bool.eqb]. cbn [scan step]. rewrite Hb.
  rewrite (name_step_char _ _ _ _ Hc), (scan_name _ _ _ _ _ Hn).
  change (push_char "" c +++ n) with (String c n).
  cbn [scan step].
  change (name_step kw (String c n) acc "}") with (field_end kw (String c n) None "" acc).
  rewrite Hfe. destruct (get (String c n) kw); reflexivity.
Qed.

Lemma render_app (a b : list piece) : render (a ++ b) = render a +++ render b.
Proof. induction a; simpl; [reflexivity|]. rewrite IHa, append_assoc. reflexivity. Qed.

(** [format] on a template of literal text and plain placeholders. *)
Lemma scan_app (kw : dict pyval) (ps : list piece) (acc rest : string) :
  forallb piece_ok ps = true ->
  forallb (declared kw) ps = true ->
  scan kw FLit acc (render ps +++ rest) = scan kw FLit (acc +++ substitute kw ps) rest.
Proof.
  revert acc. induction ps as [|p ps IH]; intros acc Hok Hdecl.
  - cbn [render substitute append]. rewrite append_nil_r. reflexivity.
  - cbn [forallb] in Hok, Hdecl. apply andb_true_iff in Hok, Hdecl.
    destruct Hok as [Hp Hok], Hdecl as [Hd Hdecl].
    cbn [render]. rewrite append_assoc.
    destruct p as [s|n]; cbn [render_piece substitute piece_ok declared] in *.
    + rewrite (scan_lit _ _ _ _ Hp), (IH _ Hok Hdecl), append_assoc. reflexivity.
    + unfold mem in Hd. rewrite field_text, (scan_field _ _ _ _ Hp).
      destruct (get n kw); [|discriminate].
      rewrite (IH _ Hok Hdecl), append_assoc. reflexivity.
Qed.

Lemma format_render (kw : dict pyval) (ps : list piece) :
  forallb piece_ok ps = true ->
  forallb (declared kw) ps = true ->
  format (render ps) kw = Some (Ok (substitute kw ps)).
Proof.
  intros Hok Hdecl. unfold format.
  rewrite <- (append_nil_r (render ps)), (scan_app _ _ _ _ Hok Hdecl). reflexivity.
Qed.

Lemma format_undeclared (kw : dict pyval) (pre post : list piece) (k : string) :
  forallb piece_ok pre = true ->
  forallb (declared kw) pre = true ->
  plain_name k = true ->
  get k kw = None ->
  format (render (pre ++ Ph k :: post)) kw = Some (Raise (KeyError k)).
Proof.
  intros Hok Hdecl Hk Hget. unfold format.
  rewrite render_app, (scan_app _ _ _ _ Hok Hdecl). cbn [render render_piece].
  rewrite field_text, (scan_field _ _ _ _ Hk), Hget. reflexivity.
Qed.

End FormatProofs.

(** ** [shlex.split] on shell words *)

Section ShlexProofs.
Import Shlex ShellWords.

Lemma lexer_eta (l : lexer) : l = mk (state l) (escapedstate l) (token l) (quoted l) (out l).
Proof. destruct l; reflexivity. Qed.

Lemma ordinary_inv (c : ascii) :
  ordinary c = true -> is_ws c = false /\ is_quote c = false /\ is_escape c = false.
Proof.
  unfold ordinary. intros H. apply negb_true_iff in H.
  apply orb_false_iff in H. destruct H as [H H3].
  apply orb_false_iff in H. destruct H as [H1 H2]. auto.
Qed.

Lemma run_cons (l : lexer) (c : ascii) (s : string) :
  run l (String c s) = run (step l c) s.
Proof. reflexivity. Qed.

Lemma step_word_ordinary (c : ascii) es tok q o :
  ordinary c = true ->
  step (mk St_word es tok q o) c = mk St_word es (push_char tok c) q o.
Proof.
  intros H. destruct (ordinary_inv c H) as (H1 & H2 & H3).
  unfold step. cbn [state mk]. rewrite H1, H2, H3. reflexivity.
Qed.

Lemma step_white_ordinary (c : ascii) es tok q o :
  ordinary c = true ->
  step (mk St_white es tok q o) c = mk St_word es (String c "") q o.
Proof.
  intros H. destruct (ordinary_inv c H) as (H1 & H2 & H3).
  unfold step. cbn [state mk]. rewrite H1, H2, H3. reflexivity.
Qed.

Lemma step_squote_char (c : ascii) es tok q o :
  Ascii.eqb c squote = false ->
  step (mk (St_quote squote) es tok q o) c = mk (St_quote squote) es (push_char tok c) true o.
Proof.
  intros H. unfold step. cbn [state mk]. rewrite H.
  replace (is_escape c && Ascii.eqb squote dquote) with false
    by (rewrite andb_comm; reflexivity).
  reflexivity.
Qed.

Lemma step_dquote_char (c : ascii) es tok q o :
  Ascii.eqb c dquote = false -> is_escape c = false ->
  step (mk (St_quote dquote) es tok q o) c = mk (St_quote dquote) es (push_char tok c) true o.
Proof. intros H1 H2. unfold step. cbn [state mk]. rewrite H1, H2. reflexivity. Qed.

Lemma step_dquote_escape es tok q o :
  step (mk (St_quote dquote) es tok q o) backslash = mk St_escape (St_quote dquote) tok true o.
Proof. reflexivity. Qed.

Lemma step_escape_dquote (c : ascii) tok q o :
  step (mk St_escape (St_quote dquote) tok q o) c
  = mk (St_quote dquote) (St_quote dquote)
       (push_char (if negb (is_escape c) && negb (Ascii.eqb c dquote)
                   then push_char tok backslash else tok) c) q o.
Proof. reflexivity. Qed.

Lemma step_escape_word (c : ascii) tok q o :
  step (mk St_escape St_word tok q o) c = mk St_word St_word (push_char tok c) q o.
Proof. reflexivity. Qed.

Lemma step_quote_close (c : ascii) es tok q o :
  step (mk (St_quote c) es tok q o) c = mk St_word es tok true o.
Proof. unfold step. cbn [state mk]. rewrite Ascii.eqb_refl. reflexivity. Qed.

(** Unquoted ordinary characters are appended to the word. *)
Lemma run_plain (t rest : string) (es : lstate) (tok : string) (q : bool) (o : list string) :
  sforall ordinary t = true ->
  run (mk St_word es tok q o) (t +++ rest) = run (mk St_word es (tok +++ t) q o) rest.
Proof.
  revert tok. induction t as [|c t IH]; intros tok H; cbn [append].
  - rewrite append_nil_r. reflexivity.
  - cbn [sforall] in H. apply andb_true_iff in H. destruct H as [Hc Ht].
    rewrite run_cons, (step_word_ordinary _ _ _ _ _ Hc), (IH _ Ht), push_char_append.
    reflexivity.
Qed.

(** The characters of a single-quoted run are taken as they are. *)
Lemma run_squoted (t rest : string) (es : lstate) (tok : string) (q : bool) (o : list string) :
  sforall (fun c => negb (Ascii.eqb c squote)) t = true ->
  run (mk (St_quote squote) es tok q o) (t +++ String squote rest)
  = run (mk St_word es (tok +++ t) true o) rest.
Proof.
  revert tok q. induction t as [|c t IH]; intros tok q H; cbn [append].
  - rewrite run_cons, step_quote_close, append_nil_r. reflexivity.
  - cbn [sforall] in H. apply andb_true_iff in H. destruct H as [Hc Ht].
    apply negb_true_iff in Hc.
    rewrite run_cons, (step_squote_char _ _ _ _ _ Hc), (IH _ _ Ht), push_char_append.
    reflexivity.
Qed.

(** The items of a double-quoted run. *)
Lemma run_dquoted (items : list dq_item) (rest : string) (es : lstate) (tok : string)
    (q : bool) (o : list string) :
  forallb dq_item_ok items = true ->
  exists es',
    run (mk (St_quote dquote) es tok q o)
        (sconcat (map render_dq_item items) +++ String dquote rest)
    = run (mk St_word es' (tok +++ sconcat (map dq_item_value items)) true o) rest.
Proof.
  revert tok q es. induction items as [|i items IH]; intros tok q es H; cbn [map sconcat append].
  - exists es. rewrite run_cons, step_quote_close, append_nil_r. reflexivity.
  - cbn [forallb] in H. apply andb_true_iff in H. destruct H as [Hi Hitems].
    destruct i as [c|c]; cbn [render_dq_item dq_item_value append].
    + cbn [dq_item_ok] in Hi. apply negb_true_iff, orb_false_iff in Hi. destruct Hi as [H1 H2].
      rewrite run_cons, (step_dquote_char _ _ _ _ _ H1 H2).
      destruct (IH (push_char tok c) true es Hitems) as [es' ->].
      exists es'. rewrite push_char_append. reflexivity.
    + rewrite run_cons, step_dquote_escape, run_cons, step_escape_dquote.
      destruct (IH (push_char (if negb (is_escape c) && negb (Ascii.eqb c dquote)
                               then push_char tok backslash else tok) c)
                   true (St_quote dquote) Hitems) as [es' ->].
      exists es'. f_equal. f_equal.
      destruct (is_escape c), (Ascii.eqb c dquote); cbn [negb andb orb];
        rewrite ?append_assoc, ?push_char_append; reflexivity.
Qed.

Lemma run_segment (s : segment) (rest : string) (l : lexer) :
  segment_ok s = true -> boundary l ->
  exists es',
    run l (render_segment s +++ rest)
    = run (mk St_word es' (token l +++ segment_value s) (quoted l || seg_quoted s) (out l)) rest.
Proof.
  intros Hok Hb. rewrite (lexer_eta l).
  destruct l as [st es tok q o]. cbn [state escapedstate token quoted out mk] in *.
  destruct s as [t|c|t|items]; cbn [render_segment segment_value seg_quoted segment_ok] in *.
  - (* Plain *)
    apply andb_true_iff in Hok. destruct Hok as [Hne Ht].
    destruct t as [|c t]; [discriminate|].
    cbn [sforall] in Ht. apply andb_true_iff in Ht. destruct Ht as [Hc Ht].
    exists es. cbn [append]. rewrite run_cons, orb_false_r.
    destruct Hb as [(Hst & Htok & Hq)|Hst]; cbn in Hst; subst.
    + cbn in Htok. subst tok. fold (mk St_white es "" q o).
      rewrite (step_white_ordinary _ _ _ _ _ Hc), (run_plain _ _ _ _ _ _ Ht). reflexivity.
    + fold (mk St_word es tok q o).
      rewrite (step_word_ordinary _ _ _ _ _ Hc), (run_plain _ _ _ _ _ _ Ht),
        push_char_append. reflexivity.
  - (* Escaped *)
    exists St_word. cbn [append]. rewrite !run_cons, orb_false_r.
    assert (H1 : step (mk st es tok q o) backslash = mk St_escape St_word tok q o).
    { destruct Hb as [(Hst & _)|Hst]; cbn in Hst; subst; reflexivity. }
    rewrite H1, step_escape_word. reflexivity.
  - (* SQuoted *)
    exists es. cbn [append]. rewrite run_cons, orb_true_r.
    assert (H1 : step (mk st es tok q o) squote = mk (St_quote squote) es tok q o).
    { destruct Hb as [(Hst & _)|Hst]; cbn in Hst; subst; reflexivity. }
    rewrite H1, append_assoc. cbn [append]. apply run_squoted. exact Hok.
  - (* DQuoted *)
    cbn [append]. rewrite run_cons, orb_true_r.
    assert (H1 : step (mk st es tok q o) dquote = mk (St_quote dquote) es tok q o).
    { destruct Hb as [(Hst & _)|Hst]; cbn in Hst; subst; reflexivity. }
    rewrite H1, append_assoc. cbn [append]. apply run_dquoted. exact Hok.
Qed.

Lemma run_segments (w : word) (rest : string) es tok q o :
  forallb segment_ok w = true ->
  exists es',
    run (mk St_word es tok q o) (render_word w +++ rest)
    = run (mk St_word es' (tok +++ word_value w) (q || existsb seg_quoted w) o) rest.
Proof.
  revert es tok q. induction w as [|s w IH]; intros es tok q H.
  - exists es. cbn. rewrite append_nil_r, orb_false_r. reflexivity.
  - cbn [forallb] in H. apply andb_true_iff in H. destruct H as [Hs Hw].
    unfold render_word, word_value. cbn [map sconcat existsb].
    fold (render_word w). fold (word_value w). rewrite append_assoc.
    destruct (run_segment s (render_word w +++ rest) (mk St_word es tok q o) Hs)
      as [es1 ->]; [right; reflexivity|].
    cbn [token quoted out mk].
    destruct (IH es1 (tok +++ segment_value s) (q || seg_quoted s) Hw) as [es2 ->].
    exists es2. rewrite append_assoc, orb_assoc. reflexivity.
Qed.

Lemma segment_pending (s : segment) :
  segment_ok s = true -> segment_value s <> "" \/ seg_quoted s = true.
Proof.
  destruct s as [t|c|t|items]; cbn; intros H; auto.
  - left. apply andb_true_iff in H. destruct H as [H _].
    apply negb_true_iff, String.eqb_neq in H. exact H.
  - left. discriminate.
Qed.

Lemma append_not_nil (a b : string) : a <> "" -> a +++ b <> "".
Proof. destruct a; [congruence|discriminate]. Qed.

Lemma run_word (w : word) (rest : string) (l : lexer) :
  word_ok w = true -> gap l ->
  exists l',
    run l (render_word w +++ rest) = run l' rest /\ done l' /\
    tokens l' = tokens l ++ [word_value w].
Proof.
  intros Hok Hgap. destruct w as [|s w]; [discriminate|].
  cbn [word_ok forallb] in Hok. apply andb_true_iff in Hok. destruct Hok as [Hs Hw].
  unfold render_word, word_value. cbn [map sconcat].
  fold (render_word w). fold (word_value w). rewrite append_assoc.
  destruct (run_segment s (render_word w +++ rest) l Hs (or_introl Hgap)) as [es1 ->].
  destruct Hgap as (Hst & Htok & Hq). rewrite Htok, Hq. cbn [append orb].
  destruct (run_segments w rest es1 (segment_value s) (seg_quoted s) (out l) Hw) as [es2 ->].
  eexists. split; [reflexivity|].
  assert (Hp : segment_value s +++ word_value w <> "" \/
               (seg_quoted s || existsb seg_quoted w) = true).
  { destruct (segment_pending s Hs) as [H|H].
    - left. apply append_not_nil. exact H.
    - right. rewrite H. reflexivity. }
  split.
  - split; [reflexivity|exact Hp].
  - unfold tokens. cbn [token quoted out mk]. rewrite Htok, Hq. cbn [String.eqb negb orb].
    destruct Hp as [H|H].
    + apply String.eqb_neq in H. rewrite H. reflexivity.
    + rewrite H, orb_true_r. reflexivity.
Qed.

Lemma step_ws_gap (c : ascii) (l : lexer) :
  is_ws c = true -> gap l -> step l c = l.
Proof.
  intros Hc (Hst & Htok & Hq). destruct l as [st es tok q o]. cbn in *. subst.
  unfold step. cbn [state]. rewrite Hc. reflexivity.
Qed.

Lemma step_ws_done (c : ascii) (l : lexer) :
  is_ws c = true -> done l ->
  gap (step l c) /\ tokens (step l c) = tokens l.
Proof.
  intros Hc (Hst & Hp). destruct l as [st es tok q o]. cbn in *. subst.
  unfold step. cbn [state]. rewrite Hc. unfold emit_or_continue, tokens.
  cbn [token quoted out].
  assert (H : negb (tok =? "") || q = true).
  { destruct Hp as [H|H]; [apply String.eqb_neq in H; rewrite H; reflexivity|].
    rewrite H. apply orb_true_r. }
  rewrite H. cbn. repeat split.
Qed.

Lemma run_ws (s rest : string) (l : lexer) :
  whitespace s = true -> settled l ->
  exists l',
    run l (s +++ rest) = run l' rest /\ settled l' /\ tokens l' = tokens l /\
    (gap l \/ s <> "" -> gap l').
Proof.
  revert l. induction s as [|c s IH]; intros l Hs Hl.
  - exists l. cbn [append]. split; [reflexivity|]. split; [exact Hl|]. split; [reflexivity|].
    intros [H|H]; [exact H|congruence].
  - unfold whitespace in Hs. cbn [sforall] in Hs. apply andb_true_iff in Hs.
    destruct Hs as [Hc Hs]. cbn [append]. rewrite run_cons.
    assert (Hg : gap (step l c) /\ tokens (step l c) = tokens l).
    { destruct Hl as [Hl|Hl].
      - rewrite (step_ws_gap c l Hc Hl). split; [exact Hl|reflexivity].
      - apply step_ws_done; assumption. }
    destruct Hg as [Hg Ht].
    destruct (IH (step l c) Hs (or_introl Hg)) as (l' & Hrun & Hset & Htok & Hgap).
    exists l'. split; [exact Hrun|]. split; [exact Hset|]. split; [congruence|].
    intros _. apply Hgap. left. exact Hg.
Qed.

Lemma tokens_gap (l : lexer) : gap l -> tokens l = out l.
Proof. intros (_ & Htok & Hq). unfold tokens. rewrite Htok, Hq. reflexivity. Qed.

Lemma run_entries (es : list (string * word)) (rest : string) (first : bool) (l : lexer) :
  entries_ok first es = true ->
  (if first then gap l else settled l) ->
  exists l',
    run l (render_entries es +++ rest) = run l' rest /\ settled l' /\
    tokens l' = tokens l ++ map word_value (map snd es) /\
    (es = [] -> l' = l).
Proof.
  revert first l. induction es as [|[sep w] es IH]; intros first l Hok Hl.
  - exists l. cbn. rewrite app_nil_r. split; [reflexivity|]. split; [|split; reflexivity].
    destruct first; [left; exact Hl|exact Hl].
  - cbn [entries_ok] in Hok. repeat (apply andb_true_iff in Hok; destruct Hok as [Hok ?]).
    unfold render_entries. cbn [map sconcat fst snd]. fold (render_entries es).
    rewrite !append_assoc.
    assert (Hset : settled l) by (destruct first; [left; exact Hl|exact Hl]).
    destruct (run_ws sep (render_word w +++ render_entries es +++ rest) l Hok Hset)
      as (l1 & -> & Hs1 & Ht1 & Hg1).
    assert (Hgap1 : gap l1).
    { apply Hg1. destruct first; [left; exact Hl|].
      right. cbn in H1. apply negb_true_iff, String.eqb_neq in H1. exact H1. }
    destruct (run_word w (render_entries es +++ rest) l1 H0 Hgap1) as (l2 & -> & Hd2 & Ht2).
    destruct (IH false l2 H (or_intror Hd2)) as (l3 & -> & Hs3 & Ht3 & _).
    exists l3. split; [reflexivity|]. split; [exact Hs3|]. split; [|discriminate].
    rewrite Ht3, Ht2, Ht1, <- app_assoc. reflexivity.
Qed.

Lemma finish_settled (l : lexer) : settled l -> finish l = Ok (tokens l).
Proof.
  intros [(Hst & Htok & Hq)|(Hst & Hp)]; unfold finish, tokens; rewrite Hst.
  - rewrite Htok, Hq. reflexivity.
  - destruct (negb (token l =? "") || quoted l); reflexivity.
Qed.

(** Shell-style word splitting: one token per word, quotes and escapes
    stripped. *)
Lemma split_render_line (l : line) :
  line_ok l = true ->
  Shlex.split (render_line l) = Ok (map word_value (words l)).
Proof.
  intros Hok. unfold line_ok in Hok. apply andb_true_iff in Hok. destruct Hok as [He Ht].
  unfold Shlex.split, render_line.
  assert (Hinit : gap init) by (repeat split).
  destruct (run_entries (entries l) (trailing l) true init He Hinit)
    as (l1 & -> & Hs1 & Ht1 & _).
  rewrite <- (append_nil_r (trailing l)).
  destruct (run_ws (trailing l) "" l1 Ht Hs1) as (l2 & -> & Hs2 & Ht2 & _).
  cbn [run]. rewrite (finish_settled l2 Hs2), Ht2, Ht1. reflexivity.
Qed.

End ShlexProofs.

(** ** The command compiler in command-line mode *)

Section ReprLemmas.

Lemma code_ch (n : nat) : n < 256 -> code (ch n) = n.
Proof. intros H. unfold code, ch. apply nat_ascii_embedding. exact H. Qed.

Lemma eqb_ch_false (c : ascii) (n : nat) :
  n < 256 -> code c <> n -> Ascii.eqb c (ch n) = false.
Proof.
  intros Hn Hc. apply Ascii.eqb_neq. intros ->. apply Hc. apply code_ch. exact Hn.
Qed.

Lemma repr_char_verbatim (c : ascii) :
  verbatim_char c = true -> repr_char "'" c = String c "".
Proof.
  unfold verbatim_char, between. intros H.
  apply andb_true_iff in H. destruct H as [H Hb].
  apply andb_true_iff in H. destruct H as [H Hq].
  apply andb_true_iff in H. destruct H as [Hlo Hhi].
  apply Nat.leb_le in Hlo, Hhi. apply negb_true_iff in Hq, Hb.
  unfold repr_char. rewrite Hq, Hb. cbn [orb].
  rewrite !eqb_ch_false by lia.
  replace (code c <? 32)%nat with false by (symmetry; apply Nat.ltb_ge; lia).
  replace (code c =? 127)%nat with false by (symmetry; apply Nat.eqb_neq; lia).
  replace (127 <? code c)%nat with false by (symmetry; apply Nat.ltb_ge; lia).
  reflexivity.
Qed.

Lemma sconcat_map_verbatim (s : string) :
  sforall verbatim_char s = true -> sconcat_map (repr_char "'") s = s.
Proof.
  induction s as [|c s IH]; [reflexivity|]. cbn [sforall sconcat_map]. intros H.
  apply andb_true_iff in H. destruct H as [Hc Hs].
  rewrite (repr_char_verbatim c Hc), (IH Hs). reflexivity.
Qed.

Lemma contains_verbatim (s : string) :
  sforall verbatim_char s = true -> contains "'" s = false.
Proof.
  unfold contains. induction s as [|c s IH]; [reflexivity|]. cbn [sforall sexists]. intros H.
  apply andb_true_iff in H. destruct H as [Hc Hs]. rewrite (IH Hs), orb_false_r.
  unfold verbatim_char in Hc. apply andb_true_iff in Hc. destruct Hc as [Hc _].
  apply andb_true_iff in Hc. destruct Hc as [_ Hq]. apply negb_true_iff in Hq.
  rewrite Ascii.eqb_sym. exact Hq.
Qed.

Lemma repr_str_verbatim (s : string) :
  sforall verbatim_char s = true -> repr_str s = "'" +++ s +++ "'".
Proof.
  intros H. unfold repr_str. rewrite (contains_verbatim s H). cbn [andb].
  rewrite (sconcat_map_verbatim s H). reflexivity.
Qed.

End ReprLemmas.

Section CommandMode.
Context {P : Platform}.
Import Template ShellWords.

Lemma render_undeclared_not_empty (pre post : list piece) (k : string) :
  render (pre ++ Ph k :: post) <> "".
Proof.
  rewrite render_app. cbn [render render_piece].
  destruct (render pre); cbn; discriminate.
Qed.

Lemma build_command_mode (h : Host) (tool : ToolSpec.t) (vals : ValueBag) :
  ToolSpec.runner_mode tool = "command" ->
  isfile h (python_path h) = true ->
  _build_command h tool vals =
  if ToolSpec.runner tool =? "" then Some (Raise (ValueError "Command template is empty."))
  else match Fmt.format (ToolSpec.runner tool) (placeholders h tool vals) with
       | None => None
       | Some (Raise (KeyError k)) =>
           Some (Raise (ValueError ("Missing placeholder in template: " +++ repr_str k)))
       | Some (Raise e) => Some (Raise e)
       | Some (Ok templ) => Some (toks <- Shlex.split templ ;; Ok (map VStr toks))
       end.
Proof. intros Hm Hf. unfold _build_command. rewrite Hf, Hm. reflexivity. Qed.

Lemma on_run_build_error (h : Host) (f : form) (t : ToolSpec.t) (vals : ValueBag) (e : exn) :
  tool f = Some t -> collect_values f = Some vals ->
  first_missing (ToolSpec.inputs t) vals = None ->
  _build_command h t vals = Some (Raise e) ->
  _on_run h f = Some (f, [Critical "Build Error" e]) /\
  spawned f [Critical "Build Error" e] = [].
Proof.
  intros Ht Hc Hm Hb. unfold _on_run. rewrite Ht, Hc, Hm, Hb. split; reflexivity.
Qed.

(** C5 (amended).  In command-line mode, with the interpreter in place:
    a non-empty template of literal text and declared plain placeholders
    compiles to the tokens of its substituted text whenever that text can be
    split into shell words; an empty template fails with
    "Command template is empty."; a template whose first undeclared
    placeholder is [k] fails with "Missing placeholder in template: "
    followed by [repr(k)], which is [k] between single quotes for a name of
    ordinary characters; and whenever the compilation raises, [_on_run]
    shows the error and schedules no launch. *)
Theorem command_template_compilation (h : Host) (t : ToolSpec.t) (vals : ValueBag) :
  ToolSpec.runner_mode t = "command" ->
  isfile h (python_path h) = true ->
  (forall ps toks,
      ToolSpec.runner t = render ps -> ToolSpec.runner t <> "" ->
      forallb piece_ok ps = true ->
      forallb (declared (placeholders h t vals)) ps = true ->
      Shlex.split (substitute (placeholders h t vals) ps) = Ok toks ->
      _build_command h t vals = Some (Ok (map VStr toks)))
  /\
  (ToolSpec.runner t = "" ->
   _build_command h t vals = Some (Raise (ValueError "Command template is empty.")))
  /\
  (forall pre k post,
      ToolSpec.runner t = render (pre ++ Ph k :: post) ->
      forallb piece_ok pre = true ->
      forallb (declared (placeholders h t vals)) pre = true ->
      plain_name k = true ->
      get k (placeholders h t vals) = None ->
      _build_command h t vals
      = Some (Raise (ValueError ("Missing placeholder in template: " +++ repr_str k)))
      /\ (sforall verbatim_char k = true -> repr_str k = "'" +++ k +++ "'"))
  /\
  (forall f e,
      tool f = Some t -> collect_values f = Some vals ->
      first_missing (ToolSpec.inputs t) vals = None ->
      _build_command h t vals = Some (Raise e) ->
      _on_run h f = Some (f, [Critical "Build Error" e]) /\
      spawned f [Critical "Build Error" e] = []).
Proof.
  intros Hm Hf. pose proof (build_command_mode h t vals Hm Hf) as Hb.
  split; [|split; [|split]].
  - intros ps toks Hr Hne Hok Hd Hs. rewrite Hb.
    apply String.eqb_neq in Hne. rewrite Hne, Hr, (format_render _ _ Hok Hd), Hs. reflexivity.
  - intros Hr. rewrite Hb, Hr. reflexivity.
  - intros pre k post Hr Hok Hd Hk Hg. split; [|apply repr_str_verbatim].
    rewrite Hb, Hr.
    pose proof (render_undeclared_not_empty pre post k) as Hne.
    apply String.eqb_neq in Hne. rewrite Hne, (format_undeclared _ _ _ _ Hok Hd Hk Hg).
    reflexivity.
  - intros f e. apply on_run_build_error.
Qed.

(** C4.  In command-line mode the substituted text, which is the
    template with each placeholder replaced by [str] of its value and
    nothing added, is split into shell words: when it reads as a line of
    words the argument vector has one token per word, each the text of the
    word with quotes and escapes stripped, so a quoted run stays in one
    token and unquoted whitespace separates tokens. *)
Theorem command_mode_tokenization
    (h : Host) (t : ToolSpec.t) (vals : ValueBag) (ps : list piece) (l : line) :
  ToolSpec.runner_mode t = "command" ->
  isfile h (python_path h) = true ->
  ToolSpec.runner t <> "" ->
  ToolSpec.runner t = render ps ->
  forallb piece_ok ps = true ->
  forallb (declared (placeholders h t vals)) ps = true ->
  substitute (placeholders h t vals) ps = render_line l ->
  line_ok l = true ->
  exists cmd,
    _build_command h t vals = Some (Ok cmd) /\
    cmd = map VStr (map word_value (words l)) /\
    List.length cmd = List.length (words l).
Proof.
  intros Hm Hf Hne Hr Hok Hd Hsub Hl.
  eexists. split; [|split; [reflexivity|]].
  - rewrite (build_command_mode h t vals Hm Hf).
    apply String.eqb_neq in Hne.
    rewrite Hne, Hr, (format_render _ _ Hok Hd), Hsub, (split_render_line l Hl). reflexivity.
  - rewrite !length_map. reflexivity.
Qed.

End CommandMode.

(** ** The configuration loader *)

Section ConfigProofs.
Context {P : Platform}.
Import Config.

Lemma getd_app_skip (k k' : string) (v dflt : pyval) (d1 d2 : dict pyval) :
  k' <> k -> getd k dflt (d1 ++ (k', v) :: d2) = getd k dflt (d1 ++ d2).
Proof. intros H. unfold getd. rewrite get_app_skip by exact H. reflexivity. Qed.

Lemma load_tool_ignores_unknown (k : string) (v : pyval) (t1 t2 : dict pyval) :
  ~ In k tool_keys ->
  load_tool (t1 ++ (k, v) :: t2) = load_tool (t1 ++ t2).
Proof.
  intros Hk. unfold load_tool.
  rewrite !getd_app_skip; [reflexivity| | | | | | |];
    intros ->; apply Hk; simpl; tauto.
Qed.

Lemma load_input_drops_placeholder (v : pyval) (d1 d2 : dict pyval) :
  load_input (VDict (d1 ++ ("placeholder", v) :: d2)) = load_input (VDict (d1 ++ d2)).
Proof.
  unfold load_input. rewrite !remove_app. reflexivity.
Qed.

Lemma forallb_false_of_member {A : Type} (p : A -> bool) (l : list A) (x : A) :
  In x l -> p x = false -> forallb p l = false.
Proof.
  intros Hin Hp. induction l as [|a l IH]; simpl; [contradiction|].
  destruct Hin as [->|Hin]; [rewrite Hp; reflexivity|].
  rewrite (IH Hin). apply andb_false_r.
Qed.

Lemma load_input_rejects_unknown (k : string) (v : pyval) (d : dict pyval) :
  In (k, v) d -> is_field k = false -> k <> "placeholder" ->
  load_input (VDict d) = Some (Raise TypeError).
Proof.
  intros Hin Hf Hne. unfold load_input, make_InputSpec.
  assert (Hk : In k (keys (remove "placeholder" d))).
  { unfold keys, remove. apply in_map_iff. exists (k, v). split; [reflexivity|].
    apply filter_In. split; [exact Hin|]. simpl.
    destruct (k =? "placeholder") eqn:E; [apply String.eqb_eq in E; contradiction|reflexivity]. }
  rewrite (forallb_false_of_member _ _ _ Hk Hf). reflexivity.
Qed.

Lemma getd_app_hit (k : string) (v dflt : pyval) (d1 d2 : dict pyval) :
  getd k dflt (d1 ++ (k, v) :: d2) = match get k d1 with Some x => x | None => v end.
Proof.
  unfold getd. induction d1 as [|[a b] d1 IH]; simpl.
  - rewrite String.eqb_refl. reflexivity.
  - destruct (a =? k); [reflexivity|exact IH].
Qed.

(** Only what the parameter records load to matters in a tool record. *)
Lemma load_tool_inputs_ext (ta tb : dict pyval) (l l' : list pyval) :
  load_inputs l = load_inputs l' ->
  load_tool (ta ++ ("inputs", VList l) :: tb) = load_tool (ta ++ ("inputs", VList l') :: tb).
Proof.
  intros H. unfold load_tool.
  rewrite !(getd_app_skip "name" "inputs") by discriminate.
  rewrite !(getd_app_skip "runner_mode" "inputs") by discriminate.
  rewrite !(getd_app_skip "runner" "inputs") by discriminate.
  rewrite !(getd_app_skip "script" "inputs") by discriminate.
  rewrite !(getd_app_skip "output_dir_optional" "inputs") by discriminate.
  rewrite !(getd_app_skip "notes" "inputs") by discriminate.
  rewrite !getd_app_hit. destruct (get "inputs" ta) as [x|]; [reflexivity|].
  rewrite H. reflexivity.
Qed.

Lemma load_inputs_ext (ins1 ins2 : list pyval) (i i' : pyval) :
  load_input i = load_input i' ->
  load_inputs (ins1 ++ i :: ins2) = load_inputs (ins1 ++ i' :: ins2).
Proof.
  intros H. induction ins1 as [|x ins1 IH]; cbn [app load_inputs].
  - rewrite H. reflexivity.
  - rewrite IH. reflexivity.
Qed.

Lemma load_tools_ext (before after : list (dict pyval)) (t t' : dict pyval) :
  load_tool t = load_tool t' ->
  load_tools (before ++ t :: after) = load_tools (before ++ t' :: after).
Proof.
  intros H. induction before as [|x before IH]; cbn [app load_tools].
  - rewrite H. reflexivity.
  - rewrite IH. reflexivity.
Qed.

(** A parameter record that is rejected fails the list it stands in. *)
Lemma load_inputs_rejected (ins1 ins2 : list pyval) (i : pyval) (e : exn) :
  load_input i = Some (Raise e) ->
  (forall xs, load_inputs (ins1 ++ i :: ins2) <> Some (Ok xs)) /\
  (forall xs, load_inputs ins1 = Some (Ok xs) ->
     load_inputs (ins1 ++ i :: ins2) = Some (Raise e)).
Proof.
  intros H. induction ins1 as [|x ins1 [IH1 IH2]]; cbn [app load_inputs].
  - rewrite H. split; [discriminate|reflexivity].
  - destruct (load_input x) as [[y|e']|]; split; try discriminate.
    + destruct (load_inputs (ins1 ++ i :: ins2)) as [[ys|e']|] eqn:E; try discriminate.
      exfalso. apply (IH1 ys). reflexivity.
    + destruct (load_inputs ins1) as [[ys|e']|]; try discriminate.
      intros xs _. rewrite (IH2 ys eq_refl). reflexivity.
Qed.

(** A tool record that does not load fails the file it stands in. *)
Lemma load_tools_rejected (before after : list (dict pyval)) (t : dict pyval) (e : exn) :
  (forall x, load_tool t <> Some (Ok x)) ->
  (forall ts, load_tools (before ++ t :: after) <> Some (Ok ts)) /\
  (load_tool t = Some (Raise e) ->
   forall ts, load_tools before = Some (Ok ts) ->
     load_tools (before ++ t :: after) = Some (Raise e)).
Proof.
  intros H. induction before as [|x before [IH1 IH2]]; cbn [app load_tools].
  - split.
    + intros ts. destruct (load_tool t) as [[y|e']|]; try discriminate.
      exfalso. apply (H y). reflexivity.
    + intros -> ts _. reflexivity.
  - destruct (load_tool x) as [[y|e']|]; split; try discriminate.
    + destruct (load_tools (before ++ t :: after)) as [[ys|e']|] eqn:E; try discriminate.
      exfalso. apply (IH1 ys). reflexivity.
    + intros Ht. destruct (load_tools before) as [[ys|e']|]; try discriminate.
      intros ts _. rewrite (IH2 Ht ys eq_refl). reflexivity.
Qed.

(** C9 (amended).  Wherever the record stands in the file: an unknown
    field of a tool record is ignored, and the legacy field ["placeholder"]
    of a parameter record is dropped, so the file loads as it does without
    them.  Any other unknown field of a parameter record, in any tool and
    at any place among its parameters, makes the load fail: it never
    returns tools, and it fails with a [TypeError] when the tool records
    before it load and the parameter records before it in its tool load. *)
Theorem load_config_unknown_fields :
  (forall (k : string) (v : pyval) (t1 t2 : dict pyval) (before after : list (dict pyval)),
      ~ In k tool_keys ->
      load_config (Some (before ++ (t1 ++ (k, v) :: t2) :: after))
      = load_config (Some (before ++ (t1 ++ t2) :: after)))
  /\
  (forall (v : pyval) (i1 i2 : dict pyval) (ins1 ins2 : list pyval)
          (ta tb : dict pyval) (before after : list (dict pyval)),
      load_config
        (Some (before
               ++ (ta ++ ("inputs", VList (ins1 ++ VDict (i1 ++ ("placeholder", v) :: i2) :: ins2))
                      :: tb) :: after))
      = load_config
          (Some (before
                 ++ (ta ++ ("inputs", VList (ins1 ++ VDict (i1 ++ i2) :: ins2)) :: tb)
                 :: after)))
  /\
  (forall (k : string) (v : pyval) (i : dict pyval) (ins1 ins2 : list pyval)
          (t : dict pyval) (before after : list (dict pyval)),
      In (k, v) i -> is_field k = false -> k <> "placeholder" ->
      get "inputs" t = Some (VList (ins1 ++ VDict i :: ins2)) ->
      (forall tools, load_config (Some (before ++ t :: after)) <> Some (Ok tools)) /\
      (forall ts xs,
         load_config (Some before) = Some (Ok ts) -> load_inputs ins1 = Some (Ok xs) ->
         load_config (Some (before ++ t :: after)) = Some (Raise TypeError))).
Proof.
  split; [|split].
  - intros k v t1 t2 before after Hk. cbn [load_config].
    apply load_tools_ext, load_tool_ignores_unknown, Hk.
  - intros v i1 i2 ins1 ins2 ta tb before after. cbn [load_config].
    apply load_tools_ext, load_tool_inputs_ext, load_inputs_ext, load_input_drops_placeholder.
  - intros k v i ins1 ins2 t before after Hin Hf Hne Hget. cbn [load_config].
    pose proof (load_input_rejects_unknown k v i Hin Hf Hne) as Hrej.
    destruct (load_inputs_rejected ins1 ins2 (VDict i) TypeError Hrej) as [Hi1 Hi2].
    assert (Hnever : forall x, load_tool t <> Some (Ok x)).
    { intros x. unfold load_tool, getd. rewrite Hget.
      destruct (load_inputs (ins1 ++ VDict i :: ins2)) as [[ys|e]|] eqn:E; try discriminate.
      exfalso. apply (Hi1 ys). reflexivity. }
    destruct (load_tools_rejected before after t TypeError Hnever) as [Ht1 Ht2].
    split; [exact Ht1|].
    intros ts xs Hbefore Hins. apply (fun H => Ht2 H ts Hbefore).
    unfold load_tool, getd. rewrite Hget, (Hi2 xs Hins). reflexivity.
Qed.

End ConfigProofs.

(** ** The supervisors *)

Section SupervisorProofs.
Import ProcRunner Traces.

Lemma pump_shape (reads : list read) (rc : Z) :
  exists pre code,
    pump reads rc = pre ++ [finished code] /\
    filter is_finished pre = [] /\
    match read_failure reads with
    | None => code = rc /\ filter is_error pre = []
    | Some e => code = (-1)%Z /\ exists pre', pre = pre' ++ [error e]
    end.
Proof.
  induction reads as [|r rest IH]; simpl.
  - exists [], rc. repeat split.
  - destruct r as [text stop_seen|e].
    + destruct stop_seen.
      * exists [lineReady (rstrip_nl text)], rc. repeat split.
      * destruct IH as (pre & code & Heq & Hfin & Hcase).
        exists (lineReady (rstrip_nl text) :: pre), code. rewrite Heq. simpl.
        split; [reflexivity|]. split; [exact Hfin|].
        destruct (read_failure rest).
        -- destruct Hcase as (Hc & pre' & ->). split; [exact Hc|].
           exists (lineReady (rstrip_nl text) :: pre'). reflexivity.
        -- exact Hcase.
    + exists [error e], (-1)%Z. repeat split. exists []. reflexivity.
Qed.

Lemma count_finished_app (a b : list signal) :
  count_finished (a ++ b) = count_finished a + count_finished b.
Proof. unfold count_finished. rewrite filter_app, length_app. reflexivity. Qed.

(** C2 (amended).  [ProcRunner.run] emits exactly one [finished] signal,
    and emits it last.  When the launch fails the signals are [started],
    [error] with the exception, and [finished(-1)]; when the child started
    and no read raised, [finished] carries the code returned by [wait] and
    no [error] is emitted; when a read raised after the child started,
    [error] is followed by [finished(-1)].  [QProcRunner] emits one
    [finished] for each [finished] signal of its process, with the same
    code, and none otherwise. *)
Theorem run_emits_one_finished (c : child) :
  count_finished (run c) = 1 /\
  (exists pre code, run c = pre ++ [finished code]) /\
  match c with
  | SpawnError e => run c = [started; error e; finished (-1)]
  | Spawned reads rc =>
      match read_failure reads with
      | None => exists pre, run c = pre ++ [finished rc] /\ filter is_error pre = []
      | Some e => exists pre, run c = pre ++ [error e; finished (-1)]
      end
  end
  /\
  (forall qs : list QProcRunner.qsignal,
      filter q_is_finished (QProcRunner.emitted qs)
      = map QProcRunner.finished (exit_codes qs)).
Proof.
  assert (HQ : forall qs : list QProcRunner.qsignal,
      filter q_is_finished (QProcRunner.emitted qs)
      = map QProcRunner.finished (exit_codes qs)).
  { induction qs as [|q qs IH]; [reflexivity|].
    unfold QProcRunner.emitted, exit_codes in *. simpl.
    rewrite filter_app, map_app, IH. f_equal.
    destruct q as [text|code crashed|err]; simpl; try reflexivity.
    unfold QProcRunner._on_ready. induction (splitlines text); simpl; auto. }
  destruct c as [e|reads rc]; unfold run.
  - repeat split; [exists [started; error e], (-1)%Z; reflexivity|exact HQ].
  - destruct (pump_shape reads rc) as (pre & code & Heq & Hfin & Hcase).
    rewrite Heq. split; [|split; [|split; [|exact HQ]]].
    + change (started :: pre ++ [finished code]) with ((started :: pre) ++ [finished code]).
      rewrite count_finished_app. unfold count_finished. simpl. rewrite Hfin. reflexivity.
    + exists (started :: pre), code. reflexivity.
    + destruct (read_failure reads).
      * destruct Hcase as (-> & pre' & ->). exists (started :: pre').
        simpl. rewrite <- app_assoc. reflexivity.
      * destruct Hcase as (-> & Herr). exists (started :: pre). split; [reflexivity|exact Herr].
Qed.

(** C3 (amended).  [ProcRunner.stop] with a child, when no call before the
    kill raises: on Windows it sends the break signal, sleeps 0.4 s and
    kills; elsewhere it terminates, sleeps 0.5 s, polls, and kills if the
    child is still running.  It sets the stop flag and returns normally in
    every situation.  [QProcRunner.kill] kills at once when the process
    state is not [NotRunning], and does nothing otherwise. *)
Theorem stop_protocol (h : Host) (s : situation) :
  has_proc s = true ->
  (forall c, c <> kill -> raises s c = None) ->
  (let '(flag, made, ret) := stop h s in
   flag = true /\ ret = Ok tt /\
   made = if os_name h =? "nt"
          then [send_signal_CTRL_BREAK_EVENT; sleep 400; kill]
          else [terminate; sleep 500; poll] ++ (if running_at_poll s then [kill] else []))
  /\ (forall h' s', fst (fst (stop h' s')) = true /\ snd (stop h' s') = Ok tt)
  /\ (forall st, QProcRunner.kill st
                 = match st with
                   | QProcRunner.NotRunning => []
                   | _ => [QProcRunner.p_kill]
                   end).
Proof.
  intros Hproc Hraise. split; [|split].
  - unfold stop, stop_body. rewrite Hproc. simpl.
    assert (Hk : forall r, attempt (raises s) [kill] = r -> fst r = [kill]).
    { intros r <-. simpl. destruct (raises s kill); reflexivity. }
    destruct (os_name h =? "nt").
    + simpl. rewrite !Hraise by discriminate.
      destruct (raises s kill); simpl; repeat split.
    + simpl. rewrite !Hraise by discriminate. simpl.
      destruct (running_at_poll s); simpl.
      * destruct (raises s kill); simpl; repeat split.
      * repeat split.
  - intros h' s'. unfold stop. destruct (stop_body h' s') as [made [u|e]]; split; reflexivity.
  - intros st. reflexivity.
Qed.

End SupervisorProofs.

(** ** The parameter codec *)

Section CodecProofs.
Context {P : Platform}.

Lemma apply_spec_frame (vals : dict pyval) (f : form) (spec : InputSpec.t) :
  let f' := apply_spec vals f spec in
  tool f' = tool f /\ output_dir f' = output_dir f /\ status f' = status f /\
  _pending_cmd f' = _pending_cmd f.
Proof.
  unfold apply_spec.
  destruct (get (InputSpec.name spec) vals); [|repeat split].
  destruct (get (InputSpec.name spec) (fields f)); [|repeat split].
  destruct (apply_one _ _ _); repeat split.
Qed.

Lemma apply_spec_fields (vals : dict pyval) (f : form) (spec : InputSpec.t) (k : string) :
  get k (fields (apply_spec vals f spec)) =
  if InputSpec.name spec =? k
  then match outcome vals (fields f) spec with
       | Some (Ok w') => Some w'
       | _ => get k (fields f)
       end
  else get k (fields f).
Proof.
  unfold apply_spec, outcome.
  destruct (InputSpec.name spec =? k) eqn:E.
  - apply String.eqb_eq in E. subst k.
    destruct (get (InputSpec.name spec) vals); [|reflexivity].
    destruct (get (InputSpec.name spec) (fields f)) eqn:Hw; [|exact Hw].
    destruct (apply_one _ _ _); simpl; [apply get_set_same|exact Hw].
  - apply String.eqb_neq in E.
    destruct (get (InputSpec.name spec) vals); [|reflexivity].
    destruct (get (InputSpec.name spec) (fields f)); [|reflexivity].
    destruct (apply_one _ _ _); simpl; [|reflexivity].
    apply get_set_other. congruence.
Qed.

Lemma apply_spec_log (vals : dict pyval) (f : form) (spec : InputSpec.t) :
  log (apply_spec vals f spec) = log f ++ failure vals (fields f) spec.
Proof.
  unfold apply_spec, failure, outcome.
  destruct (get (InputSpec.name spec) vals); [|symmetry; apply app_nil_r].
  destruct (get (InputSpec.name spec) (fields f)); [|symmetry; apply app_nil_r].
  destruct (apply_one _ _ _); simpl; [symmetry; apply app_nil_r|reflexivity].
Qed.

Lemma outcome_ext (vals : dict pyval) (fs fs' : dict widget) (spec : InputSpec.t) :
  get (InputSpec.name spec) fs' = get (InputSpec.name spec) fs ->
  outcome vals fs' spec = outcome vals fs spec.
Proof. intros H. unfold outcome. rewrite H. reflexivity. Qed.

Lemma fold_apply_fields_other (vals : dict pyval) (specs : list InputSpec.t) (f : form)
    (k : string) :
  ~ In k (names specs) ->
  get k (fields (fold_left (apply_spec vals) specs f)) = get k (fields f).
Proof.
  revert f. induction specs as [|a specs IH]; intros f Hk; simpl; [reflexivity|].
  rewrite IH by (intros H; apply Hk; right; exact H).
  rewrite apply_spec_fields.
  destruct (InputSpec.name a =? k) eqn:E; [|reflexivity].
  apply String.eqb_eq in E. exfalso. apply Hk. left. exact E.
Qed.

Lemma fold_apply_fields (vals : dict pyval) (specs : list InputSpec.t) (f : form)
    (spec : InputSpec.t) :
  NoDup (names specs) -> In spec specs ->
  get (InputSpec.name spec) (fields (fold_left (apply_spec vals) specs f)) =
  match outcome vals (fields f) spec with
  | Some (Ok w') => Some w'
  | _ => get (InputSpec.name spec) (fields f)
  end.
Proof.
  revert f. induction specs as [|a specs IH]; intros f Hnd Hin; [contradiction|].
  simpl in Hnd. inversion Hnd as [|x l Hnotin Hnd']; subst. simpl.
  destruct Hin as [->|Hin].
  - rewrite fold_apply_fields_other by exact Hnotin.
    rewrite apply_spec_fields, String.eqb_refl. reflexivity.
  - assert (Hne : InputSpec.name a <> InputSpec.name spec).
    { intros Heq. apply Hnotin. rewrite Heq. apply in_map. exact Hin. }
    assert (Hget : get (InputSpec.name spec) (fields (apply_spec vals f a))
                   = get (InputSpec.name spec) (fields f)).
    { rewrite apply_spec_fields. apply String.eqb_neq in Hne. rewrite Hne. reflexivity. }
    rewrite (IH _ Hnd' Hin), (outcome_ext _ _ _ _ Hget), Hget. reflexivity.
Qed.

Lemma fold_apply_log (vals : dict pyval) (specs : list InputSpec.t) (f : form) :
  NoDup (names specs) ->
  log (fold_left (apply_spec vals) specs f)
  = log f ++ flat_map (failure vals (fields f)) specs.
Proof.
  revert f. induction specs as [|a specs IH]; intros f Hnd; simpl.
  - symmetry. apply app_nil_r.
  - simpl in Hnd. inversion Hnd as [|x l Hnotin Hnd']; subst.
    rewrite (IH _ Hnd'), apply_spec_log, <- app_assoc. f_equal. f_equal.
    apply flat_map_agree. intros b Hb. unfold failure.
    rewrite (outcome_ext vals (fields (apply_spec vals f a)) (fields f)); [reflexivity|].
    rewrite apply_spec_fields.
    destruct (InputSpec.name a =? InputSpec.name b) eqn:E; [|reflexivity].
    apply String.eqb_eq in E. exfalso. apply Hnotin. rewrite E. apply in_map. exact Hb.
Qed.

Lemma fold_apply_frame (vals : dict pyval) (specs : list InputSpec.t) (f : form) :
  let f' := fold_left (apply_spec vals) specs f in
  tool f' = tool f /\ output_dir f' = output_dir f /\ status f' = status f /\
  _pending_cmd f' = _pending_cmd f.
Proof.
  revert f. induction specs as [|a specs IH]; intros f; simpl; [repeat split|].
  destruct (IH (apply_spec vals f a)) as (H1 & H2 & H3 & H4).
  destruct (apply_spec_frame vals f a) as (G1 & G2 & G3 & G4).
  simpl in *. repeat split; congruence.
Qed.

(** C10.  [_apply_params] on a dictionary of values returns normally, and
    for a tool with distinct parameter names it treats each parameter on its
    own: its widget ends up as its own value made it, or unchanged when the
    value is missing or raised; each exception is one line of the log, in
    the order of the parameters; widgets of other names are untouched. *)
Theorem apply_params_best_effort
    (vals : dict pyval) (f : form) (t : ToolSpec.t) :
  tool f = Some t ->
  NoDup (names (ToolSpec.inputs t)) ->
  let f' := fst (_apply_params vals f) in
  apply_any (VDict vals) f = Ok (_apply_params vals f) /\
  (forall spec, In spec (ToolSpec.inputs t) ->
     get (InputSpec.name spec) (fields f') =
     match outcome vals (fields f) spec with
     | Some (Ok w') => Some w'
     | _ => get (InputSpec.name spec) (fields f)
     end) /\
  log f' = log f ++ flat_map (failure vals (fields f)) (ToolSpec.inputs t) /\
  (forall k, ~ In k (names (ToolSpec.inputs t)) -> get k (fields f') = get k (fields f)).
Proof.
  intros Ht Hnd. split; [reflexivity|].
  unfold _apply_params. rewrite Ht. simpl. split; [|split].
  - intros spec Hin. apply fold_apply_fields; assumption.
  - apply fold_apply_log; assumption.
  - intros k Hk. apply fold_apply_fields_other; assumption.
Qed.

(** C8 (amended).  When the declared tool name of an imported record,
    trimmed, is not empty and differs from the trimmed name of the current
    tool, the question is asked first: on any answer but Yes the form is
    left as it was, on Yes the values are applied.  When the trimmed
    declared name is empty or equal to the trimmed current name, the values
    are applied without a question. *)
Theorem import_confirms_tool_mismatch
    (file : string) (data vals : pyval) (meta_tool : string) (f : form) (t : ToolSpec.t) :
  tool f = Some t ->
  file <> "" ->
  meta_tool_of data = Ok meta_tool ->
  values_of data = Ok vals ->
  let cur_tool := strip (ToolSpec.name t) in
  let q := Question "Apply anyway?" (mismatch_text meta_tool cur_tool) in
  (meta_tool <> "" /\ meta_tool <> cur_tool ->
     _import_params file (Ok data) false f = (f, [q]) /\
     _import_params file (Ok data) true f
     = (fst (applied vals file f), q :: snd (applied vals file f)))
  /\
  (meta_tool = "" \/ meta_tool = cur_tool ->
     forall yes, _import_params file (Ok data) yes f = applied vals file f).
Proof.
  intros Ht Hfile Hmeta Hvals cur_tool q.
  apply String.eqb_neq in Hfile.
  unfold _import_params, import_body, applied. rewrite Ht, Hfile, Hvals, Hmeta.
  fold cur_tool. split.
  - intros [H1 H2]. apply String.eqb_neq in H1, H2. rewrite H1, H2. simpl.
    split; [reflexivity|].
    destruct (apply_any vals f) as [[f' effs]|e]; reflexivity.
  - intros H yes.
    assert (Hask : negb (meta_tool =? "") && negb (meta_tool =? cur_tool) = false).
    { destruct H as [->| ->]; [reflexivity|]. rewrite String.eqb_refl. apply andb_false_r. }
    rewrite Hask. simpl.
    destruct (apply_any vals f) as [[f' effs]|e]; reflexivity.
Qed.

End CodecProofs.

Section WidgetLemmas.
Context {P : Platform}.

Lemma text_of_strip (s : string) : text_of (VStr (strip s)) = strip s.
Proof.
  unfold text_of, por. cbn [truthy]. destruct (strip s =? "") eqn:E; cbn; [|reflexivity].
  apply String.eqb_eq in E. congruence.
Qed.

Lemma findText_nth (items : list string) (i : nat) :
  i < List.length items ->
  exists j, findText (nth i items "") items = Some j /\
            j < List.length items /\ nth j items "" = nth i items "".
Proof.
  revert i. induction items as [|x items IH]; intros i Hi; [cbn in Hi; lia|].
  cbn [findText]. destruct (x =? nth i (x :: items) "") eqn:E.
  - exists 0. apply String.eqb_eq in E. cbn. repeat split; [lia|exact E].
  - destruct i as [|i]; [cbn in E; rewrite String.eqb_refl in E; discriminate|].
    cbn in Hi. cbn [nth] in *. destruct (IH i) as (j & -> & Hj & Hn); [lia|].
    exists (S j). cbn. repeat split; [lia|exact Hn].
Qed.

Lemma findText_nil (s : string) : findText s [] = None.
Proof. reflexivity. Qed.

Lemma in_checkedItems (t : string) (rows : list (string * bool)) :
  In t (checkedItems rows) <-> In (t, true) rows.
Proof.
  unfold checkedItems. rewrite in_map_iff. split.
  - intros ([a b] & <- & H). apply filter_In in H. cbn in H. destruct H as [H ->]. exact H.
  - intros H. exists (t, true). split; [reflexivity|]. apply filter_In. auto.
Qed.

Lemma NoDup_fst_functional {A B : Type} (l : list (A * B)) (a : A) (b b' : B) :
  NoDup (map fst l) -> In (a, b) l -> In (a, b') l -> b = b'.
Proof.
  induction l as [|[x y] l IH]; intros Hnd H1 H2; [contradiction|].
  cbn in Hnd. inversion Hnd as [|? ? Hnotin Hnd']; subst.
  destruct H1 as [H1|H1], H2 as [H2|H2].
  - congruence.
  - inversion H1; subst. exfalso. apply Hnotin. apply in_map_iff. exists (a, b'). auto.
  - inversion H2; subst. exfalso. apply Hnotin. apply in_map_iff. exists (a, b). auto.
  - eauto.
Qed.

Lemma existsb_checked (rows : list (string * bool)) (t : string) (b : bool) :
  NoDup (map fst rows) -> In (t, b) rows ->
  existsb (String.eqb t) (checkedItems rows) = b.
Proof.
  intros Hnd Hin. destruct (existsb (String.eqb t) (checkedItems rows)) eqn:E.
  - apply existsb_exists in E. destruct E as (x & Hx & Heq).
    apply String.eqb_eq in Heq. subst x. apply in_checkedItems in Hx.
    exact (NoDup_fst_functional rows t true b Hnd Hx Hin).
  - destruct b; [|reflexivity].
    assert (H : existsb (String.eqb t) (checkedItems rows) = true).
    { apply existsb_exists. exists t. split; [|apply String.eqb_refl].
      apply in_checkedItems. exact Hin. }
    congruence.
Qed.

Lemma map_rebuild {A B : Type} (F : A -> B) (rows rows' : list (A * B)) :
  map fst rows' = map fst rows ->
  (forall a b, In (a, b) rows -> F a = b) ->
  map (fun r => (fst r, F (fst r))) rows' = rows.
Proof.
  revert rows'. induction rows as [|[a b] rows IH]; intros rows' Hmap HF.
  - destruct rows'; [reflexivity|discriminate].
  - destruct rows' as [|[a' b'] rows']; [discriminate|].
    cbn in Hmap. injection Hmap as -> Hmap. cbn.
    rewrite (HF a b (or_introl eq_refl)), (IH rows' Hmap); [reflexivity|].
    intros x y Hxy. apply HF. right. exact Hxy.
Qed.

Lemma setCheckedItems_restores (rows rows' : list (string * bool)) :
  NoDup (map fst rows) -> map fst rows' = map fst rows ->
  setCheckedItems (checkedItems rows) rows' = rows.
Proof.
  intros Hnd Hmap. unfold setCheckedItems.
  apply (map_rebuild (fun t => existsb (String.eqb t) (checkedItems rows))); [exact Hmap|].
  intros a b Hin. apply existsb_checked; assumption.
Qed.

Lemma setCheckedItems_texts (want : list string) (rows : list (string * bool)) :
  map fst (setCheckedItems want rows) = map fst rows.
Proof. unfold setCheckedItems. rewrite map_map. reflexivity. Qed.

Lemma checkedItems_subset (rows : list (string * bool)) (Q : string -> Prop) :
  Forall Q (map fst rows) -> Forall Q (checkedItems rows).
Proof.
  rewrite !Forall_forall. intros H t Ht. apply in_checkedItems in Ht.
  apply H. apply in_map_iff. exists (t, true). auto.
Qed.

Lemma map_str_VStr (l : list string) : map str (map VStr l) = l.
Proof. rewrite map_map. cbn. apply map_id. Qed.

Lemma join_lines_strs (l : list string) :
  join_lines (map VStr l) = Ok (join nl l).
Proof.
  induction l as [|x l IH]; [reflexivity|].
  cbn [map join_lines]. destruct l as [|y l]; [reflexivity|].
  cbn [map] in *. rewrite IH. reflexivity.
Qed.

Lemma list_value_join (l : list string) :
  Forall clean l -> Forall (fun x => no_break x = true) l ->
  list_value (join nl l) = join "," l.
Proof.
  intros Hc Hb. unfold list_value, nl.
  change (String (ch 10) "") with (String newline "").
  rewrite splitlines_join.
  - rewrite map_id_on, filter_all; [reflexivity| |].
    + eapply Forall_impl; [|exact Hc]. intros a (_ & Ha & _).
      apply negb_true_iff, String.eqb_neq. exact Ha.
    + eapply Forall_impl; [|exact Hc]. intros a (Ha & _). exact Ha.
  - rewrite Forall_forall in *. intros x Hx. split; [apply (Hc x Hx)|apply (Hb x Hx)].
Qed.

Lemma list_value_no_break (text : string) : no_break (list_value text) = true.
Proof.
  unfold list_value, no_break. apply join_sforall; [reflexivity|].
  apply Forall_forall. intros x Hx. apply filter_In in Hx. destruct Hx as [Hx _].
  apply in_map_iff in Hx. destruct Hx as (l & <- & Hl).
  apply strip_sforall. pose proof (splitlines_no_break text) as H.
  rewrite Forall_forall in H. apply H, Hl.
Qed.

Lemma csv_items_no_break (s : string) :
  no_break s = true -> Forall (fun x => no_break x = true) (csv_items s).
Proof.
  intros H. unfold csv_items. apply Forall_forall. intros x Hx.
  apply filter_In in Hx. destruct Hx as [Hx _].
  apply in_map_iff in Hx. destruct Hx as (p & <- & Hp).
  apply strip_sforall. pose proof (split_sforall _ "," s H) as Hall.
  rewrite Forall_forall in Hall. apply Hall, Hp.
Qed.

End WidgetLemmas.

Section RoundTrip.
Context {P : Platform}.

Ltac known_type ty :=
  destruct (String.eqb_spec ty "string") as [->|?];
  [|destruct (String.eqb_spec ty "int") as [->|?];
  [|destruct (String.eqb_spec ty "float") as [->|?];
  [|destruct (String.eqb_spec ty "date") as [->|?];
  [|destruct (String.eqb_spec ty "toggle") as [->|?];
  [|destruct (String.eqb_spec ty "file") as [->|?];
  [|destruct (String.eqb_spec ty "folder") as [->|?];
  [|destruct (String.eqb_spec ty "enum") as [->|?];
  [|destruct (String.eqb_spec ty "multienum") as [->|?];
  [|destruct (String.eqb_spec ty "password") as [->|?];
  [|destruct (String.eqb_spec ty "list") as [->|?]]]]]]]]]]].

Lemma widget_round_trip (ty : string) (chs : list string) (wf wg : widget) (v : pyval) :
  built_for ty chs wf -> built_for ty chs wg ->
  read_widget ty wf = Some v ->
  exists w',
    apply_one (or_string ty) v wg = Ok w' /\ built_for ty chs w' /\
    exists v', read_widget ty w' = Some v' /\
               ((ty = "multienum" -> NoDup chs /\ Forall clean chs) ->
                same_value ty v' v).
Proof.
  intros Hf Hg Hr. known_type ty.
  - (* string *)
    destruct wf; try contradiction; destruct wg; try contradiction.
    cbn in Hr. injection Hr as <-.
    eexists. split; [reflexivity|]. split; [exact I|].
    eexists. split; [reflexivity|]. intros _. cbn. rewrite text_of_strip, strip_idem. reflexivity.
  - (* int *)
    destruct wf; try contradiction; destruct wg; try contradiction.
    cbn in Hr. injection Hr as <-. unfold built_for in Hf. cbn in Hf.
    eexists. split; [cbn; rewrite Hf; reflexivity|]. split; [exact Hf|].
    eexists. split; [reflexivity|]. intros _. reflexivity.
  - (* float *)
    destruct wf; try contradiction; destruct wg; try contradiction.
    cbn in Hr. injection Hr as <-. unfold built_for in Hf. cbn in Hf.
    eexists. split; [reflexivity|]. cbn. rewrite Hf. split; [exact Hf|].
    eexists. split; [reflexivity|]. intros _. reflexivity.
  - (* date *)
    destruct wf; try contradiction; destruct wg; try contradiction.
    cbn in Hr. injection Hr as <-. unfold built_for in Hf. cbn in Hf. destruct Hf as [Hf1 Hf2].
    eexists. split; [cbn; rewrite Hf1; reflexivity|]. rewrite Hf2.
    split; [split; assumption|].
    eexists. split; [reflexivity|]. intros _. reflexivity.
  - (* toggle *)
    destruct wf; try contradiction; destruct wg; try contradiction.
    cbn in Hr. injection Hr as <-.
    eexists. split; [reflexivity|]. split; [exact I|].
    eexists. split; [reflexivity|]. intros _. destruct checked; reflexivity.
  - (* file *)
    destruct wf; try contradiction; destruct wg; try contradiction.
    cbn in Hr. injection Hr as <-.
    eexists. split; [reflexivity|]. split; [exact I|].
    eexists. split; [reflexivity|]. intros _. cbn. rewrite text_of_strip, strip_idem. reflexivity.
  - (* folder *)
    destruct wf; try contradiction; destruct wg; try contradiction.
    cbn in Hr. injection Hr as <-.
    eexists. split; [reflexivity|]. split; [exact I|].
    eexists. split; [reflexivity|]. intros _. cbn. rewrite text_of_strip, strip_idem. reflexivity.
  - (* enum *)
    destruct wf as [| | | | | |items cur| |]; try contradiction;
      destruct wg as [| | | | | |items' cur'| |]; try contradiction.
    cbn in Hr. injection Hr as <-. unfold built_for in Hf, Hg. cbn in Hf, Hg.
    destruct Hf as [-> Hcur], Hg as [-> Hcur'].
    destruct cur as [i|].
    + destruct (findText_nth chs i Hcur) as (j & Hfind & Hj & Hn).
      eexists. split; [cbn; rewrite Hfind; reflexivity|].
      split; [split; [reflexivity|exact Hj]|].
      eexists. split; [reflexivity|]. intros _. cbn. rewrite Hn. reflexivity.
    + subst chs. destruct cur' as [i'|]; [cbn in Hcur'; lia|].
      eexists. split; [reflexivity|]. split; [split; reflexivity|].
      eexists. split; [reflexivity|]. intros _. reflexivity.
  - (* multienum *)
    destruct wf as [| | | | | | |rows cur|]; try contradiction;
      destruct wg as [| | | | | | |rows' cur'|]; try contradiction.
    cbn in Hr. injection Hr as <-. unfold built_for in Hf, Hg. cbn in Hf, Hg.
    eexists. split; [reflexivity|].
    split; [unfold built_for; cbn; rewrite setCheckedItems_texts; exact Hg|].
    eexists. split; [reflexivity|]. intros Hclean. destruct (Hclean eq_refl) as [Hnd Hcl].
    unfold same_value. cbn [String.eqb Ascii.eqb Bool.eqb]. cbn [items_of].
    rewrite map_str_VStr, csv_items_join.
    + rewrite setCheckedItems_restores; [reflexivity|rewrite Hf; exact Hnd|congruence].
    + apply checkedItems_subset. rewrite Hf. exact Hcl.
  - (* password *)
    destruct wf; try contradiction; destruct wg; try contradiction.
    cbn in Hr. injection Hr as <-.
    eexists. split; [reflexivity|]. split; [exact I|].
    eexists. split; [reflexivity|]. intros _. cbn. rewrite text_of_strip, strip_idem. reflexivity.
  - (* list *)
    destruct wf; try contradiction; destruct wg; try contradiction.
    cbn in Hr. injection Hr as <-.
    eexists. split; [cbn; rewrite join_lines_strs; reflexivity|]. split; [exact I|].
    eexists. split; [reflexivity|]. intros _. unfold same_value. cbn [String.eqb Ascii.eqb Bool.eqb].
    rewrite list_value_join.
    + apply csv_items_join, csv_items_clean.
    + apply csv_items_clean.
    + apply csv_items_no_break, list_value_no_break.
  - (* any other type *)
    assert (Hclass : widget_class ty = CLineEdit).
    { unfold widget_class.
      repeat match goal with
             | H : ?a <> ?b |- context [?a =? ?b] =>
                 rewrite (proj2 (String.eqb_neq a b) H)
             end. reflexivity. }
    unfold built_for in *. rewrite Hclass in *.
    destruct wf; try contradiction; destruct wg; try contradiction.
    assert (Hread : forall s, read_widget ty (QLineEdit s) = Some (VStr (strip s))).
    { intros s. unfold read_widget.
      repeat match goal with
             | H : ?a <> ?b |- context [?a =? ?b] =>
                 rewrite (proj2 (String.eqb_neq a b) H)
             end. reflexivity. }
    rewrite Hread in Hr. injection Hr as <-.
    assert (Happly : forall x s, apply_one (or_string ty) x (QLineEdit s)
                                 = Ok (QLineEdit (text_of x))).
    { intros x s. destruct ty as [|c r]; [reflexivity|]. cbn [or_string].
      unfold apply_one, is_text_type, int_branch, float_branch, enum_branch,
        multienum_branch, date_branch, toggle_branch, list_branch.
      repeat match goal with
             | H : ?a <> ?b |- context [?a =? ?b] =>
                 rewrite (proj2 (String.eqb_neq a b) H)
             end. reflexivity. }
    eexists. split; [apply Happly|]. split; [exact I|].
    eexists. split; [apply Hread|]. intros _.
    assert (Hl : (ty =? "list") = false) by (apply String.eqb_neq; assumption).
    unfold same_value. rewrite Hl, text_of_strip, strip_idem. reflexivity.
Qed.


Lemma built_for_read (ty : string) (chs : list string) (w : widget) :
  built_for ty chs w -> exists v, read_widget ty w = Some v.
Proof.
  intros H. known_type ty;
    try (destruct w; try contradiction; eexists; reflexivity).
  assert (Hclass : widget_class ty = CLineEdit).
  { unfold widget_class.
    repeat match goal with
           | H : ?a <> ?b |- context [?a =? ?b] =>
               rewrite (proj2 (String.eqb_neq a b) H)
           end. reflexivity. }
  unfold built_for in H. rewrite Hclass in H. destruct w; try contradiction.
  unfold read_widget.
  repeat match goal with
         | H : ?a <> ?b |- context [?a =? ?b] =>
             rewrite (proj2 (String.eqb_neq a b) H)
         end. eexists. reflexivity.
Qed.

Lemma collect_fields_get (fs : dict widget) (specs : list InputSpec.t) (acc : ValueBag) :
  NoDup (names specs) ->
  (forall spec, In spec specs -> reading fs spec <> None) ->
  exists bag,
    collect_fields fs specs acc = Some bag /\
    (forall spec, In spec specs -> get (InputSpec.name spec) bag = reading fs spec) /\
    (forall k, ~ In k (names specs) -> get k bag = get k acc).
Proof.
  revert acc. induction specs as [|a specs IH]; intros acc Hnd Hread.
  - exists acc. split; [reflexivity|]. split; [intros ? []|intros; reflexivity].
  - cbn in Hnd. inversion Hnd as [|? ? Hnotin Hnd']; subst.
    pose proof (Hread a (or_introl eq_refl)) as Ha. unfold reading in Ha.
    cbn [collect_fields].
    destruct (get (InputSpec.name a) fs) as [w|] eqn:Hw; [|congruence].
    destruct (read_widget (InputSpec.type a) w) as [v|] eqn:Hv; [|congruence].
    destruct (IH (set (InputSpec.name a) v acc) Hnd') as (bag & Hbag & Hin & Hout).
    { intros spec Hs. apply Hread. right. exact Hs. }
    exists bag. split; [exact Hbag|]. split.
    + intros spec [<-|Hs].
      * rewrite (Hout _ Hnotin), get_set_same. unfold reading. rewrite Hw, Hv. reflexivity.
      * apply Hin, Hs.
    + intros k Hk. rewrite Hout by (intros H; apply Hk; right; exact H).
      apply get_set_other. intros ->. apply Hk. left. reflexivity.
Qed.

Lemma get_strip_internal (k : string) (d : ValueBag) :
  get k (strip_internal d) = if startswith "_" k then None else get k d.
Proof.
  unfold strip_internal. induction d as [|[a v] d IH]; cbn [filter get fst].
  - destruct (startswith "_" k); reflexivity.
  - destruct (startswith "_" a) eqn:Ea; cbn [negb get].
    + rewrite IH. destruct (startswith "_" k) eqn:Ek; [reflexivity|].
      destruct (a =? k) eqn:E; [|reflexivity].
      apply String.eqb_eq in E. congruence.
    + destruct (a =? k) eqn:E.
      * apply String.eqb_eq in E. subst. rewrite Ea. reflexivity.
      * exact IH.
Qed.

Lemma collect_values_for (t : ToolSpec.t) (f : form) :
  NoDup (names (ToolSpec.inputs t)) -> form_for t f ->
  exists bag,
    collect_values f = Some bag /\
    get "_output_dir" bag = Some (output_dir_value f) /\
    (forall spec, In spec (ToolSpec.inputs t) ->
       InputSpec.name spec <> "_output_dir" ->
       get (InputSpec.name spec) bag = reading (fields f) spec).
Proof.
  intros Hnd [Ht Hw]. unfold collect_values. rewrite Ht.
  destruct (collect_fields_get (fields f) (ToolSpec.inputs t) [] Hnd) as (bag & -> & Hin & _).
  { intros spec Hs. destruct (Hw spec Hs) as (w & Hget & Hb). unfold reading. rewrite Hget.
    destruct (built_for_read _ _ _ Hb) as [v ->]. discriminate. }
  eexists. split; [reflexivity|]. split; [apply get_set_same|].
  intros spec Hs Hne. rewrite get_set_other by exact Hne. apply Hin, Hs.
Qed.

Lemma internal_name (k : string) : startswith "_" k = false -> k <> "_output_dir".
Proof. intros H ->. discriminate. Qed.

(** C7 (amended).  For a tool with distinct parameter names and two forms
    showing it, the record exported from the first holds the collected
    values without the keys that start with an underscore, the reserved
    ["_output_dir"] among them.  Imported into the second form and collected
    again, every parameter whose name does not start with an underscore, and
    whose choices, if it is multi-choice, are distinct, trimmed, not empty
    and without commas, has the value it had, compared by kind; nothing is
    logged; the output directory is the one of the importing form. *)
Theorem export_import_round_trip
    (t : ToolSpec.t) (f g : form) (now : string) (r : ParameterRecord) :
  NoDup (names (ToolSpec.inputs t)) ->
  form_for t f -> form_for t g ->
  _params_dict now f = Some r ->
  exists bag bag',
    collect_values f = Some bag /\
    values r = strip_internal bag /\
    (forall k, startswith "_" k = true -> get k (values r) = None) /\
    collect_values (fst (_apply_params (values r) g)) = Some bag' /\
    (forall spec, In spec (ToolSpec.inputs t) -> round_trips spec ->
       exists v v',
         get (InputSpec.name spec) bag = Some v /\
         get (InputSpec.name spec) bag' = Some v' /\
         same_value (InputSpec.type spec) v' v) /\
    get "_output_dir" bag' = Some (output_dir_value g) /\
    log (fst (_apply_params (values r) g)) = log g.
Proof.
  intros Hnd Hf Hg Hr.
  destruct (collect_values_for t f Hnd Hf) as (bag & Hbag & Hod & Hget).
  unfold _params_dict in Hr. rewrite Hbag in Hr. injection Hr as <-. cbn [values].
  set (vals := strip_internal bag).
  destruct Hf as [Htf Hwf]. pose proof Hg as [Htg Hwg].
  (* what the exported record holds for each parameter *)
  assert (Hval : forall spec, In spec (ToolSpec.inputs t) ->
            get (InputSpec.name spec) vals
            = if startswith "_" (InputSpec.name spec) then None
              else reading (fields f) spec).
  { intros spec Hs. unfold vals. rewrite get_strip_internal.
    destruct (startswith "_" (InputSpec.name spec)) eqn:E; [reflexivity|].
    apply Hget; [exact Hs|apply internal_name, E]. }
  (* the widget of each parameter after the import *)
  assert (Hout : forall spec, In spec (ToolSpec.inputs t) ->
            exists wg, get (InputSpec.name spec) (fields g) = Some wg /\
              built_for (InputSpec.type spec) (choices_or_nil spec) wg /\
              ((startswith "_" (InputSpec.name spec) = true /\ outcome vals (fields g) spec = None)
               \/
               (startswith "_" (InputSpec.name spec) = false /\
                exists wf v w' v',
                  get (InputSpec.name spec) bag = Some v /\
                  outcome vals (fields g) spec = Some (Ok w') /\
                  built_for (InputSpec.type spec) (choices_or_nil spec) w' /\
                  read_widget (InputSpec.type spec) w' = Some v' /\
                  get (InputSpec.name spec) (fields f) = Some wf /\
                  (round_trips spec -> same_value (InputSpec.type spec) v' v)))).
  { intros spec Hs. destruct (Hwg spec Hs) as (wg & Hgw & Hbg).
    exists wg. split; [exact Hgw|]. split; [exact Hbg|].
    pose proof (Hval spec Hs) as Hv. unfold outcome.
    destruct (startswith "_" (InputSpec.name spec)) eqn:E.
    - left. rewrite Hv. auto.
    - right. split; [reflexivity|].
      destruct (Hwf spec Hs) as (wf & Hfw & Hbf).
      destruct (built_for_read _ _ _ Hbf) as [v Hrv].
      unfold reading in Hv. rewrite Hfw, Hrv in Hv.
      destruct (widget_round_trip _ _ wf wg v Hbf Hbg Hrv) as (w' & Hap & Hb' & v' & Hrv' & Hsame).
      exists wf, v, w', v'. rewrite Hv, Hgw.
      split; [|split; [|split; [exact Hb'|split; [exact Hrv'|split; [exact Hfw|]]]]].
      + rewrite (Hget spec Hs (internal_name _ E)). unfold reading. rewrite Hfw. exact Hrv.
      + exact (f_equal Some Hap).
      + intros [_ Hrt]. apply Hsame, Hrt. }
  set (g' := fst (_apply_params vals g)).
  assert (Hg'eq : g' = fold_left (apply_spec vals) (ToolSpec.inputs t) g).
  { unfold g', _apply_params. rewrite Htg. reflexivity. }
  destruct (fold_apply_frame vals (ToolSpec.inputs t) g) as (Fr1 & Fr2 & _ & _).
  cbn zeta in Fr1, Fr2. rewrite <- Hg'eq in Fr1, Fr2.
  assert (Hfield : forall spec, In spec (ToolSpec.inputs t) ->
            exists w, get (InputSpec.name spec) (fields g') = Some w /\
              built_for (InputSpec.type spec) (choices_or_nil spec) w /\
              (startswith "_" (InputSpec.name spec) = false ->
               exists v v', get (InputSpec.name spec) bag = Some v /\
                            read_widget (InputSpec.type spec) w = Some v' /\
                            (round_trips spec -> same_value (InputSpec.type spec) v' v))).
  { intros spec Hs. rewrite Hg'eq, (fold_apply_fields vals _ g spec Hnd Hs).
    destruct (Hout spec Hs) as (wg & Hgw & Hbg & [[E Ho]|[E Ho]]).
    - rewrite Ho, Hgw. exists wg. split; [reflexivity|]. split; [exact Hbg|]. congruence.
    - destruct Ho as (wf & v & w' & v' & Hbv & Ho & Hb' & Hrv' & _ & Hsame).
      rewrite Ho. exists w'. split; [reflexivity|]. split; [exact Hb'|].
      intros _. exists v, v'. auto. }
  assert (Hform' : form_for t g').
  { split; [congruence|]. intros spec Hs.
    destruct (Hfield spec Hs) as (w & Hw & Hb & _). exists w. auto. }
  destruct (collect_values_for t g' Hnd Hform') as (bag' & Hbag' & Hod' & Hget').
  exists bag, bag'. split; [exact Hbag|]. split; [reflexivity|]. split.
  { intros k Hk. unfold vals. rewrite get_strip_internal, Hk. reflexivity. }
  split; [exact Hbag'|]. split.
  { intros spec Hs Hrt. pose proof Hrt as [E _].
    destruct (Hfield spec Hs) as (w & Hw & _ & Hrest).
    destruct (Hrest E) as (v & v' & Hbv & Hrv' & Hsame).
    exists v, v'. split; [exact Hbv|]. split; [|apply Hsame, Hrt].
    rewrite (Hget' spec Hs (internal_name _ E)). unfold reading. rewrite Hw. exact Hrv'. }
  split.
  { rewrite Hod'. unfold output_dir_value. rewrite Fr2. reflexivity. }
  rewrite Hg'eq, (fold_apply_log vals _ g Hnd).
  rewrite <- (app_nil_r (log g)) at 2. f_equal.
  apply flat_map_const_nil. intros spec Hs. unfold failure.
  destruct (Hout spec Hs) as (wg & _ & _ & [[_ Ho]|[_ Ho]]).
  - rewrite Ho. reflexivity.
  - destruct Ho as (wf & v & w' & v' & _ & Ho & _). rewrite Ho. reflexivity.
Qed.

End RoundTrip.

(** ** The page selector *)

Section PageSpecProofs.
Context {P : Platform}.
Import CombinePdfs.
Local Open Scope Z_scope.

Lemma range_In (a b p : Z) : In p (range a b) <-> a <= p < b.
Proof.
  unfold range. rewrite in_map_iff. split.
  - intros (k & <- & Hk). apply in_seq in Hk. lia.
  - intros H. exists (Z.to_nat (p - a)). split; [lia|]. apply in_seq. lia.
Qed.

Lemma range_from_sorted (a : Z) (m s : nat) :
  StronglySorted Z.lt (map (fun k => a + Z.of_nat k) (seq s m)).
Proof.
  revert s. induction m as [|m IH]; intros s; simpl; constructor.
  - apply IH.
  - apply Forall_forall. intros y Hy. apply in_map_iff in Hy.
    destruct Hy as (k & <- & Hk). apply in_seq in Hk. lia.
Qed.

Lemma range_sorted (a b : Z) : StronglySorted Z.lt (range a b).
Proof. apply range_from_sorted. Qed.

Lemma set_add_In (x p : Z) (out : list Z) : In p (set_add x out) <-> p = x \/ In p out.
Proof.
  induction out as [|y rest IH]; simpl.
  - intuition.
  - destruct (x <? y) eqn:Hlt; [simpl; intuition|].
    destruct (x =? y) eqn:Heq.
    + apply Z.eqb_eq in Heq. subst. simpl. intuition.
    + simpl. rewrite IH. intuition.
Qed.

Lemma set_add_sorted (x : Z) (out : list Z) :
  StronglySorted Z.lt out -> StronglySorted Z.lt (set_add x out).
Proof.
  induction out as [|y rest IH]; intros Hs; simpl.
  - constructor; constructor.
  - inversion Hs as [|? ? Hrest Hall]; subst.
    destruct (x <? y) eqn:Hlt.
    + apply Z.ltb_lt in Hlt. constructor; [assumption|].
      constructor; [assumption|].
      apply Forall_forall. intros z Hz.
      rewrite Forall_forall in Hall. specialize (Hall z Hz). lia.
    + destruct (x =? y) eqn:Heq; [assumption|].
      apply Z.ltb_ge in Hlt. apply Z.eqb_neq in Heq.
      constructor; [apply IH; assumption|].
      apply Forall_forall. intros z Hz. apply set_add_In in Hz.
      destruct Hz as [->|Hz]; [lia|].
      rewrite Forall_forall in Hall. apply Hall. assumption.
Qed.

Lemma set_update_In (xs out : list Z) (p : Z) :
  In p (set_update out xs) <-> In p out \/ In p xs.
Proof.
  unfold set_update. revert out. induction xs as [|x xs IH]; intros out; simpl.
  - intuition.
  - rewrite IH, set_add_In. intuition.
Qed.

Lemma set_update_sorted (xs out : list Z) :
  StronglySorted Z.lt out -> StronglySorted Z.lt (set_update out xs).
Proof.
  unfold set_update. revert out. induction xs as [|x xs IH]; intros out Hs; simpl.
  - assumption.
  - apply IH, set_add_sorted, Hs.
Qed.

(** What one part adds does not depend on the set it is added to. *)
Lemma page_part_adds (n : Z) (out : list Z) (part : string) :
  match page_part n [] part with
  | Ok sel =>
      exists out', page_part n out part = Ok out' /\
                   forall p, In p out' <-> In p out \/ In p sel
  | Raise e => page_part n out part = Raise e
  end.
Proof.
  unfold page_part.
  destruct (strip part =? "")%string.
  { exists out. split; [reflexivity|]. simpl. intuition. }
  destruct (contains "-" (strip part)).
  - destruct (map strip (split1 "-" (strip part))) as [|a [|b [|c l]]]; try reflexivity.
    destruct (int_of_str a) as [za|e]; simpl; [|reflexivity].
    destruct (int_of_str b) as [zb|e]; simpl; [|reflexivity].
    eexists. split; [reflexivity|].
    intros p. rewrite !set_update_In. simpl. intuition.
  - destruct (int_of_str (strip part)) as [i|e]; simpl; [|reflexivity].
    destruct ((1 <=? i) && (i <=? n)); [|reflexivity].
    eexists. split; [reflexivity|].
    intros p. rewrite !set_add_In. simpl. intuition.
Qed.

Lemma page_part_sound (n : Z) (out out' : list Z) (part : string) :
  StronglySorted Z.lt out -> Forall (fun p => 0 <= p < n) out ->
  page_part n out part = Ok out' ->
  StronglySorted Z.lt out' /\ Forall (fun p => 0 <= p < n) out'.
Proof.
  intros Hs Hb. unfold page_part.
  destruct (strip part =? "")%string.
  { intros [= <-]. split; assumption. }
  destruct (contains "-" (strip part)).
  - destruct (map strip (split1 "-" (strip part))) as [|a [|b [|c l]]]; try discriminate.
    destruct (int_of_str a) as [za|e]; simpl; [|discriminate].
    destruct (int_of_str b) as [zb|e]; simpl; [|discriminate].
    intros [= <-]. split; [apply set_update_sorted, Hs|].
    apply Forall_forall. intros p Hp. apply set_update_In in Hp.
    destruct Hp as [Hp|Hp].
    + rewrite Forall_forall in Hb. apply Hb, Hp.
    + apply range_In in Hp. lia.
  - destruct (int_of_str (strip part)) as [i|e]; simpl; [|discriminate].
    destruct ((1 <=? i) && (i <=? n)) eqn:Hi; [|discriminate].
    intros [= <-]. split; [apply set_add_sorted, Hs|].
    apply Forall_forall. intros p Hp. apply set_add_In in Hp.
    destruct Hp as [->|Hp].
    + apply andb_prop in Hi. destruct Hi as [H1 H2].
      apply Z.leb_le in H1. apply Z.leb_le in H2. lia.
    + rewrite Forall_forall in Hb. apply Hb, Hp.
Qed.

Lemma page_parts_sound (n : Z) (parts : list string) (out out' : list Z) :
  StronglySorted Z.lt out -> Forall (fun p => 0 <= p < n) out ->
  page_parts n out parts = Ok out' ->
  StronglySorted Z.lt out' /\ Forall (fun p => 0 <= p < n) out'.
Proof.
  revert out. induction parts as [|part rest IH]; intros out Hs Hb; simpl.
  - intros [= <-]. split; assumption.
  - destruct (page_part n out part) as [o|e] eqn:Hpart; simpl; [|discriminate].
    destruct (page_part_sound n out o part Hs Hb Hpart) as [Hs' Hb'].
    apply IH; assumption.
Qed.

(** X1.  Whatever the selection text and the page count, the indices
    [parse_page_spec] returns are in strictly ascending order, so without
    repetition, and each of them is at least 0 and below the page count:
    indexing the pages of the document with them never goes out of range. *)
Theorem page_spec_sorted_in_range (spec : string) (n : Z) (pages : list Z) :
  parse_page_spec spec n = Ok pages ->
  StronglySorted Z.lt pages /\ Forall (fun p => 0 <= p < n) pages.
Proof.
  unfold parse_page_spec. destruct (selects_all spec).
  - intros [= <-]. split; [apply range_sorted|].
    apply Forall_forall. intros p Hp. apply range_In in Hp. lia.
  - apply page_parts_sound; constructor.
Qed.

Lemma page_parts_union (n : Z) (parts : list string) (out : list Z) :
  is_ok (page_parts n out parts)
  = forallb (fun part => is_ok (page_part n [] part)) parts /\
  forall out', page_parts n out parts = Ok out' ->
    forall p, In p out' <->
              In p out \/
              exists part sel, In part parts /\ page_part n [] part = Ok sel /\ In p sel.
Proof.
  revert out. induction parts as [|part rest IH]; intros out; simpl.
  - split; [reflexivity|]. intros out' [= <-] p. split; [auto|].
    intros [H|(part & sel & [] & _)]. assumption.
  - pose proof (page_part_adds n out part) as Hadd.
    destruct (page_part n [] part) as [sel|e] eqn:Hsel.
    + destruct Hadd as (o & Ho & Hin). rewrite Ho. simpl.
      destruct (IH o) as [IHok IHin]. split; [exact IHok|].
      intros out' Hout p. rewrite (IHin out' Hout p), Hin. split.
      * intros [[H|H]|(part' & sel' & Hp & Hs & Hi)].
        -- left. assumption.
        -- right. exists part, sel. auto.
        -- right. exists part', sel'. auto.
      * intros [H|(part' & sel' & [<-|Hp] & Hs & Hi)].
        -- left. left. assumption.
        -- rewrite Hsel in Hs. injection Hs as <-. left. right. assumption.
        -- right. exists part', sel'. auto.
    + rewrite Hadd. simpl. split; [reflexivity|]. discriminate.
Qed.

(** X2.  A selection text that is not one of the keywords is read part by
    part: the call succeeds exactly when every comma-separated part is
    accepted on its own, and the result then holds a page exactly when some
    part selects it; the order of the parts and their repetition change
    nothing. *)
Theorem page_spec_is_union_of_parts (spec : string) (n : Z) :
  selects_all spec = false ->
  is_ok (parse_page_spec spec n)
  = forallb (fun part => is_ok (page_part n [] part)) (split "," spec) /\
  forall pages, parse_page_spec spec n = Ok pages ->
    forall p, In p pages <->
              exists part sel,
                In part (split "," spec) /\ page_part n [] part = Ok sel /\ In p sel.
Proof.
  intros Hall. unfold parse_page_spec. rewrite Hall.
  destruct (page_parts_union n (split "," spec) []) as [Hok Hin].
  split; [exact Hok|].
  intros pages Hp p. rewrite (Hin pages Hp p). simpl. intuition.
Qed.

Lemma contains_not_empty (c : ascii) (s : string) : contains c s = true -> s <> "".
Proof. intros H ->. discriminate. Qed.

(** [split(c, 1)] cuts at the first [c]. *)
Lemma split1_first (c : ascii) (sa sb : string) :
  contains c sa = false ->
  split1 c (sa +++ String c sb) = [sa; sb] /\ contains c (sa +++ String c sb) = true.
Proof.
  unfold contains. induction sa as [|d sa IH]; cbn [append split1 sexists]; intros H.
  - rewrite Ascii.eqb_refl. split; reflexivity.
  - apply orb_false_iff in H. destruct H as [Hd Hs].
    rewrite (Ascii.eqb_sym d c), Hd. destruct (IH Hs) as [-> ->]. split; reflexivity.
Qed.

(** A part with a hyphen is read as the two texts around its first hyphen. *)
Lemma page_part_hyphen (n : Z) (out : list Z) (part sa sb : string) :
  strip part = sa +++ "-" +++ sb -> contains "-" sa = false ->
  page_part n out part
  = (a <- int_of_str (strip sa) ;;
     b <- int_of_str (strip sb) ;;
     Ok (set_update out (range (Z.max 1 (if a >? b then b else a) - 1)
                               (Z.min n (if a >? b then a else b))))).
Proof.
  intros Hpart Hsa. unfold page_part. rewrite Hpart.
  change (sa +++ "-" +++ sb)%string with (sa +++ String "-" sb)%string.
  destruct (split1_first "-" sa sb Hsa) as [Hsplit Hc].
  destruct (String.eqb_spec (sa +++ String "-" sb) "") as [E|_].
  { apply contains_not_empty in Hc. contradiction. }
  rewrite Hc, Hsplit. reflexivity.
Qed.

(** X3.  A part with a hyphen is cut at its first hyphen, and the trimmed
    texts on its two sides are read as integers.  When both read, the part
    is accepted and selects the pages from the smaller number to the
    larger, both included and counted from 1, cut down to the pages that
    exist; it selects nothing when no page lies between them, and the order
    of the two numbers does not matter.  When the first text does not read
    as an integer the part fails with the error of that reading, and
    otherwise with the error of the second: so the second number may be
    negative, and the first may not, since the text before its hyphen is
    empty. *)
Theorem page_range_is_clamped (n : Z) (part sa sb : string) :
  strip part = (sa +++ "-" +++ sb)%string -> contains "-" sa = false ->
  (forall a b, int_of_str (strip sa) = Ok a -> int_of_str (strip sb) = Ok b ->
     exists sel,
       page_part n [] part = Ok sel /\
       forall p, In p sel <-> Z.max 1 (Z.min a b) <= p + 1 <= Z.min n (Z.max a b)) /\
  (forall e, int_of_str (strip sa) = Raise e -> page_part n [] part = Raise e) /\
  (forall a e, int_of_str (strip sa) = Ok a -> int_of_str (strip sb) = Raise e ->
     page_part n [] part = Raise e).
Proof.
  intros Hpart Hsa. rewrite (page_part_hyphen n [] part sa sb Hpart Hsa).
  split; [|split].
  - intros a b Ha Hb. rewrite Ha. cbn [bind]. rewrite Hb. cbn [bind].
    eexists. split; [reflexivity|].
    intros p. rewrite set_update_In, range_In. simpl.
    destruct (a >? b) eqn:Hgt.
    + apply Z.gtb_lt in Hgt. lia.
    + assert (a <= b) by (rewrite Z.gtb_ltb in Hgt; apply Z.ltb_ge in Hgt; lia). lia.
  - intros e Ha. rewrite Ha. reflexivity.
  - intros a e Ha Hb. rewrite Ha. cbn [bind]. rewrite Hb. reflexivity.
Qed.

Lemma page_parts_app (n : Z) (pre post : list string) (out : list Z) :
  page_parts n out (pre ++ post)
  = (o <- page_parts n out pre ;; page_parts n o post).
Proof.
  revert out. induction pre as [|x pre IH]; intros out; simpl; [reflexivity|].
  destruct (page_part n out x); simpl; [apply IH|reflexivity].
Qed.

(** A part that fails after parts that are accepted fails the call. *)
Lemma page_parts_stop
    (spec : string) (n : Z) (pre post : list string) (part : string) (e : exn) :
  selects_all spec = false ->
  split "," spec = pre ++ part :: post ->
  forallb (fun x => is_ok (page_part n [] x)) pre = true ->
  (forall out, page_part n out part = Raise e) ->
  parse_page_spec spec n = Raise e.
Proof.
  intros Hall Hsplit Hpre Hpart.
  unfold parse_page_spec. rewrite Hall, Hsplit, page_parts_app.
  destruct (page_parts_union n pre []) as [Hok _].
  rewrite Hpre in Hok.
  destruct (page_parts n [] pre) as [o|e']; [|discriminate]. simpl.
  rewrite Hpart. reflexivity.
Qed.

(** X4.  Once the parts before it have been accepted, a part without a
    hyphen that reads as an integer below 1 or above [n] makes the whole
    call fail, with the [ValueError] that names the page and the range: a
    single page is not cut down to the pages that exist.  A page written
    with a minus sign is not such a part: it begins with a hyphen, so it is
    read as a range whose first number is the empty text, and the call
    fails with the error of reading the empty text as an integer. *)
Theorem page_out_of_range_is_rejected
    (spec : string) (n : Z) (pre post : list string) (part : string) :
  selects_all spec = false ->
  split "," spec = pre ++ part :: post ->
  forallb (fun x => is_ok (page_part n [] x)) pre = true ->
  (forall i, strip part <> "" -> contains "-" (strip part) = false ->
     int_of_str (strip part) = Ok i -> i < 1 \/ n < i ->
     parse_page_spec spec n
     = Raise (ValueError ("Page " +++ str_of_Z i +++ " out of range 1.." +++ str_of_Z n))) /\
  (forall sb e, strip part = ("-" +++ sb)%string -> int_of_str "" = Raise e ->
     parse_page_spec spec n = Raise e).
Proof.
  intros Hall Hsplit Hpre. split.
  - intros i Hne Hc Hi Hout.
    apply (page_parts_stop spec n pre post part _ Hall Hsplit Hpre).
    intros out. unfold page_part.
    destruct (strip part =? "")%string eqn:He.
    { apply String.eqb_eq in He. contradiction. }
    rewrite Hc, Hi. simpl.
    destruct ((1 <=? i) && (i <=? n)) eqn:Hin; [|reflexivity].
    apply andb_prop in Hin. destruct Hin as [H1 H2].
    apply Z.leb_le in H1. apply Z.leb_le in H2. lia.
  - intros sb e Hpart He.
    apply (page_parts_stop spec n pre post part e Hall Hsplit Hpre).
    intros out. rewrite (page_part_hyphen n out part "" sb Hpart eq_refl).
    change (strip "") with ""%string. rewrite He. reflexivity.
Qed.

End PageSpecProofs.

(** ** Saving and loading the configuration *)

Section SavingProofs.
Context {P : Platform}.
Import Config Saving MoreNotions.

Lemma as_str_list_strs (l : list string) : as_str_list (map VStr l) = Some l.
Proof.
  induction l as [|s l IH]; simpl; [reflexivity|]. rewrite IH. reflexivity.
Qed.

Lemma load_input_saved (i : InputSpec.t) : load_input (VDict (save_input i)) = Some (Ok i).
Proof.
  destruct i as [name ty label default choices required readonly].
  unfold load_input, save_input, make_InputSpec, getd. cbn.
  destruct label as [l|]; destruct choices as [c|]; cbn;
    rewrite ?as_str_list_strs; reflexivity.
Qed.

Lemma load_inputs_saved (inputs : list InputSpec.t) :
  load_inputs (map (fun i => VDict (save_input i)) inputs) = Some (Ok inputs).
Proof.
  induction inputs as [|i rest IH]; [reflexivity|].
  cbn [map load_inputs]. rewrite load_input_saved, IH. reflexivity.
Qed.

Lemma load_tool_saved (t : ToolSpec.t) : load_tool (save_tool t) = Some (Ok (cleared t)).
Proof.
  destruct t as [name mode runner script odo inputs notes].
  unfold load_tool, save_tool, getd, cleared. cbn.
  rewrite load_inputs_saved.
  destruct script as [s|]; destruct notes as [n|]; reflexivity.
Qed.

Lemma load_tools_saved (tools : list ToolSpec.t) :
  load_tools (save_config tools) = Some (Ok (map cleared tools)).
Proof.
  induction tools as [|t rest IH]; [reflexivity|].
  unfold save_config in *. cbn [map load_tools]. rewrite load_tool_saved, IH. reflexivity.
Qed.

(** X5.  A list of tools that is saved and loaded again comes back as it
    was, tool by tool and parameter by parameter, except that the flag
    [output_dir_optional] is off in every tool: [save_config] always writes
    it as [False].  Saving what was loaded writes the same file again. *)
Theorem save_then_load (tools : list ToolSpec.t) :
  load_config (Some (save_config tools)) = Some (Ok (map cleared tools)) /\
  save_config (map cleared tools) = save_config tools.
Proof.
  split; [apply load_tools_saved|].
  unfold save_config. rewrite map_map. apply map_ext. intros t. reflexivity.
Qed.

End SavingProofs.

(** ** The list of tools in the main window *)

Section MainWindowProofs.
Context {P : Platform}.
Import Config Saving MainWindow MoreNotions.

Lemma load_array_records (raw : list (dict pyval)) :
  load_array (map VDict raw) = load_tools raw.
Proof.
  induction raw as [|t rest IH]; [reflexivity|].
  cbn [map load_array load_tools]. rewrite IH. reflexivity.
Qed.

Lemma load_array_written (ts : list ToolSpec.t) :
  match written ts with
  | VList l => load_array l = Some (Ok (map cleared ts))
  | _ => False
  end.
Proof.
  unfold written. rewrite load_array_records. apply load_tools_saved.
Qed.

Lemma assign_length {A : Type} (i : nat) (x : A) (l : list A) :
  List.length (assign i x l) = List.length l.
Proof.
  revert i. induction l as [|y l IH]; intros [|i]; simpl; auto.
Qed.

Lemma nth_error_assign {A : Type} (i k : nat) (x : A) (l : list A) :
  i < List.length l ->
  nth_error (assign i x l) k = if Nat.eqb k i then Some x else nth_error l k.
Proof.
  revert i k. induction l as [|y l IH]; intros i k Hi; simpl in Hi; [lia|].
  destruct i as [|i]; destruct k as [|k]; simpl; try reflexivity.
  apply IH. lia.
Qed.

Lemma exchange_length {A : Type} (i j : nat) (l : list A) :
  List.length (exchange i j l) = List.length l.
Proof.
  unfold exchange. destruct (nth_error l j); [|reflexivity].
  destruct (nth_error l i); [|reflexivity].
  rewrite !assign_length. reflexivity.
Qed.

Lemma nth_error_exchange {A : Type} (i j k : nat) (l : list A) :
  i < List.length l -> j < List.length l ->
  nth_error (exchange i j l) k = nth_error l (source i j k).
Proof.
  intros Hi Hj. unfold exchange, source.
  destruct (nth_error l j) as [xj|] eqn:Ej; [|apply nth_error_None in Ej; lia].
  destruct (nth_error l i) as [xi|] eqn:Ei; [|apply nth_error_None in Ei; lia].
  rewrite nth_error_assign by (rewrite assign_length; assumption).
  destruct (Nat.eqb k j) eqn:Hkj; [symmetry; assumption|].
  rewrite nth_error_assign by assumption.
  destruct (Nat.eqb k i) eqn:Hki; [symmetry; assumption|]. reflexivity.
Qed.

Lemma source_inverse (i j k : nat) : source i j (source j i k) = k.
Proof.
  unfold source.
  destruct (Nat.eqb_spec k i); destruct (Nat.eqb_spec k j); subst;
    repeat match goal with
           | |- context [Nat.eqb ?a ?b] => destruct (Nat.eqb_spec a b)
           end; lia.
Qed.

Lemma exchange_back {A : Type} (i j : nat) (l : list A) :
  i < List.length l -> j < List.length l ->
  exchange j i (exchange i j l) = l.
Proof.
  intros Hi Hj. apply nth_error_ext. intros k.
  rewrite nth_error_exchange by (rewrite exchange_length; assumption).
  rewrite nth_error_exchange by assumption.
  rewrite source_inverse. reflexivity.
Qed.

Lemma assign_permutation {A : Type} (j : nat) (x y : A) (l : list A) :
  nth_error l j = Some x -> Permutation (y :: l) (x :: assign j y l).
Proof.
  revert j. induction l as [|z l IH]; intros [|j]; simpl; try discriminate.
  - intros [= ->]. apply perm_swap.
  - intros H. apply (perm_trans (perm_swap z y l)).
    apply (perm_trans (perm_skip z (IH j H))). apply perm_swap.
Qed.

Lemma assign_same {A : Type} (i : nat) (x : A) (l : list A) :
  nth_error l i = Some x -> assign i x l = l.
Proof.
  revert i. induction l as [|y l IH]; intros [|i]; simpl; try discriminate.
  - intros [= ->]. reflexivity.
  - intros H. rewrite (IH i H). reflexivity.
Qed.

Lemma exchange_permutation {A : Type} (i j : nat) (l : list A) :
  Permutation l (exchange i j l).
Proof.
  revert i j. induction l as [|y l IH]; intros i j.
  - unfold exchange. destruct j; destruct i; reflexivity.
  - unfold exchange.
    destruct (nth_error (y :: l) j) as [xj|] eqn:Ej; [|reflexivity].
    destruct (nth_error (y :: l) i) as [xi|] eqn:Ei; [|reflexivity].
    destruct i as [|i]; destruct j as [|j]; simpl in Ei, Ej.
    + injection Ei as <-. injection Ej as <-. reflexivity.
    + injection Ei as <-. simpl. apply assign_permutation. assumption.
    + injection Ej as <-. simpl. apply assign_permutation. assumption.
    + simpl. apply perm_skip. specialize (IH i j). unfold exchange in IH.
      rewrite Ej, Ei in IH. exact IH.
Qed.

(** X6.  Moving the selected tool by [delta] rows, when both the row and
    the target row exist: the tools are the same ones in another order, the
    selected tool and the one at the target have changed places and every
    other tool is where it was, the selection has followed the tool, the
    configuration file holds the new order (loading it gives the tools of
    the window, flags cleared), and moving back by [delta] restores the
    order and the selection. *)
Theorem move_tool_exchanges (delta : Z) (w : window) :
  (0 <= currentRow w < count w)%Z ->
  (0 <= currentRow w + delta < count w)%Z ->
  let i := Z.to_nat (currentRow w) in
  let j := Z.to_nat (currentRow w + delta) in
  let w' := _move_tool delta w in
  Permutation (tools w) (tools w') /\
  (forall k, nth_error (tools w') k = nth_error (tools w) (source i j k)) /\
  currentRow w' = (currentRow w + delta)%Z /\
  config_file w' = written (tools w') /\
  (exists l, config_file w' = VList l /\ load_array l = Some (Ok (map cleared (tools w')))) /\
  tools (_move_tool (- delta) w') = tools w /\
  currentRow (_move_tool (- delta) w') = currentRow w.
Proof.
  intros Hi Hj i j w'.
  assert (Hw' : w' = {| tools := exchange i j (tools w);
                        currentRow := (currentRow w + delta)%Z;
                        config_file := written (exchange i j (tools w)) |}).
  { unfold w', _move_tool, _current_tool_index.
    replace ((0 <=? currentRow w)%Z && (currentRow w <? count w)%Z) with true
      by (symmetry; apply andb_true_intro; split; [apply Z.leb_le|apply Z.ltb_lt]; lia).
    replace (currentRow w <? 0)%Z with false by (symmetry; apply Z.ltb_ge; lia).
    replace ((0 <=? currentRow w + delta)%Z && (currentRow w + delta <? count w)%Z) with true
      by (symmetry; apply andb_true_intro; split; [apply Z.leb_le|apply Z.ltb_lt]; lia).
    reflexivity. }
  assert (Hil : i < List.length (tools w)) by (unfold count in *; lia).
  assert (Hjl : j < List.length (tools w)) by (unfold count in *; lia).
  rewrite Hw'. cbn [tools currentRow config_file].
  split; [apply exchange_permutation|].
  split; [intros k; apply nth_error_exchange; assumption|].
  split; [reflexivity|]. split; [reflexivity|].
  split.
  { pose proof (load_array_written (exchange i j (tools w))) as H.
    unfold written in *. eexists. split; [reflexivity|]. exact H. }
  unfold _move_tool, _current_tool_index, count. cbn [tools currentRow config_file].
  rewrite exchange_length.
  replace ((0 <=? currentRow w + delta)%Z
           && (currentRow w + delta <? Z.of_nat (List.length (tools w)))%Z) with true
    by (symmetry; apply andb_true_intro; split; [apply Z.leb_le|apply Z.ltb_lt];
        unfold count in *; lia).
  replace (currentRow w + delta <? 0)%Z with false by (symmetry; apply Z.ltb_ge; lia).
  replace (currentRow w + delta + - delta)%Z with (currentRow w) by lia.
  replace ((0 <=? currentRow w)%Z
           && (currentRow w <? Z.of_nat (List.length (tools w)))%Z) with true
    by (symmetry; apply andb_true_intro; split; [apply Z.leb_le|apply Z.ltb_lt];
        unfold count in *; lia).
  cbn [negb tools currentRow]. fold i j.
  split; [apply exchange_back; assumption|reflexivity].
Qed.

Lemma load_array_unknown_field (k : string) (v : pyval) (i : dict pyval)
    (others : list pyval) (t : dict pyval) (rest : list pyval) :
  In (k, v) i -> is_field k = false -> k <> "placeholder" ->
  get "inputs" t = Some (VList (VDict i :: others)) ->
  load_array (VDict t :: rest) = Some (Raise TypeError).
Proof.
  intros Hin Hf Hne Hget. cbn [load_array].
  unfold load_tool, getd. rewrite Hget. cbn [load_inputs].
  rewrite (load_input_rejects_unknown k v i Hin Hf Hne). reflexivity.
Qed.

(** X7.  Loading another configuration file from the menu.  A file that
    cannot be read or does not hold an array leaves the window and the
    active configuration file as they were.  A file that holds an array
    replaces the active configuration file before its tools are built: when
    they cannot be built, as when a parameter record of the first tool has
    an unknown field, the error is shown and the tools of the window stay,
    but the active file now holds the array, which does not load; when they
    can, they become the tools of the window, with the first one selected
    if there is one. *)
Theorem load_config_file_replaces_first (fn : string) (w : window) :
  fn <> "" ->
  (forall e, _load_config_file fn (Raise e) w = Some (w, [LoadFailed e])) /\
  (forall v, (forall l, v <> VList l) ->
     _load_config_file fn (Ok v) w
     = Some (w, [LoadFailed (ValueError "Config must be a JSON array of tools.")])) /\
  (forall l e, load_array l = Some (Raise e) ->
     exists w',
       _load_config_file fn (Ok (VList l)) w = Some (w', [LoadFailed e]) /\
       tools w' = tools w /\ currentRow w' = currentRow w /\
       config_file w' = VList l) /\
  (forall k v i others t rest,
     In (k, v) i -> is_field k = false -> k <> "placeholder" ->
     get "inputs" t = Some (VList (VDict i :: others)) ->
     exists w',
       _load_config_file fn (Ok (VList (VDict t :: rest))) w
       = Some (w', [LoadFailed TypeError]) /\
       tools w' = tools w /\
       config_file w' = VList (VDict t :: rest) /\
       load_array (VDict t :: rest) = Some (Raise TypeError)) /\
  (forall l ts, load_array l = Some (Ok ts) ->
     exists w',
       _load_config_file fn (Ok (VList l)) w = Some (w', [ConfigLoaded fn]) /\
       tools w' = ts /\ config_file w' = VList l /\
       currentRow w' = match ts with [] => (-1)%Z | _ => 0%Z end).
Proof.
  intros Hfn. unfold _load_config_file.
  destruct (fn =? "")%string eqn:He; [apply String.eqb_eq in He; contradiction|].
  split; [reflexivity|]. split.
  { intros v Hv. destruct v; try reflexivity. exfalso. apply (Hv l). reflexivity. }
  split; [|split].
  - intros l e Hl. rewrite Hl. eexists. split; [reflexivity|]. repeat split.
  - intros k v i others t rest Hin Hf Hne Hget.
    pose proof (load_array_unknown_field k v i others t rest Hin Hf Hne Hget) as Hl.
    rewrite Hl. eexists. split; [reflexivity|]. repeat split.
  - intros l ts Hl. rewrite Hl. eexists. split; [reflexivity|]. repeat split.
Qed.

End MainWindowProofs.

(** ** The placeholders of the command compiler *)

Section PlaceholderProofs.
Context {P : Platform}.
Import MoreNotions.

Lemma get_set {V : Type} (k k' : string) (v : V) (d : dict V) :
  get k (set k' v d) = if k' =? k then Some v else get k d.
Proof.
  induction d as [|[k0 v0] d IH]; simpl.
  - reflexivity.
  - destruct (k0 =? k') eqn:E0; simpl.
    + apply String.eqb_eq in E0. subst k0. destruct (k' =? k); reflexivity.
    + destruct (k0 =? k) eqn:E1.
      * apply String.eqb_eq in E1. subst k0. rewrite String.eqb_sym, E0. reflexivity.
      * exact IH.
Qed.

Lemma length_append (a b : string) :
  String.length (a +++ b) = String.length a + String.length b.
Proof. induction a as [|c a IH]; simpl; [reflexivity|]. rewrite IH. reflexivity. Qed.

Lemma append_inj_left (a b suf : string) : a +++ suf = b +++ suf -> a = b.
Proof.
  revert b. induction a as [|c a IH]; intros [|d b] H; simpl in H.
  - reflexivity.
  - apply (f_equal String.length) in H. simpl in H. rewrite length_append in H. lia.
  - apply (f_equal String.length) in H. simpl in H. rewrite length_append in H. lia.
  - injection H as -> H. rewrite (IH b H). reflexivity.
Qed.

Lemma last_char_append (a : string) (c : ascii) (s : string) :
  last_char (a +++ String c s) = last_char (String c s).
Proof.
  induction a as [|d a IH]; [reflexivity|].
  change (String d a +++ String c s) with (String d (a +++ String c s)).
  rewrite <- IH. destruct a; reflexivity.
Qed.

Lemma endswith_append (a suf : string) : endswith suf (a +++ suf) = true.
Proof.
  induction a as [|c a IH].
  - destruct suf; simpl; rewrite ?Ascii.eqb_refl, ?String.eqb_refl; reflexivity.
  - simpl. rewrite IH. apply orb_true_r.
Qed.

Lemma toggle_key_flag (k : string) : toggle_key (k +++ "_flag") = true.
Proof. unfold toggle_key. rewrite endswith_append. reflexivity. Qed.

Lemma toggle_key_yn (k : string) : toggle_key (k +++ "_yn") = true.
Proof. unfold toggle_key. rewrite (endswith_append k "_yn"). apply orb_true_iff. left. apply orb_true_r. Qed.

Lemma toggle_key_01 (k : string) : toggle_key (k +++ "_01") = true.
Proof. unfold toggle_key. rewrite (endswith_append k "_01"). apply orb_true_r. Qed.

(** Keys with suffixes that end differently are different. *)
Lemma suffix_keys_differ (a b : string) (c d : ascii) (s t : string) :
  last_char (String c s) <> last_char (String d t) ->
  (a +++ String c s =? b +++ String d t) = false.
Proof.
  intros H. apply String.eqb_neq. intros E. apply H.
  rewrite <- (last_char_append a c s), <- (last_char_append b d t), E. reflexivity.
Qed.

Lemma same_suffix_keys (a b suf : string) :
  (a +++ suf =? b +++ suf) = (a =? b).
Proof.
  destruct (String.eqb_spec a b) as [->|Hne].
  - apply String.eqb_refl.
  - apply String.eqb_neq. intros E. apply Hne. apply (append_inj_left a b suf E).
Qed.

(** A toggle only writes toggle keys. *)
Lemma add_toggle_other (vals : ValueBag) (ph : dict pyval) (n k : string) :
  toggle_key k = false -> get k (add_toggle vals ph n) = get k ph.
Proof.
  intros Hk. unfold add_toggle. rewrite !get_set.
  destruct (String.eqb_spec (n +++ "_01") k) as [<-|_];
    [rewrite toggle_key_01 in Hk; discriminate|].
  destruct (String.eqb_spec (n +++ "_yn") k) as [<-|_];
    [rewrite toggle_key_yn in Hk; discriminate|].
  destruct (String.eqb_spec (n +++ "_flag") k) as [<-|_];
    [rewrite toggle_key_flag in Hk; discriminate|].
  reflexivity.
Qed.

Lemma fold_toggle_other (vals : ValueBag) (names : list string) (ph : dict pyval) (k : string) :
  toggle_key k = false -> get k (fold_left (add_toggle vals) names ph) = get k ph.
Proof.
  intros Hk. revert ph. induction names as [|n names IH]; intros ph; simpl; [reflexivity|].
  rewrite IH. apply add_toggle_other, Hk.
Qed.

(** The three values written for the toggle [k]. *)
Lemma add_toggle_keys (vals : ValueBag) (ph : dict pyval) (n k : string) :
  let on := truthy (vget k vals) in
  let good (d : dict pyval) :=
    get (k +++ "_flag") d = Some (VStr (if on then "--" +++ k else "--no-" +++ k)) /\
    get (k +++ "_yn") d = Some (VStr (if on then "yes" else "no")) /\
    get (k +++ "_01") d = Some (VStr (if on then "1" else "0")) in
  (n = k \/ good ph) -> good (add_toggle vals ph n).
Proof.
  intros on good H. unfold good, add_toggle. rewrite !get_set.
  rewrite !same_suffix_keys.
  rewrite (suffix_keys_differ n k "_" "_" "01" "flag") by (simpl; congruence).
  rewrite (suffix_keys_differ n k "_" "_" "yn" "flag") by (simpl; congruence).
  rewrite (suffix_keys_differ n k "_" "_" "01" "yn") by (simpl; congruence).
  rewrite (suffix_keys_differ n k "_" "_" "flag" "yn") by (simpl; congruence).
  rewrite (suffix_keys_differ n k "_" "_" "yn" "01") by (simpl; congruence).
  rewrite (suffix_keys_differ n k "_" "_" "flag" "01") by (simpl; congruence).
  destruct (String.eqb_spec n k) as [->|Hne].
  - repeat split.
  - destruct H as [H|H]; [contradiction|exact H].
Qed.

Lemma fold_toggle_keys (vals : ValueBag) (names : list string) (ph : dict pyval) (k : string) :
  let on := truthy (vget k vals) in
  let good (d : dict pyval) :=
    get (k +++ "_flag") d = Some (VStr (if on then "--" +++ k else "--no-" +++ k)) /\
    get (k +++ "_yn") d = Some (VStr (if on then "yes" else "no")) /\
    get (k +++ "_01") d = Some (VStr (if on then "1" else "0")) in
  (In k names \/ good ph) -> good (fold_left (add_toggle vals) names ph).
Proof.
  intros on good. revert ph. induction names as [|n names IH]; intros ph H; simpl.
  - destruct H as [[]|H]. exact H.
  - apply IH. destruct H as [[->|H]|H].
    + right. apply add_toggle_keys. left. reflexivity.
    + left. exact H.
    + right. apply add_toggle_keys. right. exact H.
Qed.

Lemma placeholders_builtins (h : Host) (tool : ToolSpec.t) (vals : ValueBag) :
  let ph := placeholders h tool vals in
  get "python" ph = Some (VStr (python_path h)) /\
  get "python_u" ph = Some (VStr (python_path h +++ " -u")) /\
  get "script" ph = Some (VStr (script_or_empty tool)) /\
  get "output_dir" ph = Some (por (vget "_output_dir" vals) (VStr "")).
Proof.
  intros ph. unfold ph, placeholders.
  repeat split; rewrite fold_toggle_other by reflexivity;
    unfold update; cbn [fold_left fst snd]; rewrite !get_set; reflexivity.
Qed.

Lemma placeholders_toggles (h : Host) (tool : ToolSpec.t) (vals : ValueBag) (k : string) :
  In k (toggle_names tool) ->
  let ph := placeholders h tool vals in
  let on := truthy (vget k vals) in
  get (k +++ "_flag") ph = Some (VStr (if on then "--" +++ k else "--no-" +++ k)) /\
  get (k +++ "_yn") ph = Some (VStr (if on then "yes" else "no")) /\
  get (k +++ "_01") ph = Some (VStr (if on then "1" else "0")).
Proof.
  intros Hk ph on. unfold ph, placeholders. apply fold_toggle_keys. left. exact Hk.
Qed.

(** A toggle writes its own three keys and no other. *)
Lemma add_toggle_unwritten (vals : ValueBag) (ph : dict pyval) (n k : string) :
  k <> n +++ "_flag" -> k <> n +++ "_yn" -> k <> n +++ "_01" ->
  get k (add_toggle vals ph n) = get k ph.
Proof.
  intros H1 H2 H3. unfold add_toggle. rewrite !get_set.
  destruct (String.eqb_spec (n +++ "_01") k) as [E|_]; [symmetry in E; contradiction|].
  destruct (String.eqb_spec (n +++ "_yn") k) as [E|_]; [symmetry in E; contradiction|].
  destruct (String.eqb_spec (n +++ "_flag") k) as [E|_]; [symmetry in E; contradiction|].
  reflexivity.
Qed.

Lemma fold_toggle_unwritten (vals : ValueBag) (names : list string) (ph : dict pyval)
    (k : string) :
  (forall n, In n names -> k <> n +++ "_flag" /\ k <> n +++ "_yn" /\ k <> n +++ "_01") ->
  get k (fold_left (add_toggle vals) names ph) = get k ph.
Proof.
  revert ph. induction names as [|n names IH]; intros ph H; simpl; [reflexivity|].
  rewrite IH by (intros m Hm; apply H; right; exact Hm).
  destruct (H n (or_introl eq_refl)) as (H1 & H2 & H3).
  apply add_toggle_unwritten; assumption.
Qed.

Lemma placeholders_unwritten (h : Host) (tool : ToolSpec.t) (vals : ValueBag) (k : string) :
  builtin k = false ->
  (forall n, In n (toggle_names tool) ->
     k <> n +++ "_flag" /\ k <> n +++ "_yn" /\ k <> n +++ "_01") ->
  get k (placeholders h tool vals) = get k vals.
Proof.
  intros Hb Ht. unfold placeholders. rewrite fold_toggle_unwritten by exact Ht.
  unfold update. cbn [fold_left fst snd]. rewrite !get_set.
  unfold builtin in Hb. repeat rewrite orb_false_iff in Hb.
  destruct Hb as [[[H1 H2] H3] H4].
  rewrite (String.eqb_sym "output_dir" k), H4, (String.eqb_sym "script" k), H3,
    (String.eqb_sym "python_u" k), H2, (String.eqb_sym "python" k), H1.
  reflexivity.
Qed.

(** X8.  The placeholders of a command template.  [python], [python_u],
    [script] and [output_dir] always stand for the interpreter path, the
    path followed by [-u], the script of the tool and the output directory,
    whatever the parameters of the tool are called: a parameter with one of
    these names is shadowed.  Every toggle [n] of the tool has its three
    placeholders [n_flag], [n_yn] and [n_01], all three read from the same
    truth value.  Every other name, that is every name that is none of the
    four and is not one of the three keys of a toggle of the tool, stands
    for what the value bag holds under it, and for nothing when the bag
    holds nothing: a parameter called [level_01] keeps its value unless the
    tool has a toggle called [level]. *)
Theorem placeholders_of_the_compiler (h : Host) (tool : ToolSpec.t) (vals : ValueBag) :
  let ph := placeholders h tool vals in
  get "python" ph = Some (VStr (python_path h)) /\
  get "python_u" ph = Some (VStr (python_path h +++ " -u")) /\
  get "script" ph = Some (VStr (script_or_empty tool)) /\
  get "output_dir" ph = Some (por (vget "_output_dir" vals) (VStr "")) /\
  (forall n, In n (toggle_names tool) ->
     let on := truthy (vget n vals) in
     get (n +++ "_flag") ph = Some (VStr (if on then "--" +++ n else "--no-" +++ n)) /\
     get (n +++ "_yn") ph = Some (VStr (if on then "yes" else "no")) /\
     get (n +++ "_01") ph = Some (VStr (if on then "1" else "0"))) /\
  (forall k, builtin k = false ->
     (forall n, In n (toggle_names tool) ->
        k <> n +++ "_flag" /\ k <> n +++ "_yn" /\ k <> n +++ "_01") ->
     get k ph = get k vals).
Proof.
  intros ph.
  destruct (placeholders_builtins h tool vals) as (H1 & H2 & H3 & H4).
  repeat (split; [assumption|]). split.
  - intros k Hk. apply placeholders_toggles. exact Hk.
  - intros k Hb Ht. apply placeholders_unwritten; assumption.
Qed.

End PlaceholderProofs.

(** ** Running a tool from the form *)

Section RunProofs.
Context {P : Platform}.
Import Template ShellWords MoreNotions.





Lemma sforall_impl (p q : ascii -> bool) (s : string) :
  (forall c, p c = true -> q c = true) -> sforall p s = true -> sforall q s = true.
Proof.
  intros Hpq. induction s as [|c s IH]; [reflexivity|]. cbn [sforall]. intros H.
  apply andb_true_iff in H. destruct H as [Hc Hs].
  rewrite (Hpq c Hc), (IH Hs). reflexivity.
Qed.

Lemma ws_not_brace (c : ascii) : Shlex.is_ws c = true -> negb (is_brace c) = true.
Proof.
  unfold Shlex.is_ws. intros H.
  repeat (apply orb_true_iff in H; destruct H as [H|H]);
    apply Ascii.eqb_eq in H; subst c; reflexivity.
Qed.

(** X10.  A command template made of blanks only is not the empty
    template: it compiles, to the empty argument vector.  Run then shows
    the status [Running...] and schedules the launch, and the launch finds
    no command and starts no process. *)
Theorem blank_template_launches_nothing
    (h : Host) (t : ToolSpec.t) (f : form) (vals : ValueBag) :
  ToolSpec.runner_mode t = "command" ->
  isfile h (python_path h) = true ->
  ToolSpec.runner t <> "" -> whitespace (ToolSpec.runner t) = true ->
  tool f = Some t -> collect_values f = Some vals ->
  first_missing (ToolSpec.inputs t) vals = None ->
  _build_command h t vals = Some (Ok []) /\
  exists f',
    _on_run h f = Some (f', [Schedule_start_run]) /\
    status f' = Running /\ _pending_cmd f' = Some [] /\ fields f' = fields f /\
    _start_run f' = None /\ spawned f' [Schedule_start_run] = [].
Proof.
  intros Hmode Hfile Hne Hws Ht Hvals Hmiss.
  assert (Hfmt : Fmt.format (ToolSpec.runner t) (placeholders h t vals)
                 = Some (Ok (ToolSpec.runner t))).
  { pose proof (format_render (placeholders h t vals) [Lit (ToolSpec.runner t)]) as H.
    cbn [render render_piece substitute forallb piece_ok declared] in H.
    rewrite append_nil_r in H. apply H; [|reflexivity].
    rewrite andb_true_r. unfold plain_text.
    apply (sforall_impl Shlex.is_ws); [apply ws_not_brace|exact Hws]. }
  assert (Hsplit : Shlex.split (ToolSpec.runner t) = Ok []).
  { pose proof (split_render_line {| entries := []; trailing := ToolSpec.runner t |}) as H.
    unfold render_line, line_ok, words in H. cbn in H. apply H. exact Hws. }
  assert (Hcmd : _build_command h t vals = Some (Ok [])).
  { rewrite (build_command_mode h t vals Hmode Hfile).
    destruct (String.eqb_spec (ToolSpec.runner t) "") as [E|_]; [contradiction|].
    rewrite Hfmt, Hsplit. reflexivity. }
  split; [exact Hcmd|].
  exists (set_pending [] (set_status Running f)).
  unfold _on_run. rewrite Ht, Hvals, Hmiss, Hcmd. repeat split.
Qed.

Lemma keys_set {V : Type} (k : string) (v : V) (d : dict V) :
  keys (set k v d) = if mem k d then keys d else keys d ++ [k].
Proof.
  unfold mem, keys. induction d as [|[k0 v0] d IH]; simpl; [reflexivity|].
  destruct (k0 =? k) eqn:E; simpl; [reflexivity|].
  rewrite IH. destruct (get k d); reflexivity.
Qed.

Lemma mem_keys {V : Type} (k : string) (d : dict V) : mem k d = true <-> In k (keys d).
Proof.
  unfold mem, keys. induction d as [|[k0 v0] d IH]; simpl.
  - split; [discriminate|intros []].
  - destruct (String.eqb_spec k0 k) as [->|Hne].
    + split; auto.
    + rewrite IH. split; [auto|]. intros [E|H]; [contradiction|exact H].
Qed.

Lemma set_keeps_keys {V : Type} (k : string) (v : V) (d : dict V) :
  NoDup (keys d) ->
  NoDup (keys (set k v d)) /\
  forall x, In x (keys (set k v d)) <-> x = k \/ In x (keys d).
Proof.
  intros Hnd. rewrite keys_set. destruct (mem k d) eqn:Hm.
  - split; [exact Hnd|]. intros x. apply mem_keys in Hm. split; [auto|].
    intros [->|H]; assumption.
  - split.
    + apply NoDup_app; [exact Hnd|repeat constructor; intros []|].
      intros x Hx [<-|[]]. apply mem_keys in Hx. congruence.
    + intros x. rewrite in_app_iff. simpl. intuition.
Qed.

Lemma collect_fields_keys (fs : dict widget) (specs : list InputSpec.t) (acc bag : ValueBag) :
  NoDup (keys acc) ->
  collect_fields fs specs acc = Some bag ->
  NoDup (keys bag) /\
  forall x, In x (keys bag) -> In x (keys acc) \/ In x (names specs).
Proof.
  revert acc. induction specs as [|spec rest IH]; intros acc Hnd; simpl.
  - intros [= <-]. auto.
  - destruct (get (InputSpec.name spec) fs) as [w|].
    + destruct (read_widget (InputSpec.type spec) w) as [v|]; [|discriminate].
      intros H. destruct (set_keeps_keys (InputSpec.name spec) v acc Hnd) as [Hnd' Hin'].
      destruct (IH _ Hnd' H) as [H1 H2]. split; [exact H1|].
      intros x Hx. destruct (H2 x Hx) as [Hx'|Hx']; [|auto].
      apply Hin' in Hx'. destruct Hx' as [->|Hx']; auto.
    + intros H. destruct (IH _ Hnd H) as [H1 H2]. split; [exact H1|].
      intros x Hx. destruct (H2 x Hx); auto.
Qed.

(** X11.  The values collected from a form with a tool: the keys are
    distinct, and each is the name of a parameter of the tool or the
    reserved [_output_dir]; the reserved key is always there, bound to what
    the output-directory field holds, which is [None] when the field is
    blank and its trimmed, non-empty text otherwise, also when a parameter
    of the tool has that name. *)
Theorem collected_bag_shape (f : form) (t : ToolSpec.t) (bag : ValueBag) :
  tool f = Some t -> collect_values f = Some bag ->
  NoDup (keys bag) /\
  (forall k, In k (keys bag) -> k = "_output_dir" \/ In k (names (ToolSpec.inputs t))) /\
  get "_output_dir" bag = Some (output_dir_value f) /\
  (strip (output_dir f) = "" -> output_dir_value f = VNone) /\
  (strip (output_dir f) <> "" ->
   output_dir_value f = VStr (strip (output_dir f)) /\ trimmed (strip (output_dir f))).
Proof.
  intros Ht. unfold collect_values. rewrite Ht.
  destruct (collect_fields (fields f) (ToolSpec.inputs t) []) as [vals|] eqn:Hc; [|discriminate].
  intros [= <-].
  destruct (collect_fields_keys (fields f) (ToolSpec.inputs t) [] vals (NoDup_nil _) Hc)
    as [Hnd Hin].
  destruct (set_keeps_keys "_output_dir" (output_dir_value f) vals Hnd) as [Hnd' Hin'].
  split; [exact Hnd'|]. split.
  { intros k Hk. apply Hin' in Hk. destruct Hk as [->|Hk]; [auto|].
    destruct (Hin k Hk) as [[]|H]. auto. }
  split; [apply get_set_same|].
  unfold output_dir_value. split.
  - intros ->. reflexivity.
  - intros Hne. split; [|apply strip_idem].
    destruct (strip (output_dir f)); [contradiction|reflexivity].
Qed.

End RunProofs.

(** ** The lines of the log *)

Section LineProofs.
Import QProcRunner MoreNotions.

(** What [rstrip] leaves does not end in a line feed. *)
Lemma rstrip_nl_last (s : string) : last_char (rstrip_nl s) <> Some newline.
Proof.
  induction s as [|c s IH]; [discriminate|].
  cbn [rstrip_nl]. destruct (rstrip_nl s) as [|d r] eqn:E.
  - destruct (Ascii.eqb c (ch 10)) eqn:Hc; [discriminate|].
    cbn [last_char]. intros [= ->]. unfold newline in Hc.
    rewrite Ascii.eqb_refl in Hc. discriminate.
  - exact IH.
Qed.

Lemma pump_lines (reads : list ProcRunner.read) (rc : Z) (s : string) :
  In (ProcRunner.lineReady s) (ProcRunner.pump reads rc) -> last_char s <> Some newline.
Proof.
  induction reads as [|[text stop_seen|e] rest IH]; simpl.
  - intros [H|[]]. discriminate.
  - intros [H|H].
    + injection H as <-. apply rstrip_nl_last.
    + destruct stop_seen; [|exact (IH H)].
      destruct H as [H|[]]. discriminate.
  - intros [H|[H|[]]]; discriminate.
Qed.

(** X12.  What reaches the log.  Every line [QProcRunner] emits is a
    single line, without any line boundary.  It splits each chunk of output
    on its own: a line that arrives in two chunks is emitted as two lines,
    and as one line when it arrives whole.  No line [ProcRunner.run] emits
    ends in a line feed. *)
Theorem emitted_lines :
  (forall qs s, In (lineReady s) (emitted qs) -> no_break s = true) /\
  (forall a b, a <> "" -> no_break a = true -> no_break b = true ->
     emitted [readyReadStandardOutput a; readyReadStandardOutput (b +++ String newline "")]
     = [lineReady a; lineReady b] /\
     emitted [readyReadStandardOutput (a +++ b +++ String newline "")]
     = [lineReady (a +++ b)]) /\
  (forall c s, In (ProcRunner.lineReady s) (ProcRunner.run c) ->
     last_char s <> Some newline).
Proof.
  split; [|split].
  - intros qs s. unfold emitted. rewrite in_flat_map.
    intros ([text|code crashed|err] & _ & Hin); simpl in Hin.
    + unfold _on_ready in Hin. apply in_map_iff in Hin.
      destruct Hin as (l & [= <-] & Hl).
      pose proof (splitlines_no_break text) as H. rewrite Forall_forall in H.
      apply H, Hl.
    + destruct Hin as [H|[]]. discriminate.
    + destruct Hin.
  - intros a b Ha Hab Hbb. unfold emitted. cbn [flat_map dispatch]. unfold _on_ready.
    rewrite (splitlines_one a Ha Hab).
    rewrite (splitlines_app_newline b "" Hbb).
    rewrite <- append_assoc.
    rewrite (splitlines_app_newline (a +++ b) "").
    + split; reflexivity.
    + unfold no_break in *. rewrite sforall_append, Hab, Hbb. reflexivity.
  - intros c s. unfold ProcRunner.run. intros [H|H]; [discriminate|].
    destruct c as [e|reads rc].
    + destruct H as [H|[H|[]]]; discriminate.
    + apply (pump_lines reads rc s H).
Qed.

End LineProofs.

(** ** The tool editor *)

Section EditorProofs.
Context {P : Platform}.
Variable zero : float.
Import ToolEditor Template MoreNotions.





(** X14.  The parameters the snippet generator reads from the table are
    the parameters [result_tool] returns for the same table, in the same
    order, without their choices. *)
Theorem table_agrees_with_result (d : dialog) :
  _read_inputs_from_table zero d
  = map without_choices (ToolSpec.inputs (result_tool zero d)).
Proof.
  unfold _read_inputs_from_table, result_tool. cbn [ToolSpec.inputs].
  induction (inputs_table d) as [|r rest IH]; [reflexivity|].
  cbn [flat_map]. rewrite map_app, IH. f_equal.
  unfold table_input, result_input, read_default.
  destruct (strip (name_cell r) =? ""); reflexivity.
Qed.

End EditorProofs.

Section TemplateProofs.
Context {P : Platform}.
Import ToolEditor Template MoreNotions.

Lemma rstrip_last (a : string) (c : ascii) :
  is_space c = false -> rstrip (a +++ String c "") = a +++ String c "".
Proof.
  intros Hc. induction a as [|x a IH].
  - cbn. rewrite Hc. reflexivity.
  - change (String x a +++ String c "") with (String x (a +++ String c "")).
    cbn [rstrip]. rewrite IH. destruct a; reflexivity.
Qed.

Lemma ends_well_append (a b : string) : ends_well b -> ends_well (a +++ b).
Proof.
  intros (x & c & -> & Hc). exists (a +++ x), c. split; [|exact Hc].
  rewrite append_assoc. reflexivity.
Qed.

Lemma render_part_ends_well (s : InputSpec.t) : ends_well (render (part_pieces s)).
Proof.
  unfold part_pieces.
  destruct (InputSpec.type s =? "toggle").
  - exists (" {" +++ InputSpec.name s +++ "_flag"), "}"%char. split; [|reflexivity].
    cbn [render render_piece]. rewrite !append_assoc, append_nil_r. reflexivity.
  - destruct (needs_quotes (InputSpec.type s)).
    + exists ((" --" +++ InputSpec.name s +++ " " +++ quote) +++ "{" +++ InputSpec.name s +++ "}"),
        dquote.
      split; [|reflexivity].
      cbn [render render_piece]. rewrite !append_assoc, append_nil_r. reflexivity.
    + exists ((" --" +++ InputSpec.name s +++ " ") +++ "{" +++ InputSpec.name s), "}"%char.
      split; [|reflexivity].
      cbn [render render_piece]. rewrite !append_assoc, append_nil_r. reflexivity.
Qed.

Lemma render_parts_end_well (specs : list InputSpec.t) :
  render (flat_map part_pieces specs) = "" \/ ends_well (render (flat_map part_pieces specs)).
Proof.
  induction specs as [|s rest IH]; [left; reflexivity|]. right.
  cbn [flat_map]. rewrite render_app. destruct IH as [->|IH].
  - rewrite append_nil_r. apply render_part_ends_well.
  - apply ends_well_append, IH.
Qed.

Lemma join_parts (x : string) (specs : list InputSpec.t) :
  join " " (x :: map runner_part specs) = x +++ render (flat_map part_pieces specs).
Proof.
  revert x. induction specs as [|s rest IH]; intros x.
  - cbn. rewrite append_nil_r. reflexivity.
  - cbn [map]. rewrite join_cons2, IH. cbn [flat_map]. rewrite render_app.
    rewrite <- !append_assoc. f_equal. rewrite append_assoc. f_equal.
    unfold runner_part, part_pieces.
    destruct (InputSpec.type s =? "toggle").
    + cbn [render render_piece]. rewrite !append_assoc, append_nil_r. reflexivity.
    + destruct (needs_quotes (InputSpec.type s));
        cbn [render render_piece]; rewrite !append_assoc, append_nil_r; reflexivity.
Qed.

Lemma runner_template_render (specs : list InputSpec.t) :
  runner_template specs = render (template_pieces specs) /\
  render (template_pieces specs) <> "".
Proof.
  unfold runner_template, template_pieces. rewrite join_parts, render_app.
  set (tail := render (flat_map part_pieces specs)).
  assert (Hhead : render [Ph "python_u"; Lit (" " +++ quote); Ph "script"; Lit quote]
                  = "{python_u} " +++ quote +++ "{script}" +++ quote) by reflexivity.
  rewrite Hhead. split; [|discriminate].
  unfold strip.
  change (lstrip (("{python_u} " +++ quote +++ "{script}" +++ quote) +++ tail))
    with (("{python_u} " +++ quote +++ "{script}" +++ quote) +++ tail).
  assert (Hend : ends_well (("{python_u} " +++ quote +++ "{script}" +++ quote) +++ tail)).
  { destruct (render_parts_end_well specs) as [E|E]; fold tail in E.
    - rewrite E, append_nil_r. exists ("{python_u} " +++ quote +++ "{script}"), dquote.
      split; reflexivity.
    - apply ends_well_append, E. }
  destruct Hend as (a & c & -> & Hc). apply rstrip_last, Hc.
Qed.

Lemma name_char_not_brace (c : ascii) : name_char c = true -> negb (is_brace c) = true.
Proof.
  unfold name_char. intros H. apply negb_true_iff in H.
  do 4 (apply orb_false_iff in H; destruct H as [H _]).
  rewrite H. reflexivity.
Qed.

Lemma plain_name_text (n : string) : plain_name n = true -> plain_text n = true.
Proof.
  unfold plain_name, plain_text. destruct n as [|c r]; [discriminate|].
  intros H. apply andb_true_iff in H. destruct H as [_ H].
  apply (sforall_impl name_char); [apply name_char_not_brace|exact H].
Qed.

Lemma plain_name_suffix (n suf : string) :
  plain_name n = true -> sforall name_char suf = true -> plain_name (n +++ suf) = true.
Proof.
  unfold plain_name. destruct n as [|c r]; [discriminate|].
  intros H Hs. apply andb_true_iff in H. destruct H as [Hd H].
  cbn [append]. rewrite Hd. cbn [sforall] in H |- *.
  apply andb_true_iff in H. destruct H as [Hc Hr].
  rewrite Hc, sforall_append, Hr, Hs. reflexivity.
Qed.

Lemma part_pieces_ok (s : InputSpec.t) :
  plain_name (InputSpec.name s) = true -> forallb piece_ok (part_pieces s) = true.
Proof.
  intros Hn. pose proof (plain_name_text _ Hn) as Ht. unfold plain_text in Ht.
  unfold part_pieces.
  destruct (InputSpec.type s =? "toggle").
  - cbn [forallb piece_ok]. rewrite (plain_name_suffix _ "_flag" Hn) by reflexivity. reflexivity.
  - destruct (needs_quotes (InputSpec.type s)); cbn [forallb piece_ok];
      rewrite Hn; unfold plain_text; rewrite !sforall_append, Ht; reflexivity.
Qed.

Lemma mem_set {V : Type} (k k' : string) (v : V) (d : dict V) :
  mem k (set k' v d) = (k' =? k) || mem k d.
Proof. unfold mem. rewrite get_set. destruct (k' =? k); reflexivity. Qed.

Lemma mem_add_toggle (vals : ValueBag) (ph : dict pyval) (n k : string) :
  mem k ph = true -> mem k (add_toggle vals ph n) = true.
Proof.
  intros H. unfold add_toggle. rewrite !mem_set, H. rewrite !orb_true_r. reflexivity.
Qed.

Lemma mem_placeholders (h : Host) (t : ToolSpec.t) (vals : ValueBag) (k : string) :
  mem k vals = true -> mem k (placeholders h t vals) = true.
Proof.
  intros H. unfold placeholders.
  assert (Hbase : mem k (update vals
            [("python", VStr (python_path h));
             ("python_u", VStr (python_path h +++ " -u"));
             ("script", VStr (script_or_empty t));
             ("output_dir", por (vget "_output_dir" vals) (VStr ""))]) = true).
  { unfold update. cbn [fold_left fst snd]. rewrite !mem_set, H, !orb_true_r. reflexivity. }
  revert Hbase. generalize (update vals
            [("python", VStr (python_path h));
             ("python_u", VStr (python_path h +++ " -u"));
             ("script", VStr (script_or_empty t));
             ("output_dir", por (vget "_output_dir" vals) (VStr ""))]).
  induction (toggle_names t) as [|n names IH]; intros d Hd; simpl; [exact Hd|].
  apply IH, mem_add_toggle, Hd.
Qed.

Lemma toggle_names_In (t : ToolSpec.t) (s : InputSpec.t) :
  In s (ToolSpec.inputs t) -> InputSpec.type s = "toggle" ->
  In (InputSpec.name s) (toggle_names t).
Proof.
  intros Hin Hty. unfold toggle_names. apply nodup_In. apply in_map.
  apply filter_In. split; [exact Hin|]. rewrite Hty. reflexivity.
Qed.

Lemma part_pieces_declared (h : Host) (t : ToolSpec.t) (vals : ValueBag) (s : InputSpec.t) :
  In s (ToolSpec.inputs t) -> mem (InputSpec.name s) vals = true ->
  forallb (declared (placeholders h t vals)) (part_pieces s) = true.
Proof.
  intros Hin Hmem. unfold part_pieces.
  destruct (String.eqb_spec (InputSpec.type s) "toggle") as [Hty|_].
  - cbn [forallb declared]. unfold mem.
    destruct (placeholders_toggles h t vals _ (toggle_names_In t s Hin Hty)) as (H & _).
    rewrite H. reflexivity.
  - destruct (needs_quotes (InputSpec.type s)); cbn [forallb declared];
      rewrite (mem_placeholders h t vals _ Hmem); reflexivity.
Qed.

(** X15.  The runner template the editor generates for the parameters of a
    tool, used as the command template of that tool, only names
    placeholders the compiler defines, when the names of the parameters are
    plain and the value bag has a value for each: the compilation never
    reports a missing placeholder or an empty template, and its result is
    what the shell-style splitting makes of the template with the values
    put in. *)
Theorem generated_template_compiles (h : Host) (t : ToolSpec.t) (vals : ValueBag) :
  ToolSpec.runner_mode t = "command" ->
  isfile h (python_path h) = true ->
  ToolSpec.runner t = runner_template (ToolSpec.inputs t) ->
  Forall (fun i => plain_name (InputSpec.name i) = true) (ToolSpec.inputs t) ->
  Forall (fun i => mem (InputSpec.name i) vals = true) (ToolSpec.inputs t) ->
  _build_command h t vals
  = Some (toks <- Shlex.split (substitute (placeholders h t vals)
                                 (template_pieces (ToolSpec.inputs t))) ;;
          Ok (map VStr toks)).
Proof.
  intros Hmode Hfile Hrun Hplain Hmem.
  destruct (runner_template_render (ToolSpec.inputs t)) as [Hr Hne].
  rewrite (build_command_mode h t vals Hmode Hfile), Hrun, Hr.
  destruct (String.eqb_spec (render (template_pieces (ToolSpec.inputs t))) "") as [E|_];
    [contradiction|].
  rewrite format_render; [reflexivity| |].
  - unfold template_pieces. rewrite forallb_app. apply andb_true_intro. split; [reflexivity|].
    apply forallb_forall. intros p Hp. apply in_flat_map in Hp.
    destruct Hp as (s & Hs & Hp). rewrite Forall_forall in Hplain.
    pose proof (part_pieces_ok s (Hplain s Hs)) as H.
    rewrite forallb_forall in H. apply H, Hp.
  - unfold template_pieces. rewrite forallb_app. apply andb_true_intro. split.
    + destruct (placeholders_builtins h t vals) as (_ & H2 & H3 & _).
      cbn [forallb declared]. unfold mem. rewrite H2, H3. reflexivity.
    + apply forallb_forall. intros p Hp. apply in_flat_map in Hp.
      destruct Hp as (s & Hs & Hp). rewrite Forall_forall in Hmem.
      pose proof (part_pieces_declared h t vals s Hs (Hmem s Hs)) as H.
      rewrite forallb_forall in H. apply H, Hp.
Qed.

End TemplateProofs.

(** ** The name suggested for an exported file *)

Section ExportProofs.
Import Exporting MoreNotions.




End ExportProofs.

(** ** Launching and importing *)

Section LaunchProofs.
Context {P : Platform}.
Import MoreNotions.

(** X17.  When no required value is missing and the command compiles to a
    non-empty argument vector, Run leaves the widgets alone, shows
    [Running...] and schedules one launch; the launch starts one process,
    with the two environment variables that unbuffer and encode the output
    of a Python child, the first token as the program and the others as its
    arguments. *)
Theorem run_launches_the_command
    (h : Host) (t : ToolSpec.t) (f : form) (vals : ValueBag) (cmd : list pyval) :
  tool f = Some t -> collect_values f = Some vals ->
  first_missing (ToolSpec.inputs t) vals = None ->
  _build_command h t vals = Some (Ok cmd) -> cmd <> [] ->
  exists f',
    _on_run h f = Some (f', [Schedule_start_run]) /\
    status f' = Running /\ fields f' = fields f /\ output_dir f' = output_dir f /\
    spawned f' [Schedule_start_run] = [cmd] /\
    _start_run f' = Some (cmd, [("PYTHONUNBUFFERED", "1"); ("PYTHONIOENCODING", "utf-8")]) /\
    exists program args, QProcRunner.start cmd = Ok (program, args) /\ cmd = program :: args.
Proof.
  intros Ht Hvals Hmiss Hcmd Hne.
  exists (set_pending cmd (set_status Running f)).
  unfold _on_run. rewrite Ht, Hvals, Hmiss, Hcmd.
  destruct cmd as [|program args]; [contradiction|].
  repeat split. exists program, args. split; reflexivity.
Qed.

Lemma keys_set_present {V : Type} (k : string) (v w : V) (d : dict V) :
  get k d = Some w -> keys (set k v d) = keys d.
Proof.
  intros H. rewrite keys_set. unfold mem. rewrite H. reflexivity.
Qed.

(** The log lines [_apply_params] writes. *)
Lemma apply_spec_keeps (vals : dict pyval) (f : form) (spec : InputSpec.t) :
  keys (fields (apply_spec vals f spec)) = keys (fields f) /\
  exists more, log (apply_spec vals f spec) = log f ++ more /\
               Forall (fun l => exists n e, l = ApplyFailed n e) more.
Proof.
  unfold apply_spec.
  destruct (get (InputSpec.name spec) vals) as [v|];
    [|split; [reflexivity|exists []; rewrite app_nil_r; auto]].
  destruct (get (InputSpec.name spec) (fields f)) as [w|] eqn:Hw;
    [|split; [reflexivity|exists []; rewrite app_nil_r; auto]].
  destruct (apply_one (type_or_string spec) v w) as [w'|e].
  - split; [apply (keys_set_present _ _ w), Hw|exists []; rewrite app_nil_r; auto].
  - split; [reflexivity|]. exists [ApplyFailed (InputSpec.name spec) e].
    split; [reflexivity|]. constructor; [eauto|constructor].
Qed.

Lemma fold_apply_keeps (vals : dict pyval) (specs : list InputSpec.t) (f : form) :
  let f' := fold_left (apply_spec vals) specs f in
  keys (fields f') = keys (fields f) /\
  exists more, log f' = log f ++ more /\
               Forall (fun l => exists n e, l = ApplyFailed n e) more.
Proof.
  revert f. induction specs as [|spec rest IH]; intros f; cbn [fold_left].
  - split; [reflexivity|]. exists []. rewrite app_nil_r. auto.
  - destruct (IH (apply_spec vals f spec)) as (Hk & more & Hl & Hm).
    destruct (apply_spec_keeps vals f spec) as (Hk0 & more0 & Hl0 & Hm0).
    split; [rewrite Hk; exact Hk0|].
    exists (more0 ++ more). split.
    + rewrite Hl, Hl0, app_assoc. reflexivity.
    + apply Forall_app. split; assumption.
Qed.

Lemma apply_any_result (v : pyval) (f : form) (r : form * list effect) :
  apply_any v f = Ok r ->
  fst r = f \/
  exists d t, tool f = Some t /\ fst r = fold_left (apply_spec d) (ToolSpec.inputs t) f.
Proof.
  destruct v; cbn [apply_any];
    try (destruct (tool f) as [t|]; [|intros [= <-]; left; reflexivity];
         induction (ToolSpec.inputs t) as [|spec rest IH];
         [intros [= <-]; left; reflexivity|];
         cbn [bind name_in]; try discriminate;
         match goal with
         | |- context [if ?b then _ else _] => destruct b; [discriminate|exact IH]
         end).
  intros [= <-]. unfold _apply_params. destruct (tool f) as [t|] eqn:Ht; [|left; reflexivity].
  right. exists d, t. split; reflexivity.
Qed.

Lemma apply_any_keeps (v : pyval) (f : form) (r : form * list effect) :
  apply_any v f = Ok r ->
  tool (fst r) = tool f /\ output_dir (fst r) = output_dir f /\
  _pending_cmd (fst r) = _pending_cmd f /\
  keys (fields (fst r)) = keys (fields f) /\
  exists more, log (fst r) = log f ++ more /\
               Forall (fun l => exists n e, l = ApplyFailed n e) more.
Proof.
  intros H. destruct (apply_any_result v f r H) as [->|(d & t & Ht & ->)].
  - repeat split. exists []. rewrite app_nil_r. auto.
  - destruct (fold_apply_frame d (ToolSpec.inputs t) f) as (H1 & H2 & _ & H4).
    destruct (fold_apply_keeps d (ToolSpec.inputs t) f) as (H5 & H6).
    repeat split; assumption.
Qed.

Lemma import_result (file : string) (loaded : result pyval) (yes : bool) (f : form) :
  fst (_import_params file loaded yes f) = f \/
  exists vals r,
    apply_any vals f = Ok r /\
    fst (_import_params file loaded yes f) = set_status (Imported file) (fst r).
Proof.
  unfold _import_params. destruct (tool f) as [t|]; [|left; reflexivity].
  destruct (file =? ""); [left; reflexivity|].
  unfold import_body.
  destruct loaded as [data|e]; [|left; reflexivity].
  destruct (values_of data) as [vals|e]; [|left; reflexivity].
  destruct (meta_tool_of data) as [meta_tool|e]; [|left; reflexivity].
  cbv zeta.
  destruct (negb (meta_tool =? "") && negb (meta_tool =? strip (ToolSpec.name t)) && negb yes);
    [left; reflexivity|].
  destruct (apply_any vals f) as [[g effs]|e] eqn:Hap; [|left; reflexivity].
  right. exists vals, (g, effs). split; [exact Hap|reflexivity].
Qed.

(** X18.  Whatever file is imported and whatever the answer to the
    question, importing parameters never changes the tool of the form, the
    output-directory field or a pending command, never adds or removes a
    widget, and only appends to the log, lines of the kind [[apply] name:
    error]. *)
Theorem import_keeps_the_rest (file : string) (loaded : result pyval) (yes : bool) (f : form) :
  let f' := fst (_import_params file loaded yes f) in
  tool f' = tool f /\ output_dir f' = output_dir f /\ _pending_cmd f' = _pending_cmd f /\
  keys (fields f') = keys (fields f) /\
  exists more, log f' = log f ++ more /\
               Forall (fun l => exists n e, l = ApplyFailed n e) more.
Proof.
  intros f'. unfold f'.
  destruct (import_result file loaded yes f) as [->|(vals & r & Hap & ->)].
  - repeat split. exists []. rewrite app_nil_r. auto.
  - destruct (apply_any_keeps vals f r Hap) as (H1 & H2 & H3 & H5 & H6).
    cbn [set_status tool output_dir _pending_cmd fields log].
    repeat split; assumption.
Qed.

(** X19.  A file that holds a plain dictionary of values, with no entry
    called [values] or [meta], is imported like a record that holds that
    dictionary under [values]: the values are applied, and no question is
    asked, since no tool is declared. *)
Theorem import_accepts_plain_values
    (file : string) (d : dict pyval) (yes : bool) (f : form) (t : ToolSpec.t) :
  tool f = Some t -> file <> "" ->
  get "values" d = None -> get "meta" d = None ->
  _import_params file (Ok (VDict d)) yes f = applied (VDict d) file f /\
  _import_params file (Ok (VDict [("values", VDict d)])) yes f = applied (VDict d) file f.
Proof.
  intros Ht Hfile Hv Hm.
  assert (Hne : (file =? "") = false) by (apply String.eqb_neq; exact Hfile).
  unfold _import_params, import_body, values_of, meta_tool_of, get_attr_get, applied.
  rewrite Ht, Hne, Hv, Hm. cbn.
  destruct (_apply_params d f) as [g effs]. split; reflexivity.
Qed.

End LaunchProofs.

(** ** Building the form *)

Section BuildingProofs.
Context {P : Platform}.
Variable zero : float.
Variable today : QDate.
Import Building MoreNotions.

Lemma findText_bound (s : string) (items : list string) (i : nat) :
  findText s items = Some i -> i < List.length items.
Proof.
  revert i. induction items as [|x items IH]; intros i; simpl; [discriminate|].
  destruct (x =? s); [intros [= <-]; lia|].
  destruct (findText s items) as [j|]; [|discriminate].
  intros [= <-]. specialize (IH j eq_refl). lia.
Qed.

Lemma first_row_bound {A : Type} (items : list A) :
  match first_row items with
  | Some i => i < List.length items
  | None => items = []
  end.
Proof. destruct items; simpl; [reflexivity|lia]. Qed.

Lemma setChoices_texts (cs : list string) : map fst (setChoices cs) = cs.
Proof.
  unfold setChoices. rewrite map_map. cbn [fst]. apply map_id.
Qed.

(** The widget built for a parameter is of the class of its type. *)
Lemma build_widget_built (spec : InputSpec.t) (w : widget) :
  build_widget zero today spec = Ok w -> settled_value w ->
  built_for (InputSpec.type spec) (choices_or_nil spec) w.
Proof.
  unfold build_widget, built_for, widget_class.
  generalize (InputSpec.type spec) as ty. intros ty.
  destruct (ty =? "string"); [intros [= <-] _; exact I|].
  destruct (ty =? "int").
  { destruct (as_int (InputSpec.default spec)) as [n|].
    - destruct (spin_store n) as [m|e]; cbn [bind]; [|discriminate].
      intros [= <-] Hs. exact Hs.
    - intros [= <-] Hs. exact Hs. }
  destruct (ty =? "float").
  { destruct (is_number (InputSpec.default spec)).
    - destruct (to_float (InputSpec.default spec)) as [x|e]; cbn [bind]; [|discriminate].
      intros [= <-] Hs. exact Hs.
    - intros [= <-] Hs. exact Hs. }
  destruct (ty =? "date"); [intros [= <-] Hs; exact Hs|].
  destruct (ty =? "toggle"); [intros [= <-] _; exact I|].
  destruct (ty =? "file"); [intros [= <-] _; exact I|].
  destruct (ty =? "folder"); [intros [= <-] _; exact I|].
  destruct (ty =? "enum").
  { intros [= <-] _. split; [reflexivity|].
    pose proof (first_row_bound (choices_of spec)) as Hfirst.
    destruct (InputSpec.default spec); try exact Hfirst;
      match goal with
      | |- context [findText ?s ?items] =>
          destruct (findText s items) as [i|] eqn:E;
          [apply (findText_bound _ _ _ E)|exact Hfirst]
      end. }
  destruct (ty =? "multienum").
  { intros [= <-] _. rewrite setCheckedItems_texts. apply setChoices_texts. }
  destruct (ty =? "password"); [intros [= <-] _; exact I|].
  destruct (ty =? "list"); [intros [= <-] _; exact I|].
  intros [= <-] _. exact I.
Qed.

Lemma build_fields_built (specs : list InputSpec.t) (n : nat)
    (fs : dict widget) (rows : list string) (fs' : dict widget) (rows' : list string) :
  NoDup (keys fs ++ names specs) ->
  build_fields zero today specs n fs rows = (fs', rows', Built) ->
  (forall spec, In spec specs ->
     exists w, build_widget zero today spec = Ok w /\ get (InputSpec.name spec) fs' = Some w) /\
  (forall k, ~ In k (names specs) -> get k fs' = get k fs) /\
  keys fs' = keys fs ++ names specs /\
  List.length rows' = List.length rows + List.length specs.
Proof.
  revert n fs rows. induction specs as [|spec rest IH]; intros n fs rows Hnd; cbn [build_fields].
  - intros [= <- <-]. cbn. rewrite app_nil_r, Nat.add_0_r. repeat split. intros spec [].
  - destruct (build_widget zero today spec) as [w|e] eqn:Hw; [|discriminate].
    intros Hb.
    assert (Hfresh : mem (InputSpec.name spec) fs = false).
    { destruct (mem (InputSpec.name spec) fs) eqn:Hm; [|reflexivity].
      apply mem_keys in Hm. exfalso.
      apply NoDup_app_remove_r in Hnd as Hk.
      cbn [names map] in Hnd.
      apply (NoDup_remove_2 _ _ _ Hnd). apply in_or_app. left. exact Hm. }
    assert (Hkeys : keys (set (InputSpec.name spec) w fs) = keys fs ++ [InputSpec.name spec]).
    { rewrite keys_set, Hfresh. reflexivity. }
    assert (Hnd' : NoDup (keys (set (InputSpec.name spec) w fs) ++ names rest)).
    { rewrite Hkeys, <- app_assoc. exact Hnd. }
    destruct (IH _ _ _ Hnd' Hb) as (H1 & H2 & H3 & H4).
    assert (Hnot : ~ In (InputSpec.name spec) (names rest)).
    { intros Hin. rewrite Hkeys, <- app_assoc in Hnd'. cbn [app] in Hnd'.
      apply (NoDup_remove_2 _ _ _ Hnd'). apply in_or_app. right. exact Hin. }
    split; [|split; [|split]].
    + intros s [<-|Hs]; [|apply H1, Hs].
      exists w. split; [exact Hw|]. rewrite (H2 _ Hnot). apply get_set_same.
    + intros k Hk. cbn [names map] in Hk.
      rewrite H2 by (intros Hin; apply Hk; right; exact Hin).
      apply get_set_other. intros ->. apply Hk. left. reflexivity.
    + rewrite H3, Hkeys, <- app_assoc. reflexivity.
    + rewrite H4, length_app. cbn [List.length]. lia.
Qed.

(** X20.  [set_tool] on a tool with distinct parameter names, when no
    setter raises: the form shows the tool, with one widget per parameter,
    in the order of the parameters and under their names, each of the class
    the codec expects for the type of its parameter and, for the two kinds
    of choice boxes, with the choices as rows; there is one labelled row per
    parameter; the output directory and the log are empty and the status is
    [Ready].  That the spin boxes and date edits hold values they keep is
    what Qt guarantees, and is assumed of the widgets built. *)
Theorem set_tool_builds_the_form
    (t : ToolSpec.t) (f f' : form) (rows : list string) (effs : list effect) :
  NoDup (names (ToolSpec.inputs t)) ->
  set_tool zero today t f = (f', rows, Built, effs) ->
  (forall k w, get k (fields f') = Some w -> settled_value w) ->
  form_for t f' /\
  keys (fields f') = names (ToolSpec.inputs t) /\
  List.length rows = List.length (ToolSpec.inputs t) /\
  output_dir f' = "" /\ log f' = [] /\ status f' = Ready /\
  _pending_cmd f' = _pending_cmd f /\ effs = [Schedule_fit_inputs_height].
Proof.
  intros Hnd. unfold set_tool.
  destruct (build_fields zero today (ToolSpec.inputs t) 0 [] []) as [[fs rs] o] eqn:Hb.
  destruct o as [|e]; [|discriminate].
  intros [= <- <- <-] Hs. cbn [fields output_dir log status _pending_cmd tool] in *.
  destruct (build_fields_built (ToolSpec.inputs t) 0 [] [] fs rs Hnd Hb) as (H1 & _ & H3 & H4).
  split; [|repeat split; assumption].
  split; [reflexivity|]. intros spec Hin.
  destruct (H1 spec Hin) as (w & Hw & Hget). exists w. split; [exact Hget|].
  apply build_widget_built; [exact Hw|]. apply (Hs _ _ Hget).
Qed.

(** X21.  The rows of a multi-choice box.  [setChoices] leaves one
    unchecked row per choice.  After [setCheckedItems], whatever was
    checked before, the checked items are the texts of the rows that occur
    among the items asked for, in the order of the rows: the order of the
    items, their repetition and the items that are not rows change nothing.
    [_toggle_item] flips the mark of its row and of no other, keeps the
    texts, and done twice gives the rows back. *)
Theorem checkable_rows :
  (forall cs, checkedItems (setChoices cs) = [] /\ map fst (setChoices cs) = cs) /\
  (forall want rows,
     checkedItems (setCheckedItems want rows)
     = filter (fun text => existsb (String.eqb text) want) (map fst rows)) /\
  (forall want want' rows,
     (forall x, In x want <-> In x want') ->
     setCheckedItems want rows = setCheckedItems want' rows) /\
  (forall i rows,
     _toggle_item i (_toggle_item i rows) = rows /\
     map fst (_toggle_item i rows) = map fst rows) /\
  (forall i rows text checked,
     nth_error rows i = Some (text, checked) ->
     nth_error (_toggle_item i rows) i = Some (text, negb checked) /\
     forall k, k <> i -> nth_error (_toggle_item i rows) k = nth_error rows k).
Proof.
  split; [|split; [|split; [|split]]].
  - intros cs. split; [|apply setChoices_texts].
    unfold checkedItems, setChoices. induction cs as [|c cs IH]; [reflexivity|exact IH].
  - intros want rows. unfold checkedItems, setCheckedItems.
    induction rows as [|[text b] rows IH]; [reflexivity|].
    cbn [map filter fst snd]. destruct (existsb (String.eqb text) want); cbn [map fst];
      rewrite IH; reflexivity.
  - intros want want' rows Hsame. unfold setCheckedItems. apply map_ext. intros [text b].
    cbn [fst]. f_equal.
    destruct (existsb (String.eqb text) want) eqn:E; symmetry.
    + apply existsb_exists in E. destruct E as (x & Hx & Ex).
      apply existsb_exists. exists x. split; [apply Hsame, Hx|exact Ex].
    + destruct (existsb (String.eqb text) want') eqn:E'; [|reflexivity].
      apply existsb_exists in E'. destruct E' as (x & Hx & Ex).
      assert (H : existsb (String.eqb text) want = true)
        by (apply existsb_exists; exists x; split; [apply Hsame, Hx|exact Ex]).
      congruence.
  - intros i rows. revert i.
    induction rows as [|[text b] rows IH]; intros [|i]; cbn [_toggle_item map fst];
      try (split; reflexivity).
    + rewrite negb_involutive. split; reflexivity.
    + destruct (IH i) as [H1 H2]. rewrite H1, H2. split; reflexivity.
  - intros i rows. revert i.
    induction rows as [|[t b] rows IH]; intros [|i] text checked; cbn [nth_error _toggle_item];
      try discriminate.
    + intros [= -> ->]. split; [reflexivity|].
      intros [|k] Hk; [contradiction|reflexivity].
    + intros H. destruct (IH i text checked H) as [H1 H2]. split; [exact H1|].
      intros [|k] Hk; [reflexivity|]. cbn [nth_error]. apply H2. congruence.
Qed.

End BuildingProofs.

(** ** The starter configuration *)

Section StarterProofs.
Context {P : Platform}.
Import Config Template ShellWords MoreNotions.

(** X22.  The tool written to the configuration when none exists compiles,
    whatever the form holds, to the interpreter, [-c] and the greeting
    program as three tokens, as long as the path of the interpreter is a
    single shell word: not empty and without blanks, quotes or
    backslashes. *)
Theorem starter_tool_compiles (h : Host) (vals : ValueBag) :
  isfile h (python_path h) = true ->
  python_path h <> "" -> sforall ordinary (python_path h) = true ->
  load_config None = Some (Ok [starter]) /\
  _build_command h starter vals
  = Some (Ok (map VStr [python_path h; "-c"; "print('Hello from sample tool!')"])).
Proof.
  intros Hfile Hne Hord. split; [reflexivity|].
  set (lit := " -c " +++ String dquote "print('Hello from sample tool!')" +++ String dquote "").
  destruct (placeholders_builtins h starter vals) as (Hpy & _).
  assert (Hfmt : Fmt.format (ToolSpec.runner starter) (placeholders h starter vals)
                 = Some (Ok (python_path h +++ lit))).
  { change (ToolSpec.runner starter) with (render [Ph "python"; Lit lit]).
    rewrite format_render.
    - cbn [substitute]. rewrite Hpy. cbn [str]. rewrite append_nil_r. reflexivity.
    - reflexivity.
    - cbn [forallb declared]. unfold mem. rewrite Hpy. reflexivity. }
  assert (Hsplit : Shlex.split (python_path h +++ lit)
                   = Ok [python_path h; "-c"; "print('Hello from sample tool!')"]).
  { pose proof (split_render_line
                  {| entries := [("", [Plain (python_path h)]); (" ", [Plain "-c"]);
                                 (" ", [DQuoted (dchars "print('Hello from sample tool!')")])];
                     trailing := "" |}) as Hs.
    assert (Hline : render_line
                      {| entries := [("", [Plain (python_path h)]); (" ", [Plain "-c"]);
                                     (" ", [DQuoted (dchars "print('Hello from sample tool!')")])];
                         trailing := "" |} = python_path h +++ lit).
    { unfold render_line, render_entries, render_word.
      cbn [entries trailing map fst snd sconcat render_segment].
      rewrite !append_nil_r. reflexivity. }
    rewrite Hline in Hs. rewrite Hs.
    { unfold words, word_value. cbn [entries map snd sconcat segment_value].
      rewrite !append_nil_r. reflexivity. }
    unfold line_ok. cbn [entries trailing entries_ok word_ok forallb segment_ok].
    rewrite Hord.
    destruct (String.eqb_spec (python_path h) "") as [E|_]; [contradiction|]. reflexivity. }
  rewrite (build_command_mode h starter vals eq_refl Hfile), Hfmt, Hsplit. reflexivity.
Qed.

End StarterProofs.

(** ** Opening a tool in the editor and saving it *)

Section ReopenProofs.
Context {P : Platform}.
Variable zero : float.
Variable toPlainText : string -> string.
Import ToolEditor TextNotions MoreNotions.

Lemma lstrip_length (s : string) : String.length (lstrip s) <= String.length s.
Proof.
  induction s as [|c s IH]; [apply le_n|]. cbn [lstrip].
  destruct (is_space c); cbn [String.length]; lia.
Qed.

Lemma rstrip_length (s : string) : String.length (rstrip s) <= String.length s.
Proof.
  induction s as [|c s IH]; [apply le_n|]. cbn [rstrip].
  destruct (rstrip s) as [|d r]; [destruct (is_space c)|]; cbn [String.length] in *; lia.
Qed.

Lemma trimmed_head (s : string) : strip s = s -> lstrip s = s.
Proof.
  destruct s as [|c r]; [reflexivity|]. unfold strip. cbn [lstrip].
  destruct (is_space c); [|reflexivity]. intros H. exfalso.
  pose proof (rstrip_length (lstrip r)) as H1. pose proof (lstrip_length r) as H2.
  rewrite H in H1. cbn [String.length] in H1. lia.
Qed.

Lemma trimmed_tail (s : string) : strip s = s -> rstrip s = s.
Proof. intros H. pose proof (trimmed_head s H) as Hh. unfold strip in H. congruence. Qed.

Lemma lstrip_app_keep (a y : string) : lstrip a = a -> a <> "" -> lstrip (a +++ y) = a +++ y.
Proof.
  destruct a as [|c a]; [congruence|]. intros H _. cbn [append lstrip] in *.
  destruct (is_space c); [|reflexivity]. exfalso.
  pose proof (lstrip_length a) as H1. rewrite H in H1. cbn [String.length] in H1. lia.
Qed.

Lemma rstrip_app_keep (x b : string) : rstrip b = b -> b <> "" -> rstrip (x +++ b) = x +++ b.
Proof.
  intros Hb Hne. induction x as [|c x IH]; [exact Hb|].
  cbn [append rstrip]. rewrite IH.
  destruct (x +++ b) as [|d r] eqn:E; [|reflexivity].
  destruct x; cbn [append] in E; [contradiction|discriminate].
Qed.

Lemma trimmed_join (l : list string) :
  l <> [] -> Forall clean l -> strip (join "," l) = join "," l /\ join "," l <> "".
Proof.
  induction l as [|x l IH]; [congruence|]. intros _ H.
  pose proof (Forall_inv H) as (Hx & Hne & _). pose proof (Forall_inv_tail H) as Hl.
  destruct l as [|y l]; [split; assumption|].
  destruct (IH ltac:(discriminate) Hl) as [Hj Hjne].
  rewrite join_cons2. split.
  - unfold strip. rewrite (lstrip_app_keep _ _ (trimmed_head _ Hx) Hne).
    apply rstrip_app_keep.
    + apply (rstrip_app_keep "," _ (trimmed_tail _ Hj) Hjne).
    + discriminate.
  - destruct x; [contradiction|discriminate].
Qed.

Lemma setCurrentText_item (items : list string) (text : string) :
  In text items -> setCurrentText items text = text.
Proof.
  intros H. unfold setCurrentText.
  assert (E : existsb (String.eqb text) items = true).
  { apply existsb_exists. exists text. split; [exact H|apply String.eqb_refl]. }
  rewrite E. reflexivity.
Qed.

Lemma strip_or_none_keeps (o : option string) :
  (forall s, o = Some s -> s <> "" /\ trimmed s) -> strip_or_none (or_empty o) = o.
Proof.
  intros H. destruct o as [s|]; [|reflexivity].
  destruct (H s eq_refl) as [Hne Ht]. unfold strip_or_none, or_empty. rewrite Ht.
  destruct s; [contradiction|reflexivity].
Qed.

Lemma read_default_keeps (ty : string) (d : pyval) :
  default_survives ty d ->
  read_default zero ty (shown_default d) = d.
Proof.
  unfold read_default, shown_default.
  destruct d as [|b|n|x|s|l|m]; cbn [default_survives str repr];
    try contradiction.
  - reflexivity.
  - intros (-> & Hne & Hr). destruct (String.eqb_spec (str_of_Z n) ""); [contradiction|].
    cbn. rewrite Hr. reflexivity.
  - intros (-> & Hne & Hr). destruct (String.eqb_spec (float_str x) ""); [contradiction|].
    cbn. rewrite Hr. reflexivity.
  - intros (Hne & Hi & Hf). destruct (String.eqb_spec s ""); [contradiction|].
    destruct (String.eqb_spec ty "int"); [contradiction|].
    destruct (String.eqb_spec ty "float"); [contradiction|]. reflexivity.
Qed.

Lemma read_choices_keeps (ty : string) (o : option (list string)) :
  (forall c, o = Some c ->
     (ty = "enum" \/ ty = "multienum") /\ c <> [] /\ Forall clean c) ->
  read_choices ty (match o with Some ((_ :: _) as l) => join "," l | _ => "" end) = o.
Proof.
  intros H. destruct o as [c|]; [|reflexivity].
  destruct (H c eq_refl) as (Hty & Hne & Hc).
  destruct (trimmed_join c Hne Hc) as [Hj Hjne].
  destruct c as [|x l]; [congruence|]. unfold read_choices. cbv beta iota zeta.
  rewrite Hj. destruct (String.eqb_spec (join "," (x :: l)) ""); [contradiction|].
  assert (E : (ty =? "enum") || (ty =? "multienum") = true).
  { destruct Hty as [-> | ->]; reflexivity. }
  rewrite E. cbn [negb andb]. f_equal.
  rewrite split_join; [|discriminate|].
  - rewrite <- (map_id (x :: l)) at 2. apply map_ext_in. intros a Ha.
    rewrite Forall_forall in Hc. apply (Hc a Ha).
  - apply Forall_forall. intros a Ha. rewrite Forall_forall in Hc. apply (Hc a Ha).
Qed.

Lemma result_input_added (i : InputSpec.t) :
  input_survives i -> result_input zero (_add_input_row i) = [i].
Proof.
  destruct i as [n ty lab d ch rq ro]. unfold input_survives.
  cbn [InputSpec.name InputSpec.type InputSpec.label InputSpec.default InputSpec.choices].
  intros (Hne & Hn & Hty & Hl & Hd & Hc).
  unfold result_input, _add_input_row.
  cbn [name_cell type_cell label_cell default_cell choices_cell required_cell readonly_cell
       InputSpec.name InputSpec.type InputSpec.label InputSpec.default InputSpec.choices
       InputSpec.required InputSpec.readonly].
  rewrite Hn. destruct (String.eqb_spec n ""); [contradiction|].
  rewrite (setCurrentText_item _ _ Hty).
  change (match lab with Some l => l | None => "" end) with (or_empty lab).
  rewrite (strip_or_none_keeps lab Hl), (read_default_keeps ty d Hd), (read_choices_keeps ty ch Hc).
  reflexivity.
Qed.

Lemma result_inputs_added (inputs : list InputSpec.t) :
  Forall input_survives inputs ->
  flat_map (result_input zero) (map _add_input_row inputs) = inputs.
Proof.
  induction 1 as [|i rest Hi _ IH]; [reflexivity|].
  cbn [map flat_map]. rewrite (result_input_added i Hi), IH. reflexivity.
Qed.

(** X23.  Opening a tool in the editor and saving without touching
    anything gives the tool back, with the flag [output_dir_optional] off,
    when the tool is as the editor writes tools: its name is not empty and,
    like its runner, trimmed; its mode is [module] or [command]; its script
    and notes are absent or non-empty and trimmed, and the notes box gives
    the notes back; every parameter has a non-empty trimmed name, one of
    the eleven types of the type box, a label that is absent or non-empty
    and trimmed, a default that is absent, or a number of its type whose
    text reads back as it, or a non-empty text for the other types, and
    choices only for [enum] and [multienum], each of them trimmed, not
    empty and without a comma. *)
Theorem editor_gives_the_tool_back (t : ToolSpec.t) :
  tool_survives toPlainText t ->
  result_tool zero (open_dialog toPlainText t) = cleared t.
Proof.
  destruct t as [n mode runner script opt inputs notes]. unfold tool_survives.
  cbn [ToolSpec.name ToolSpec.runner_mode ToolSpec.runner ToolSpec.script ToolSpec.notes
       ToolSpec.inputs].
  intros (Hne & Hn & Hmode & Hr & Hs & Hnotes & Hplain & Hin).
  unfold result_tool, open_dialog, cleared.
  cbn [name_edit mode_cb runner_edit script_edit notes_edit inputs_table
       ToolSpec.name ToolSpec.runner_mode ToolSpec.runner ToolSpec.script ToolSpec.notes
       ToolSpec.inputs].
  rewrite Hn, Hr, Hplain, (strip_or_none_keeps script Hs), (strip_or_none_keeps notes Hnotes),
    (result_inputs_added inputs Hin).
  rewrite (setCurrentText_item ["module"; "command"] mode)
    by (destruct Hmode as [-> | ->]; cbn; auto).
  destruct n; [contradiction|reflexivity].
Qed.

End ReopenProofs.

(* ================================================================== *)
(** * Part III: the properties on the sample tools                     *)
(* ================================================================== *)

Section Examples.
Import Sample Demo Template ShellWords.

(** The module-mode shape on the tool [convert]. *)
Lemma module_mode_argv_shape_witness :
  ToolSpec.runner_mode convert = "module" /\
  _build_command posix convert convert_values
  = Some (Ok (map VStr ["/usr/bin/python3"; "-u"; "-m"; "pkg.convert"; "--func"; "main";
                        "--size"; "5"; "--fast"; "True"; "--title"; "a b";
                        "--output_dir"; "/out"])) /\
  exists mod_ func,
    parse_module_runner (ToolSpec.runner convert) = Ok (mod_, func) /\
    map VStr ["/usr/bin/python3"; "-u"; "-m"; "pkg.convert"; "--func"; "main";
              "--size"; "5"; "--fast"; "True"; "--title"; "a b"; "--output_dir"; "/out"]
    = [VStr (python_path posix); VStr "-u"; VStr "-m"; VStr mod_; VStr "--func"; VStr func]
      ++ flat_map (fun kv => [VStr ("--" +++ fst kv); VStr (str (snd kv))])
           (filter (fun kv => negb (fst kv =? "_output_dir")) convert_values)
      ++ (if truthy (vget "_output_dir" convert_values)
          then [VStr "--output_dir"; vget "_output_dir" convert_values] else []).
Proof.
  split; [reflexivity|]. split; [reflexivity|].
  apply (module_mode_argv_shape posix convert convert_values); reflexivity.
Defined.

(** Module mode on a target with a colon. *)
Lemma module_target_witness :
  ToolSpec.runner_mode (module_tool "pkg.mod:main") = "module" /\
  isfile posix (python_path posix) = true /\
  contains ":" "pkg.mod:main" = true /\
  exists m f cmd,
    parse_module_runner "pkg.mod:main" = Ok (m, f) /\
    _build_command posix (module_tool "pkg.mod:main") [] = Some (Ok cmd) /\
    nth_error cmd 3 = Some (VStr m) /\ nth_error cmd 5 = Some (VStr f).
Proof.
  split; [reflexivity|]. split; [reflexivity|]. split; [reflexivity|].
  apply (module_target_rejected_iff_no_colon posix (module_tool "pkg.mod:main") []);
    reflexivity.
Defined.

(** C6 as claimed fails: a target whose entry name is empty, and one whose
    two parts are blank, both compile. *)
Lemma empty_target_parts_accepted :
  _build_command posix (module_tool "pkg.mod:") [("_output_dir", VNone)]
  = Some (Ok (map VStr ["/usr/bin/python3"; "-u"; "-m"; "pkg.mod"; "--func"; ""]))
  /\ _build_command posix (module_tool " : ") [("_output_dir", VNone)]
  = Some (Ok (map VStr ["/usr/bin/python3"; "-u"; "-m"; ""; "--func"; ""])).
Proof. split; reflexivity. Qed.

(** Tokenization of the template
    [{python_u} "{script}" --name "{name}" --in {path} {verbose_flag}]:
    the quoted name with a space is one token, the unquoted path with a
    space is two. *)
Lemma command_mode_tokenization_witness :
  (ToolSpec.runner_mode greet = "command" /\
   isfile posix (python_path posix) = true /\
   ToolSpec.runner greet <> "" /\
   ToolSpec.runner greet = render greet_pieces /\
   forallb piece_ok greet_pieces = true /\
   forallb (declared (placeholders posix greet greet_values)) greet_pieces = true /\
   substitute (placeholders posix greet greet_values) greet_pieces = render_line greet_line /\
   line_ok greet_line = true) /\
  exists cmd,
    _build_command posix greet greet_values = Some (Ok cmd) /\
    cmd = map VStr (map word_value (words greet_line)) /\
    List.length cmd = List.length (words greet_line).
Proof.
  assert (Hne : ToolSpec.runner greet <> "") by discriminate.
  split.
  - split; [reflexivity|]. split; [reflexivity|]. split; [exact Hne|].
    repeat split; reflexivity.
  - apply (command_mode_tokenization posix greet greet_values greet_pieces greet_line);
      try reflexivity. exact Hne.
Defined.

(** Compilation of [greet], whose placeholders are all declared, and of
    [typo], which names [nmae]. *)
Lemma command_template_compilation_witness :
  (ToolSpec.runner_mode greet = "command" /\ isfile posix (python_path posix) = true) /\
  _build_command posix greet greet_values = Some (Ok (map VStr greet_tokens)) /\
  _build_command posix typo greet_values
  = Some (Raise (ValueError "Missing placeholder in template: 'nmae'")).
Proof.
  split; [split; reflexivity|]. split.
  - destruct (command_template_compilation posix greet greet_values eq_refl eq_refl)
      as (H & _).
    apply (H greet_pieces greet_tokens); try reflexivity. discriminate.
  - destruct (command_template_compilation posix typo greet_values eq_refl eq_refl)
      as (_ & _ & H & _).
    destruct (H [Lit "--name "] "nmae" [] eq_refl eq_refl eq_refl eq_refl eq_refl) as [H1 H2].
    rewrite H1, (H2 eq_refl). reflexivity.
Defined.

(** C5 as claimed fails: the only placeholder of [titled] is declared, the
    value it takes has an apostrophe, and the compilation fails on the
    quotation left open. *)
Lemma declared_placeholders_do_not_suffice :
  forallb piece_ok titled_pieces = true /\
  forallb (declared (placeholders posix titled titled_values)) titled_pieces = true /\
  collect_values titled_form = Some titled_values /\
  _build_command posix titled titled_values = Some (Raise (ValueError "No closing quotation")).
Proof. repeat split; reflexivity. Qed.

(** C2 as claimed fails: a child that started and whose output cannot be
    decoded ends with the code -1 of a launch failure, its own exit code
    unreported; and a Qt process that fails to start signals
    [errorOccurred], to which nothing is connected, so nothing is emitted. *)
Lemma finished_code_counterexample :
  ProcRunner.run
    (ProcRunner.Spawned
       [ProcRunner.Line "ready" false;
        ProcRunner.ReadError (ValueError "'utf-8' codec can't decode byte 0xff")] 0)
  = [ProcRunner.started; ProcRunner.lineReady "ready";
     ProcRunner.error (ValueError "'utf-8' codec can't decode byte 0xff");
     ProcRunner.finished (-1)]
  /\ QProcRunner.emitted [QProcRunner.errorOccurred QProcRunner.FailedToStart] = [].
Proof. split; reflexivity. Qed.

(** Stopping on Windows a child that answers every call. *)
Lemma stop_protocol_witness :
  let s := {| ProcRunner.has_proc := true; ProcRunner.raises := nobody_raises;
              ProcRunner.running_at_poll := true |} in
  ProcRunner.has_proc s = true /\
  (forall c, c <> ProcRunner.kill -> ProcRunner.raises s c = None) /\
  ProcRunner.stop windows s
  = (true, [ProcRunner.send_signal_CTRL_BREAK_EVENT; ProcRunner.sleep 400; ProcRunner.kill],
     Ok tt).
Proof.
  intros s.
  assert (H1 : ProcRunner.has_proc s = true) by reflexivity.
  assert (H2 : forall c, c <> ProcRunner.kill -> ProcRunner.raises s c = None)
    by (intros; reflexivity).
  split; [exact H1|]. split; [exact H2|].
  pose proof (stop_protocol windows s H1 H2) as (H & _).
  destruct (ProcRunner.stop windows s) as [[flag made] ret].
  destruct H as (-> & -> & ->). reflexivity.
Defined.

(** C3 as claimed fails: the runner the form uses kills at once, with no
    soft interrupt and no grace period; and [ProcRunner.stop] on Windows,
    when the break signal cannot be delivered, returns without waiting and
    without killing the child. *)
Lemma stop_protocol_counterexample :
  QProcRunner.kill QProcRunner.Running = [QProcRunner.p_kill]
  /\ ProcRunner.stop windows
       {| ProcRunner.has_proc := true; ProcRunner.raises := no_console;
          ProcRunner.running_at_poll := true |}
     = (true, [ProcRunner.send_signal_CTRL_BREAK_EVENT], Ok tt).
Proof. split; reflexivity. Qed.

(** Loading a file of two tools: the second tool record carries an [icon]
    field; the second parameter record of the second tool carries the
    legacy [placeholder] field, or a [tooltip] field. *)
Lemma load_config_unknown_fields_witness :
  (~ In "icon" Config.tool_keys /\
   Config.load_config
     (Some ([[("name", VStr "First")]]
            ++ ([("name", VStr "Demo")] ++ ("icon", VStr "a.png") :: [("runner", VStr "m:f")])
            :: []))
   = Config.load_config
       (Some ([[("name", VStr "First")]]
              ++ ([("name", VStr "Demo")] ++ [("runner", VStr "m:f")]) :: [])))
  /\
  Config.load_config
    (Some ([[("name", VStr "First")]]
           ++ ([("name", VStr "Demo")]
               ++ ("inputs",
                   VList ([VDict [("name", VStr "a")]]
                          ++ VDict ([("name", VStr "x")] ++ ("placeholder", VStr "hint") :: [])
                          :: [])) :: []) :: []))
  = Config.load_config
      (Some ([[("name", VStr "First")]]
             ++ ([("name", VStr "Demo")]
                 ++ ("inputs",
                     VList ([VDict [("name", VStr "a")]] ++ VDict ([("name", VStr "x")] ++ [])
                            :: [])) :: []) :: []))
  /\
  (In ("tooltip", VStr "hint") [("name", VStr "x"); ("tooltip", VStr "hint")] /\
   Config.is_field "tooltip" = false /\ "tooltip" <> "placeholder" /\
   Config.load_config
     (Some ([[("name", VStr "First")]]
            ++ [("name", VStr "Demo");
                ("inputs", VList ([VDict [("name", VStr "a")]]
                                  ++ VDict [("name", VStr "x"); ("tooltip", VStr "hint")]
                                  :: []))]
            :: []))
   = Some (Raise TypeError)).
Proof.
  destruct (@load_config_unknown_fields Sample.platform) as (H1 & H2 & H3).
  assert (Hn : ~ In "icon" Config.tool_keys).
  { simpl. intros H. repeat (destruct H as [H|H]; [discriminate|]). exact H. }
  split; [|split].
  - split; [exact Hn|].
    apply (H1 "icon" (VStr "a.png") [("name", VStr "Demo")] [("runner", VStr "m:f")]
              [[("name", VStr "First")]] [] Hn).
  - apply (H2 (VStr "hint") [("name", VStr "x")] [] [VDict [("name", VStr "a")]] []
              [("name", VStr "Demo")] [] [[("name", VStr "First")]] []).
  - assert (Hin : In ("tooltip", @VStr Sample.platform "hint")
                     [("name", VStr "x"); ("tooltip", VStr "hint")]).
    { simpl. auto. }
    assert (Hne : "tooltip" <> "placeholder") by discriminate.
    split; [exact Hin|]. split; [reflexivity|]. split; [exact Hne|].
    destruct (H3 "tooltip" (VStr "hint") [("name", VStr "x"); ("tooltip", VStr "hint")]
                 [VDict [("name", VStr "a")]] []
                 [("name", VStr "Demo");
                  ("inputs", VList ([VDict [("name", VStr "a")]]
                                    ++ VDict [("name", VStr "x"); ("tooltip", VStr "hint")]
                                    :: []))]
                 [[("name", VStr "First")]] [] Hin eq_refl Hne eq_refl) as [_ H].
    eapply H; reflexivity.
Defined.

(** C9 as claimed fails: a parameter record with the unknown field
    [tooltip] makes the load fail, while the same file without it loads. *)
Lemma unknown_parameter_field_rejected :
  Config.load_config (Some (tools_file [("tooltip", VStr "hint")])) = Some (Raise TypeError)
  /\ exists tools, Config.load_config (Some (tools_file [])) = Some (Ok tools).
Proof. split; [reflexivity|eexists; reflexivity]. Qed.

(** A file saved for the tool [Other], imported into the form of [Demo]. *)
Lemma import_confirms_tool_mismatch_witness :
  (tool convert_form = Some convert /\ "p.json" <> "" /\
   meta_tool_of (saved "Other") = Ok "Other" /\
   values_of (saved "Other") = Ok (VDict [("title", VStr "new")]) /\
   ("Other" <> "" /\ "Other" <> strip (ToolSpec.name convert))) /\
  _import_params "p.json" (Ok (saved "Other")) false convert_form
  = (convert_form,
     [Question "Apply anyway?" (mismatch_text "Other" (strip (ToolSpec.name convert)))]).
Proof.
  assert (H2 : "p.json" <> "") by discriminate.
  assert (H5 : "Other" <> "" /\ "Other" <> strip (ToolSpec.name convert))
    by (split; discriminate).
  split; [repeat split; try reflexivity; try exact H2; apply H5|].
  destruct (import_confirms_tool_mismatch "p.json" (saved "Other")
              (VDict [("title", VStr "new")]) "Other" convert_form convert
              eq_refl H2 eq_refl eq_refl) as (H & _).
  apply (H H5).
Defined.

(** C8 as claimed fails: the declared names ["Demo "] and [""] both differ
    from the name [Demo] of the current tool, and in both cases the values
    are applied with no question asked, whatever the answer would be. *)
Lemma import_without_confirmation :
  (meta_tool_of (saved "Demo ") = Ok "Demo" /\
   snd (_import_params "p.json" (Ok (saved "Demo ")) false convert_form)
   = [Schedule_fit_inputs_height] /\
   get "title" (fields (fst (_import_params "p.json" (Ok (saved "Demo ")) false convert_form)))
   = Some (QLineEdit "new"))
  /\
  (snd (_import_params "p.json" (Ok (saved "")) false convert_form)
   = [Schedule_fit_inputs_height] /\
   get "title" (fields (fst (_import_params "p.json" (Ok (saved "")) false convert_form)))
   = Some (QLineEdit "new")).
Proof. repeat split; reflexivity. Qed.

(** Values whose [size] is not a number: the failure is logged and the
    title is applied all the same. *)
Lemma apply_params_best_effort_witness :
  (tool convert_form = Some convert /\ NoDup (names (ToolSpec.inputs convert))) /\
  apply_any (VDict mixed_values) convert_form = Ok (_apply_params mixed_values convert_form) /\
  get "title" (fields (fst (_apply_params mixed_values convert_form))) = Some (QLineEdit "new") /\
  get "size" (fields (fst (_apply_params mixed_values convert_form))) = Some (QSpinBox 7) /\
  log (fst (_apply_params mixed_values convert_form))
  = [ApplyFailed "size" (ValueError "invalid literal for int() with base 10: 'abc'")].
Proof.
  assert (Hnd : NoDup (names (ToolSpec.inputs convert))).
  { repeat (constructor; [cbn; intuition discriminate|]). constructor. }
  split; [split; [reflexivity|exact Hnd]|].
  destruct (apply_params_best_effort mixed_values convert_form convert eq_refl Hnd)
    as (H1 & H2 & H3 & _).
  split; [exact H1|]. split; [|split].
  - exact (H2 (input "title" "string" None) (or_intror (or_intror (or_introl eq_refl)))).
  - exact (H2 (input "size" "int" None) (or_introl eq_refl)).
  - rewrite H3. reflexivity.
Defined.

Ltac solve_built_for :=
  unfold built_for; cbn;
  first [exact I | reflexivity
        | split; [reflexivity | first [reflexivity | cbn; lia]]].

Ltac solve_form_for :=
  split; [reflexivity|];
  let spec := fresh "spec" in
  let Hin := fresh "Hin" in
  intros spec Hin; cbn in Hin;
  repeat (destruct Hin as [<-|Hin]; [eexists; split; [reflexivity|solve_built_for]|]);
  contradiction.

(** The tool [survey], exported from the filled form and imported into the
    blank one. *)
Lemma export_import_round_trip_witness :
  (NoDup (names (ToolSpec.inputs survey)) /\
   form_for survey survey_filled /\ form_for survey survey_blank) /\
  exists r,
    _params_dict "2026-01-01 00:00:00" survey_filled = Some r /\
    exists bag bag',
      collect_values survey_filled = Some bag /\
      values r = strip_internal bag /\
      (forall k, startswith "_" k = true -> get k (values r) = None) /\
      collect_values (fst (_apply_params (values r) survey_blank)) = Some bag' /\
      (forall spec, In spec (ToolSpec.inputs survey) -> round_trips spec ->
         exists v v',
           get (InputSpec.name spec) bag = Some v /\
           get (InputSpec.name spec) bag' = Some v' /\
           same_value (InputSpec.type spec) v' v) /\
      get "_output_dir" bag' = Some (output_dir_value survey_blank) /\
      log (fst (_apply_params (values r) survey_blank)) = log survey_blank.
Proof.
  assert (Hnd : NoDup (names (ToolSpec.inputs survey))).
  { repeat (constructor; [cbn; intuition discriminate|]). constructor. }
  assert (Hf : form_for survey survey_filled) by solve_form_for.
  assert (Hg : form_for survey survey_blank) by solve_form_for.
  split; [split; [exact Hnd|split; [exact Hf|exact Hg]]|].
  eexists. split; [reflexivity|].
  apply (export_import_round_trip survey survey_filled survey_blank "2026-01-01 00:00:00");
    [exact Hnd|exact Hf|exact Hg|reflexivity].
Defined.

(** C7 as claimed fails: with the choice [a,b] checked, the exported value
    is [a,b]; imported into the very form it came from it unchecks the
    choice, and the value collected again is empty.  And the output
    directory, left out of the record, is the one of the importing form. *)
Lemma round_trip_counterexample :
  (exists r,
     _params_dict "2026-01-01 00:00:00" (tagged_form "") = Some r /\
     values r = [("tags", VStr "a,b")] /\
     collect_values (tagged_form "") = Some [("tags", VStr "a,b"); ("_output_dir", VNone)] /\
     collect_values (fst (_apply_params (values r) (tagged_form "")))
     = Some [("tags", VStr ""); ("_output_dir", VNone)])
  /\
  (exists r,
     _params_dict "2026-01-01 00:00:00" survey_filled = Some r /\
     option_map (get "_output_dir") (collect_values survey_filled)
     = Some (Some (VStr "/out")) /\
     option_map (get "_output_dir")
       (collect_values (fst (_apply_params (values r) survey_blank)))
     = Some (Some VNone)).
Proof.
  split; eexists; (split; [reflexivity|]); repeat split; reflexivity.
Qed.

End Examples.

(* ================================================================== *)
(** * Part III, continued                                              *)
(* ================================================================== *)

Section MoreExamples.
Import Sample Demo Template ShellWords MoreNotions MoreSamples.

(** The pages of a six-page document selected by [1-3, 5,2]. *)
Lemma page_spec_sorted_in_range_witness :
  CombinePdfs.parse_page_spec "1-3, 5,2" 6 = Ok [0; 1; 2; 4]%Z /\
  StronglySorted Z.lt [0; 1; 2; 4]%Z /\
  Forall (fun p => (0 <= p < 6)%Z) [0; 1; 2; 4]%Z.
Proof.
  split; [reflexivity|].
  apply (page_spec_sorted_in_range "1-3, 5,2" 6). reflexivity.
Defined.

(** The same selection, part by part. *)
Lemma page_spec_is_union_of_parts_witness :
  CombinePdfs.selects_all "1-3, 5,2" = false /\
  is_ok (CombinePdfs.parse_page_spec "1-3, 5,2" 6)
  = forallb (fun part => is_ok (CombinePdfs.page_part 6 [] part)) (split "," "1-3, 5,2") /\
  forall pages, CombinePdfs.parse_page_spec "1-3, 5,2" 6 = Ok pages ->
    forall p, In p pages <->
              exists part sel,
                In part (split "," "1-3, 5,2") /\
                CombinePdfs.page_part 6 [] part = Ok sel /\ In p sel.
Proof.
  split; [reflexivity|].
  apply (page_spec_is_union_of_parts "1-3, 5,2" 6). reflexivity.
Defined.

(** The range [9 - 4] on a six-page document: pages 4 to 6.  The part
    [3--5] is read as 3 and -5; the part [-3-5] is read as the empty text
    and [3-5], and fails. *)
Lemma page_range_is_clamped_witness :
  (strip " 9 - 4 " = "9 " +++ "-" +++ " 4" /\ contains "-" "9 " = false /\
   int_of_str (strip "9 ") = Ok 9%Z /\ int_of_str (strip " 4") = Ok 4%Z) /\
  CombinePdfs.page_part 6 [] " 9 - 4 " = Ok [3; 4; 5]%Z /\
  (exists sel,
     CombinePdfs.page_part 6 [] " 9 - 4 " = Ok sel /\
     forall p, In p sel <-> (Z.max 1 (Z.min 9 4) <= p + 1 <= Z.min 6 (Z.max 9 4))%Z) /\
  CombinePdfs.page_part 6 [] "3--5" = Ok [0; 1; 2]%Z /\
  (strip "-3-5" = "" +++ "-" +++ "3-5" /\ int_of_str (strip "") = Raise (ValueError "invalid literal for int() with base 10: ''")) /\
  CombinePdfs.page_part 6 [] "-3-5" = Raise (ValueError "invalid literal for int() with base 10: ''").
Proof.
  split; [repeat split; reflexivity|]. split; [reflexivity|].
  split.
  - destruct (@page_range_is_clamped Sample.platform 6 " 9 - 4 " "9 " " 4" eq_refl eq_refl)
      as (H & _).
    exact (H 9%Z 4%Z eq_refl eq_refl).
  - split; [reflexivity|]. split; [split; reflexivity|].
    destruct (@page_range_is_clamped Sample.platform 6 "-3-5" "" "3-5" eq_refl eq_refl)
      as (_ & H & _).
    exact (H _ eq_refl).
Defined.

(** Page 7 of a six-page document, after a part that is accepted; and
    page -1 in the same place. *)
Lemma page_out_of_range_is_rejected_witness :
  (CombinePdfs.selects_all "1-2,7,3" = false /\
   split "," "1-2,7,3" = ["1-2"] ++ "7" :: ["3"] /\
   forallb (fun x => is_ok (CombinePdfs.page_part 6 [] x)) ["1-2"] = true /\
   strip "7" <> "" /\ contains "-" (strip "7") = false /\
   int_of_str (strip "7") = Ok 7%Z /\ (7 < 1 \/ 6 < 7)%Z) /\
  CombinePdfs.parse_page_spec "1-2,7,3" 6
  = Raise (ValueError ("Page " +++ str_of_Z 7 +++ " out of range 1.." +++ str_of_Z 6)) /\
  (CombinePdfs.selects_all "1-2,-1,3" = false /\
   split "," "1-2,-1,3" = ["1-2"] ++ "-1" :: ["3"] /\
   strip "-1" = "-" +++ "1" /\ int_of_str "" = Raise (ValueError "invalid literal for int() with base 10: ''")) /\
  CombinePdfs.parse_page_spec "1-2,-1,3" 6 = Raise (ValueError "invalid literal for int() with base 10: ''").
Proof.
  assert (Hne : strip "7" <> "") by discriminate.
  assert (Hout : (7 < 1 \/ 6 < 7)%Z) by (right; lia).
  split; [repeat split; try reflexivity; assumption|].
  split.
  - destruct (@page_out_of_range_is_rejected Sample.platform "1-2,7,3" 6 ["1-2"] ["3"] "7"
                eq_refl eq_refl eq_refl) as (H & _).
    exact (H 7%Z Hne eq_refl eq_refl Hout).
  - split; [repeat split; reflexivity|].
    destruct (@page_out_of_range_is_rejected Sample.platform "1-2,-1,3" 6 ["1-2"] ["3"] "-1"
                eq_refl eq_refl eq_refl) as (_ & H).
    exact (H "1" _ eq_refl eq_refl).
Defined.

(** The first of three tools moved down by one row. *)
Lemma move_tool_exchanges_witness :
  ((0 <= MainWindow.currentRow three_tools < MainWindow.count three_tools)%Z /\
   (0 <= MainWindow.currentRow three_tools + 1 < MainWindow.count three_tools)%Z) /\
  MainWindow.tools (MainWindow._move_tool 1 three_tools) = [greet; convert; titled] /\
  let w' := MainWindow._move_tool 1 three_tools in
  Permutation (MainWindow.tools three_tools) (MainWindow.tools w') /\
  (forall k, nth_error (MainWindow.tools w') k
             = nth_error (MainWindow.tools three_tools) (source 0 1 k)) /\
  MainWindow.currentRow w' = 1%Z /\
  MainWindow.config_file w' = MainWindow.written (MainWindow.tools w') /\
  (exists l, MainWindow.config_file w' = VList l /\
             MainWindow.load_array l = Some (Ok (map cleared (MainWindow.tools w')))) /\
  MainWindow.tools (MainWindow._move_tool (- (1)) w') = MainWindow.tools three_tools /\
  MainWindow.currentRow (MainWindow._move_tool (- (1)) w') = MainWindow.currentRow three_tools.
Proof.
  assert (H1 : (0 <= MainWindow.currentRow three_tools < MainWindow.count three_tools)%Z)
    by (cbn; lia).
  assert (H2 : (0 <= MainWindow.currentRow three_tools + 1 < MainWindow.count three_tools)%Z)
    by (cbn; lia).
  split; [split; assumption|]. split; [reflexivity|].
  exact (move_tool_exchanges 1 three_tools H1 H2).
Defined.

(** A file with an unknown parameter field, loaded from the menu. *)
Lemma load_config_file_replaces_first_witness :
  "new.json" <> "" /\
  MainWindow._load_config_file "new.json" (Ok (VList unloadable)) three_tools
  = Some ({| MainWindow.tools := [convert; greet; titled];
             MainWindow.currentRow := 0%Z;
             MainWindow.config_file := VList unloadable |},
          [MainWindow.LoadFailed TypeError]) /\
  MainWindow.load_array unloadable = Some (Raise TypeError) /\
  forall e, MainWindow._load_config_file "new.json" (Raise e) three_tools
            = Some (three_tools, [MainWindow.LoadFailed e]).
Proof.
  assert (Hfn : "new.json" <> "") by discriminate.
  split; [exact Hfn|]. split; [reflexivity|]. split; [reflexivity|].
  exact (proj1 (load_config_file_replaces_first "new.json" three_tools Hfn)).
Defined.



(** The placeholders of [convert], whose only toggle is [fast]: the key
    [level_01] of the bag is no key of a toggle and keeps its value. *)
Lemma placeholders_of_the_compiler_witness :
  toggle_names convert = ["fast"] /\
  get "fast_01" (placeholders posix convert [("level_01", VStr "x"); ("fast", VBool true)])
  = Some (VStr "1") /\
  get "level_01" (placeholders posix convert [("level_01", VStr "x"); ("fast", VBool true)])
  = Some (VStr "x").
Proof.
  destruct (placeholders_of_the_compiler posix convert
              [("level_01", VStr "x"); ("fast", VBool true)]) as (_ & _ & _ & _ & Ht & Ho).
  split; [reflexivity|]. split.
  - destruct (Ht "fast" (or_introl eq_refl)) as (_ & _ & H). exact H.
  - apply (Ho "level_01" eq_refl).
    intros n [<-|[]]. repeat split; discriminate.
Defined.


(** The tool [blank], run. *)
Lemma blank_template_launches_nothing_witness :
  (ToolSpec.runner_mode blank = "command" /\ isfile posix (python_path posix) = true /\
   ToolSpec.runner blank <> "" /\ whitespace (ToolSpec.runner blank) = true /\
   collect_values blank_form = Some [("_output_dir", VStr "/out")]) /\
  _build_command posix blank [("_output_dir", VStr "/out")] = Some (Ok []) /\
  exists f',
    _on_run posix blank_form = Some (f', [Schedule_start_run]) /\
    status f' = Running /\ _pending_cmd f' = Some [] /\ fields f' = fields blank_form /\
    _start_run f' = None /\ spawned f' [Schedule_start_run] = [].
Proof.
  assert (Hne : ToolSpec.runner blank <> "") by discriminate.
  split; [repeat split; try reflexivity; exact Hne|].
  exact (blank_template_launches_nothing posix blank blank_form [("_output_dir", VStr "/out")]
           eq_refl eq_refl Hne eq_refl eq_refl eq_refl eq_refl).
Defined.

(** The values collected from the filled form of [survey]. *)
Lemma collected_bag_shape_witness :
  exists bag,
    (tool survey_filled = Some survey /\ collect_values survey_filled = Some bag) /\
    NoDup (keys bag) /\
    (forall k, In k (keys bag) ->
       k = "_output_dir" \/ In k (names (ToolSpec.inputs survey))) /\
    get "_output_dir" bag = Some (VStr "/out").
Proof.
  eexists. split; [split; reflexivity|].
  destruct (collected_bag_shape survey_filled survey _ eq_refl eq_refl) as (H1 & H2 & H3 & _).
  split; [exact H1|]. split; [exact H2|exact H3].
Defined.

(** The template generated for [sheet], compiled. *)
Lemma generated_template_compiles_witness :
  (ToolSpec.runner_mode generated = "command" /\
   isfile posix (python_path posix) = true /\
   ToolSpec.runner generated = ToolEditor.runner_template (ToolSpec.inputs generated) /\
   Forall (fun i => plain_name (InputSpec.name i) = true) (ToolSpec.inputs generated) /\
   Forall (fun i => mem (InputSpec.name i) generated_values = true)
          (ToolSpec.inputs generated)) /\
  ToolSpec.runner generated
  = "{python_u} " +++ dq +++ "{script}" +++ dq +++ " --name " +++ dq +++ "{name}" +++ dq
    +++ " --count {count} {verbose_flag}" /\
  _build_command posix generated generated_values
  = Some (Ok (map VStr ["/usr/bin/python3"; "-u"; "/x/run.py"; "--name"; "a b";
                        "--count"; "3"; "--no-verbose"])).
Proof.
  assert (Hp : Forall (fun i => plain_name (InputSpec.name i) = true)
                      (ToolSpec.inputs generated)) by (repeat constructor).
  assert (Hm : Forall (fun i => mem (InputSpec.name i) generated_values = true)
                      (ToolSpec.inputs generated)) by (repeat constructor).
  split; [repeat split; assumption|]. split; [reflexivity|].
  rewrite (generated_template_compiles posix generated generated_values
             eq_refl eq_refl eq_refl Hp Hm).
  reflexivity.
Defined.

(** The form of [convert], run. *)
Lemma run_launches_the_command_witness :
  (tool convert_form = Some convert /\ collect_values convert_form = Some convert_collected /\
   first_missing (ToolSpec.inputs convert) convert_collected = None /\
   _build_command posix convert convert_collected = Some (Ok convert_command) /\
   convert_command <> []) /\
  exists f',
    _on_run posix convert_form = Some (f', [Schedule_start_run]) /\
    status f' = Running /\ fields f' = fields convert_form /\
    output_dir f' = output_dir convert_form /\
    spawned f' [Schedule_start_run] = [convert_command] /\
    _start_run f'
    = Some (convert_command, [("PYTHONUNBUFFERED", "1"); ("PYTHONIOENCODING", "utf-8")]) /\
    exists program args,
      QProcRunner.start convert_command = Ok (program, args) /\
      convert_command = program :: args.
Proof.
  assert (Hne : convert_command <> []) by discriminate.
  split; [repeat split; try reflexivity; exact Hne|].
  exact (run_launches_the_command posix convert convert_form convert_collected convert_command
           eq_refl eq_refl eq_refl eq_refl Hne).
Defined.

(** A file that holds [{"title": "new"}], imported into the form of
    [convert]. *)
Lemma import_accepts_plain_values_witness :
  (tool convert_form = Some convert /\ "p.json" <> "" /\
   get "values" [("title", VStr "new")] = None /\
   get "meta" [("title", VStr "new")] = None) /\
  get "title" (fields (fst (_import_params "p.json" (Ok (VDict [("title", VStr "new")]))
                              false convert_form)))
  = Some (QLineEdit "new") /\
  _import_params "p.json" (Ok (VDict [("title", VStr "new")])) false convert_form
  = applied (VDict [("title", VStr "new")]) "p.json" convert_form /\
  _import_params "p.json" (Ok (VDict [("values", VDict [("title", VStr "new")])])) false
    convert_form
  = applied (VDict [("title", VStr "new")]) "p.json" convert_form.
Proof.
  assert (Hfile : "p.json" <> "") by discriminate.
  split; [repeat split; try reflexivity; exact Hfile|]. split; [reflexivity|].
  exact (import_accepts_plain_values "p.json" [("title", VStr "new")] false convert_form convert
           eq_refl Hfile eq_refl eq_refl).
Defined.

(** The form built for [preset]. *)
Lemma set_tool_builds_the_form_witness :
  (NoDup (names (ToolSpec.inputs preset)) /\
   Building.set_tool 0%Z new_year preset survey_filled
   = (preset_form, preset_rows, Building.Built, [Schedule_fit_inputs_height]) /\
   (forall k w, get k (fields preset_form) = Some w -> settled_value w)) /\
  form_for preset preset_form /\
  keys (fields preset_form) = names (ToolSpec.inputs preset) /\
  List.length preset_rows = List.length (ToolSpec.inputs preset).
Proof.
  assert (Hnd : NoDup (names (ToolSpec.inputs preset))).
  { repeat (constructor; [cbn; intuition discriminate|]). constructor. }
  assert (Hset : Building.set_tool 0%Z new_year preset survey_filled
                 = (preset_form, preset_rows, Building.Built, [Schedule_fit_inputs_height]))
    by reflexivity.
  assert (Hs : forall k w, get k (fields preset_form) = Some w -> settled_value w).
  { intros k w H. cbn in H.
    repeat match type of H with
           | (if ?b then _ else _) = _ =>
               destruct b; [injection H as <-; vm_compute; auto|]
           end.
    discriminate. }
  split; [split; [exact Hnd|split; [exact Hset|exact Hs]]|].
  destruct (@set_tool_builds_the_form Sample.platform 0%Z new_year preset survey_filled preset_form preset_rows
              [Schedule_fit_inputs_height] Hnd Hset Hs) as (H1 & H2 & H3 & _).
  split; [exact H1|split; [exact H2|exact H3]].
Defined.

(** The starter tool on the sample host. *)
Lemma starter_tool_compiles_witness :
  (isfile posix (python_path posix) = true /\ python_path posix <> "" /\
   sforall ordinary (python_path posix) = true) /\
  Config.load_config None = Some (Ok [starter]) /\
  _build_command posix starter greet_values
  = Some (Ok (map VStr ["/usr/bin/python3"; "-c"; "print('Hello from sample tool!')"])).
Proof.
  assert (Hne : python_path posix <> "") by discriminate.
  split; [repeat split; try reflexivity; exact Hne|].
  exact (starter_tool_compiles posix greet_values eq_refl Hne eq_refl).
Defined.

(** The tool [edited], opened and saved. *)
Lemma editor_gives_the_tool_back_witness :
  tool_survives (fun s => s) edited /\
  ToolEditor.result_tool 0%Z (ToolEditor.open_dialog (fun s => s) edited) = cleared edited.
Proof.
  assert (H : tool_survives (fun s => s) edited).
  { unfold tool_survives.
    split; [discriminate|]. split; [reflexivity|]. split; [left; reflexivity|].
    split; [reflexivity|].
    split; [intros s E; cbn in E; first [discriminate E | injection E as <-;
            split; [discriminate|reflexivity]]|].
    split; [intros s E; cbn in E; first [discriminate E | injection E as <-;
            split; [discriminate|reflexivity]]|].
    split; [reflexivity|].
    repeat (apply Forall_cons;
      [split; [discriminate|]; split; [reflexivity|]; split; [cbn; auto 20|];
       split; [intros l E; cbn in E; first [discriminate E | injection E as <-;
               split; [discriminate|reflexivity]]|];
       split; [vm_compute; repeat split; try discriminate; reflexivity|];
       intros c E; cbn in E; first [discriminate E | injection E as <-;
       split; [left; reflexivity|]; split; [discriminate|];
       repeat constructor; try discriminate; reflexivity]|]).
    apply Forall_nil. }
  split; [exact H|].
  exact (@editor_gives_the_tool_back Sample.platform 0%Z (fun s => s) edited H).
Defined.

End MoreExamples.
